(** * Sales upload pipeline: a shallow embedding of the two upload handlers

    The repository holds two versions of the upload route:
    - [src/app/api/upload/route.ts], embedded in module [Route]: field by
      field mapping, a history record written in state processing, inserts
      in chunks of 500 that stop at the first failing chunk;
    - [src/unnamed/part_000], embedded in module [Part000]: a column table,
      one bulk insert with a fallback to one insert per row, and a single
      history record written at the end.

    Module [JS] holds what both rely on from the language: cell values,
    truthiness, the day and year arithmetic of [Date], [parseFloat] on the
    strings the handlers pass to it. *)

From Stdlib Require Import ZArith QArith List String Ascii Bool Lia DecimalString
  DecimalNat.
Import ListNotations.

Local Open Scope string_scope.
Local Open Scope list_scope.
Local Open Scope Z_scope.

(* ================================================================= *)
(** ** JavaScript values and built-ins *)

Module JS.

(** A [number] is a Number of the language: NaN, the rational that a
    finite value denotes, or an infinity.  The finite values are the
    rationals of [is_Number] below, and arithmetic rounds to them
    ([Number_value]).  The sign of a zero is not kept. *)
Inductive number : Type :=
| NaN
| Num (q : Q)
| Inf (negative : bool).

(** A [Date] object is its time value: milliseconds since 1970-01-01T00:00Z,
    or [None] for an Invalid Date (time value NaN). *)
Definition Date : Type := option Z.

(** What a spreadsheet cell (an [any] in the source) may hold. *)
Inductive value : Type :=
| VNull
| VUndefined
| VBool (b : bool)
| VNum (n : number)
| VStr (s : string)
| VDate (d : Date).

Definition isNaN (n : number) : bool :=
  match n with NaN => true | Num _ | Inf _ => false end.

(** ToBoolean: the test of [if (v)], [!v] and [v || w]. *)
Definition truthy (v : value) : bool :=
  match v with
  | VNull | VUndefined => false
  | VBool b => b
  | VNum NaN => false
  | VNum (Num q) => negb (Qeq_bool q 0)
  | VNum (Inf _) => true
  | VStr s => negb (s =? "")%string
  | VDate _ => true
  end.

(** [v || w] on values. *)
Definition or_else (v w : value) : value := if truthy v then v else w.

(** *** Strings *)

Definition is_digit (c : ascii) : bool :=
  let n := nat_of_ascii c in (48 <=? n)%nat && (n <=? 57)%nat.

Definition digit_value (c : ascii) : Z := Z.of_nat (nat_of_ascii c) - 48.

Fixpoint filter_chars (keep : ascii -> bool) (s : string) : string :=
  match s with
  | EmptyString => EmptyString
  | String c s' =>
      if keep c then String c (filter_chars keep s') else filter_chars keep s'
  end.

(** The characters that [replace(/[^0-9.-]/g, '')] (route.ts) and
    [replace(/[^\d.-]/g, '')] (part_000) leave in place. *)
Definition numeric_char (c : ascii) : bool :=
  is_digit c || Ascii.eqb c "." || Ascii.eqb c "-".

Definition strip_non_numeric (s : string) : string :=
  filter_chars numeric_char s.

Definition lower_char (c : ascii) : ascii :=
  let n := nat_of_ascii c in
  if (65 <=? n)%nat && (n <=? 90)%nat then ascii_of_nat (n + 32) else c.

(** [toLowerCase], on the ASCII letters of the column headers. *)
Fixpoint toLowerCase (s : string) : string :=
  match s with
  | EmptyString => EmptyString
  | String c s' => String (lower_char c) (toLowerCase s')
  end.

(** [s.includes(t)] *)
Fixpoint includes (s t : string) : bool :=
  prefix t s ||
  match s with
  | EmptyString => false
  | String _ s' => includes s' t
  end.

Fixpoint endsWith (s t : string) : bool :=
  (s =? t)%string ||
  match s with
  | EmptyString => false
  | String _ s' => endsWith s' t
  end.

(** [s.split(c)[0]]: the part of [s] before the first [c]. *)
Fixpoint split_head (c : ascii) (s : string) : string :=
  match s with
  | EmptyString => EmptyString
  | String a s' => if Ascii.eqb a c then EmptyString else String a (split_head c s')
  end.

(** White space in ASCII: tab to carriage return, and the space. *)
Definition is_space (c : ascii) : bool :=
  let n := nat_of_ascii c in
  (n =? 32)%nat || ((9 <=? n)%nat && (n <=? 13)%nat).

(** The white space and the line terminators of the language (ECMA-262,
    12.2 and 12.3), which [trim] strips and [parseFloat] skips, as UTF-8
    encodes them: the white space of ASCII, U+00A0, U+1680, U+2000 to
    U+200A, U+2028, U+2029, U+202F, U+205F, U+3000 and U+FEFF. *)
Definition utf8 (bytes : list nat) : string :=
  string_of_list_ascii (map ascii_of_nat bytes).

Definition white_space : list string :=
  map utf8
    [[9]; [10]; [11]; [12]; [13]; [32]; [194; 160]; [225; 154; 128];
     [226; 128; 128]; [226; 128; 129]; [226; 128; 130]; [226; 128; 131];
     [226; 128; 132]; [226; 128; 133]; [226; 128; 134]; [226; 128; 135];
     [226; 128; 136]; [226; 128; 137]; [226; 128; 138]; [226; 128; 168];
     [226; 128; 169]; [226; 128; 175]; [226; 129; 159]; [227; 128; 128];
     [239; 187; 191]]%nat.

(** [s] without its first [n] characters. *)
Fixpoint drop (n : nat) (s : string) : string :=
  match n, s with
  | S n', String _ s' => drop n' s'
  | _, _ => s
  end.

(** [s] without the one of [spaces] it starts with, if it starts with one;
    then without all of them, [fuel] being the length of [s] at least. *)
Definition strip_one (spaces : list string) (s : string) : option string :=
  match find (fun ws => prefix ws s) spaces with
  | Some ws => Some (drop (String.length ws) s)
  | None => None
  end.

Fixpoint strip_leading (spaces : list string) (fuel : nat) (s : string) : string :=
  match fuel with
  | O => s
  | S fuel' =>
      match strip_one spaces s with
      | Some rest => strip_leading spaces fuel' rest
      | None => s
      end
  end.

Fixpoint reverse (s acc : string) : string :=
  match s with
  | EmptyString => acc
  | String c s' => reverse s' (String c acc)
  end.

Definition trimStart (s : string) : string :=
  strip_leading white_space (String.length s) s.

Definition trimEnd (s : string) : string :=
  reverse
    (strip_leading (map (fun ws => reverse ws "") white_space) (String.length s)
       (reverse s ""))
    "".

Definition trim (s : string) : string := trimEnd (trimStart s).

(** [s.replace(/a/g, b)] for characters [a] and [b]. *)
Fixpoint replace_char (a b : ascii) (s : string) : string :=
  match s with
  | EmptyString => EmptyString
  | String c s' =>
      String (if Ascii.eqb c a then b else c) (replace_char a b s')
  end.

(** [s.replace(/\s+/g, r)]: each maximal run of white space becomes one
    [r]; [inside] tells that the character before was white space. *)
Fixpoint replace_space_runs (r : ascii) (inside : bool) (s : string) : string :=
  match s with
  | EmptyString => EmptyString
  | String c s' =>
      if is_space c then
        if inside then replace_space_runs r true s'
        else String r (replace_space_runs r true s')
      else String c (replace_space_runs r false s')
  end.

(** Decimal numeral of a natural number, as a template literal prints it. *)
Definition string_of_nat (n : nat) : string :=
  NilZero.string_of_uint (Nat.to_uint n).

Definition string_of_Z (z : Z) : string :=
  NilZero.string_of_int (Z.to_int z).

Fixpoint zeros (n : nat) : string :=
  match n with
  | O => EmptyString
  | S n' => String "0" (zeros n')
  end.

(** [String(n).padStart(w, '0')] for a natural number [n]. *)
Definition pad (w : nat) (z : Z) : string :=
  let s := string_of_nat (Z.to_nat z) in
  (zeros (w - String.length s)%nat ++ s)%string.

(** *** The Number values (ECMA-262, 6.1.6.1)

    A finite Number is [m * 2^e] for whole numbers [m] and [e] with
    [|m| < 2^53] and [e >= -1074], of size below [2^1024].  On a fraction in
    lowest terms this reads: the denominator is a power of two, at most
    [2^1074], and the numerator has no bit set below its leading 53. *)
Definition is_Number (q : Q) : bool :=
  let r := Qred q in
  let n := Z.abs (Qnum r) in
  let d := Zpos (Qden r) in
  let low := Z.max 0 (Z.log2 n - 52) in
  (d =? 2 ^ Z.log2 d) && (Z.log2 d <=? 1074) &&
  (Z.shiftl (Z.shiftr n low) low =? n) &&
  (n <? 2 ^ 1024 * d).

(** The Number nearest to a rational that is not one: of the two around it
    the closer, on a tie the one with the even significand; an infinity
    from [2^1024 - 2^970] on. *)
Definition nearest_Number (q : Q) : number :=
  let negative := Qnum q <? 0 in
  let n := Z.abs (Qnum q) in
  let d := Zpos (Qden q) in
  if n =? 0 then Num 0
  else
    (* 2^l <= n/d < 2^(l+1) *)
    let l0 := Z.log2 n - Z.log2 d in
    let below := if 0 <=? l0 then n <? d * 2 ^ l0 else n * 2 ^ (- l0) <? d in
    let l := if below then l0 - 1 else l0 in
    (* the exponent of the last place of the significand *)
    let e := Z.max (l - 52) (-1074) in
    (* n/d = (x/y) * 2^e *)
    let x := if 0 <=? e then n else n * 2 ^ (- e) in
    let y := if 0 <=? e then d * 2 ^ e else d in
    let f := x / y in
    let r := x mod y in
    let m :=
      if 2 * r <? y then f
      else if y <? 2 * r then f + 1
      else if Z.even f then f else f + 1 in
    let signed := if negative then - m else m in
    if 0 <=? e then
      if 2 ^ 1024 <=? m * 2 ^ e then Inf negative
      else Num (inject_Z (signed * 2 ^ e))
    else Num (Qred (Qmake signed (Z.to_pos (2 ^ (- e))))).

(** The Number value for a rational: itself when it is a Number. *)
Definition Number_value (q : Q) : number :=
  if is_Number q then Num q else nearest_Number q.

(** [a * b] and [a + b] on numbers. *)
Definition mul (a b : number) : number :=
  match a, b with
  | NaN, _ | _, NaN => NaN
  | Num x, Num y => Number_value (x * y)
  | Inf s, Num y | Num y, Inf s =>
      if Qeq_bool y 0 then NaN else Inf (xorb s (Qnum y <? 0))
  | Inf s, Inf s' => Inf (xorb s s')
  end.

Definition add (a b : number) : number :=
  match a, b with
  | NaN, _ | _, NaN => NaN
  | Num x, Num y => Number_value (x + y)
  | Inf s, Num _ | Num _, Inf s => Inf s
  | Inf s, Inf s' => if Bool.eqb s s' then Inf s else NaN
  end.

(** *** parseFloat

    The handlers call [parseFloat] on strings from which every character
    other than a digit, a dot and a minus sign has been removed.  On those
    the grammar StrDecimalLiteral reduces to: an optional sign, then digits
    with an optional fraction, or a dot followed by digits (its exponent and
    Infinity alternatives need a letter).  [parseFloat] reads the longest
    such prefix and is NaN when there is none. *)

Fixpoint read_digits (s : string) (acc : Z) (count : nat) : Z * nat * string :=
  match s with
  | String c s' =>
      if is_digit c then read_digits s' (10 * acc + digit_value c) (S count)
      else (acc, count, s)
  | EmptyString => (acc, count, s)
  end.

(** The unsigned part: [Some (mantissa, k)] stands for mantissa / 10^k. *)
Definition read_unsigned (s : string) : option (Z * nat) :=
  let '(int_part, int_count, rest) := read_digits s 0 O in
  match rest with
  | String "." rest' =>
      let '(all, frac_count, _) := read_digits rest' int_part O in
      match int_count, frac_count with
      | O, O => None
      | _, _ => Some (all, frac_count)
      end
  | _ =>
      match int_count with
      | O => None
      | _ => Some (int_part, O)
      end
  end.

Fixpoint pow10 (k : nat) : positive :=
  match k with
  | O => 1%positive
  | S k' => (10 * pow10 k')%positive
  end.

Definition decimal_value (negative : bool) (m : Z) (k : nat) : Q :=
  Qmake (if negative then - m else m) (pow10 k).

Definition parseFloat (s : string) : number :=
  let t := trimStart s in
  let '(negative, body) :=
    match t with
    | String "-" t' => (true, t')
    | String "+" t' => (false, t')
    | _ => (false, t)
    end in
  match read_unsigned body with
  | Some (m, k) => Number_value (decimal_value negative m k)
  | None => NaN
  end.

(** *** Day and year arithmetic of Date (ECMA-262, 21.4.1) *)

Definition msPerDay : Z := 86400000.

Definition Day (t : Z) : Z := t / msPerDay.
Definition TimeWithinDay (t : Z) : Z := t mod msPerDay.

Definition isLeapYear (y : Z) : bool :=
  if negb (y mod 4 =? 0) then false
  else if negb (y mod 100 =? 0) then true
  else if negb (y mod 400 =? 0) then false
  else true.

Definition DaysInYear (y : Z) : Z := if isLeapYear y then 366 else 365.

Definition DayFromYear (y : Z) : Z :=
  365 * (y - 1970) + (y - 1969) / 4 - (y - 1901) / 100 + (y - 1601) / 400.

Definition TimeFromYear (y : Z) : Z := msPerDay * DayFromYear y.

(** The year a day number falls in: the estimate by the mean length of a
    year is off by at most one ([YearFromDay_bounds] below), the two tests
    correct it. *)
Definition YearFromDay (d : Z) : Z :=
  let y := 1970 + (400 * d) / 146097 in
  if d <? DayFromYear y then y - 1
  else if DayFromYear (y + 1) <=? d then y + 1
  else y.

Definition YearFromTime (t : Z) : Z := YearFromDay (Day t).

Definition InLeapYear (t : Z) : Z :=
  if isLeapYear (YearFromTime t) then 1 else 0.

Definition DayWithinYear (t : Z) : Z := Day t - DayFromYear (YearFromTime t).

Definition MonthFromTime (t : Z) : Z :=
  let d := DayWithinYear t in
  let l := InLeapYear t in
  if d <? 31 then 0
  else if d <? 59 + l then 1
  else if d <? 90 + l then 2
  else if d <? 120 + l then 3
  else if d <? 151 + l then 4
  else if d <? 181 + l then 5
  else if d <? 212 + l then 6
  else if d <? 243 + l then 7
  else if d <? 273 + l then 8
  else if d <? 304 + l then 9
  else if d <? 334 + l then 10
  else 11.

Definition DateFromTime (t : Z) : Z :=
  let d := DayWithinYear t in
  let l := InLeapYear t in
  match MonthFromTime t with
  | 0 => d + 1
  | 1 => d - 30
  | 2 => d - 58 - l
  | 3 => d - 89 - l
  | 4 => d - 119 - l
  | 5 => d - 150 - l
  | 6 => d - 180 - l
  | 7 => d - 211 - l
  | 8 => d - 242 - l
  | 9 => d - 272 - l
  | 10 => d - 303 - l
  | _ => d - 333 - l
  end.

Definition HourFromTime (t : Z) : Z := (t / 3600000) mod 24.
Definition MinFromTime (t : Z) : Z := (t / 60000) mod 60.
Definition SecFromTime (t : Z) : Z := (t / 1000) mod 60.
Definition msFromTime (t : Z) : Z := t mod 1000.

(** Days of the year before month [m] (0 to 11). *)
Definition monthStart (leap : bool) (m : Z) : Z :=
  let l := if leap then 1 else 0 in
  match m with
  | 0 => 0
  | 1 => 31
  | 2 => 59 + l
  | 3 => 90 + l
  | 4 => 120 + l
  | 5 => 151 + l
  | 6 => 181 + l
  | 7 => 212 + l
  | 8 => 243 + l
  | 9 => 273 + l
  | 10 => 304 + l
  | _ => 334 + l
  end.

Definition MakeDay (year month date : Z) : Z :=
  let ym := year + month / 12 in
  let mn := month mod 12 in
  DayFromYear ym + monthStart (isLeapYear ym) mn + date - 1.

Definition MakeTime (hour min sec ms : Z) : Z :=
  hour * 3600000 + min * 60000 + sec * 1000 + ms.

Definition MakeDate (day time : Z) : Z := day * msPerDay + time.

Definition maxTime : Z := 8640000000000000.

(** TimeClip on a whole number of milliseconds. *)
Definition TimeClip (t : Z) : Date :=
  if Z.abs t <=? maxTime then Some t else None.

(** ToIntegerOrInfinity of a rational: the fraction is dropped. *)
Definition truncate (q : Q) : Z := Z.quot (Qnum q) (Zpos (Qden q)).

(** TimeClip on a number, as [new Date(n)] applies it. *)
Definition TimeClipQ (q : Q) : Date :=
  if Qle_bool (inject_Z (- maxTime)) q && Qle_bool q (inject_Z maxTime)
  then Some (truncate q) else None.

(** The host of the handler: its local time zone, and the engine functions
    whose results the language leaves to the implementation. *)
Record Host : Type := {
  (** LocalTZA(t, isUTC) of ECMA-262, 21.4.1.24: the offset of local time
      from UTC in milliseconds, at the instant with time value [t] when
      [isUTC], at the local time [t] otherwise.  It follows the history of
      the zone: local mean time in 1899 in most zones. *)
  LocalTZA : Z -> bool -> Z;
  (** [Date.parse]: the time value of a date string, [None] for NaN *)
  Date_parse : string -> option Z;
  (** [String(n)] for a number *)
  Number_toString : number -> string;
  (** [String(d)] for a Date *)
  Date_toString : Date -> string
}.

Section WithHost.
Variable h : Host.

Definition LocalTime (t : Z) : Z := t + LocalTZA h t true.
Definition UTC (t : Z) : Z := t - LocalTZA h t false.

(** [new Date(year, month, date)], for a year outside 0..99. *)
Definition Date_ymd (year month date : Z) : Date :=
  TimeClip (UTC (MakeDate (MakeDay year month date) (MakeTime 0 0 0 0))).

(** [new Date(n)] for a number. *)
Definition Date_of_number (n : number) : Date :=
  match n with
  | NaN | Inf _ => None
  | Num q => TimeClipQ q
  end.

(** [new Date(s)] for a string. *)
Definition Date_of_string (s : string) : Date :=
  match Date_parse h s with
  | Some t => TimeClip t
  | None => None
  end.

(** [new Date(v)] for any value: a Date is copied, a string is parsed,
    anything else goes through ToNumber. *)
Definition Date_of_value (v : value) : Date :=
  match v with
  | VDate d => d
  | VStr s => Date_of_string s
  | VNum n => Date_of_number n
  | VNull | VBool false => TimeClip 0
  | VBool true => TimeClip 1
  | VUndefined => None
  end.

(** [d.getTime()] *)
Definition getTime (d : Date) : number :=
  match d with
  | Some t => Num (inject_Z t)
  | None => NaN
  end.

(** [d.getFullYear()], [d.getMonth()] and [d.getDate()] of a valid date
    with time value [t]: fields of the local time. *)
Definition getFullYear (t : Z) : Z := YearFromTime (LocalTime t).
Definition getMonth (t : Z) : Z := MonthFromTime (LocalTime t).

End WithHost.

(** [a + b * c] on numbers, as in [excelEpoch.getTime() + value * 86400000]. *)
Definition add_mul (a b : number) (c : Z) : number :=
  add a (mul b (Num (inject_Z c))).

Definition isoYear (y : Z) : string :=
  if (0 <=? y) && (y <=? 9999) then pad 4 y
  else if y <? 0 then ("-" ++ pad 6 (- y))%string
  else ("+" ++ pad 6 y)%string.

(** The date part and the whole of [d.toISOString()] for a valid time
    value: fields of the UTC time. *)
Definition isoDate (t : Z) : string :=
  (isoYear (YearFromTime t) ++ "-" ++ pad 2 (MonthFromTime t + 1) ++ "-" ++
   pad 2 (DateFromTime t))%string.

Definition toISOString (t : Z) : string :=
  (isoDate t ++ "T" ++ pad 2 (HourFromTime t) ++ ":" ++ pad 2 (MinFromTime t) ++
   ":" ++ pad 2 (SecFromTime t) ++ "." ++ pad 3 (msFromTime t) ++ "Z")%string.

(** [String(v)] *)
Definition toString (h : Host) (v : value) : string :=
  match v with
  | VNull => "null"
  | VUndefined => "undefined"
  | VBool true => "true"
  | VBool false => "false"
  | VNum n => Number_toString h n
  | VStr s => s
  | VDate d => Date_toString h d
  end.

(** The calendar date (year, zero-based month, day of the month) of a day
    number, and the length of a month. *)
Definition civil (day : Z) : Z * Z * Z :=
  let t := day * msPerDay in (YearFromTime t, MonthFromTime t, DateFromTime t).

Definition daysInMonth (leap : bool) (m : Z) : Z :=
  match m with
  | 1 => if leap then 29 else 28
  | 3 | 5 | 8 | 10 => 30
  | _ => 31
  end.


(** A row of the sheet as [sheet_to_json] builds it: an object from header
    to cell, its properties in insertion order with distinct keys. *)
Definition object : Type := list (string * value).

(** [row[key]]: [undefined] when the object has no such property. *)
Fixpoint get (row : object) (key : string) : value :=
  match row with
  | [] => VUndefined
  | (k, v) :: rest => if (k =? key)%string then v else get rest key
  end.

End JS.

(* ================================================================= *)
(** ** The database client, as the handlers use it *)

Module Supabase.

(** The [error] member of a query result. *)
Record PostgrestError : Type := {
  message : string;
  details : option string;
  hint : option string;
  code : string
}.

(** How an awaited query settles: it resolves to [{ data, error }] (of
    [data] the handlers read only the length), or it rejects and the
    [await] throws. *)
Inductive settled : Type :=
| Resolved (data : option nat) (error : option PostgrestError)
| Rejected (message : string).

(** A row of table upload_history. *)
Record upload_history : Type := {
  batch_id : string;
  history_entity : string;
  file_name : string;
  rows_uploaded : nat;
  status : string;
  error_message : option string
}.

Section Queries.
(** The type of the rows of table sales_data. *)
Variable row : Type.

Inductive query : Type :=
(** [from('upload_history').insert(r)] *)
| InsertHistory (r : upload_history)
(** [from('upload_history').update({ status, error_message }).eq('batch_id', id)],
    with [error_message] absent from the patch when [None] *)
| UpdateHistory (new_status : string) (new_error : option string) (id : string)
(** [from('sales_data').insert(rows)], followed by [.select()] when
    [returning] *)
| InsertSales (rows : list row) (returning : bool)
(** [from('sales_data').select('*').limit(0)] *)
| ProbeSales.

(** The database and the network: what the n-th query of a request
    settles to. *)
Definition world : Type := nat -> query -> settled.

(** The queries a request has issued, oldest first, each with its result. *)
Definition trace : Type := list (query * settled).

Definition call (w : world) (tr : trace) (q : query) : settled * trace :=
  let r := w (List.length tr) q in (r, tr ++ [(q, r)]).

(** A query takes effect when it resolves without an error. *)
Definition took_effect (r : settled) : bool :=
  match r with
  | Resolved _ None => true
  | _ => false
  end.

Definition patch (new_status : string) (new_error : option string) (id : string)
    (r : upload_history) : upload_history :=
  if (batch_id r =? id)%string then
    {| batch_id := batch_id r;
       history_entity := history_entity r;
       file_name := file_name r;
       rows_uploaded := rows_uploaded r;
       status := new_status;
       error_message :=
         match new_error with
         | Some e => Some e
         | None => error_message r
         end |}
  else r.

(** Table upload_history after the queries of a trace. *)
Fixpoint history_table (tr : trace) (table : list upload_history)
    : list upload_history :=
  match tr with
  | [] => table
  | (q, r) :: rest =>
      history_table rest
        (if took_effect r then
           match q with
           | InsertHistory rec => table ++ [rec]
           | UpdateHistory st e id => map (patch st e id) table
           | _ => table
           end
         else table)
  end.

(** The rows that the queries of a trace have added to table sales_data. *)
Fixpoint sales_table (tr : trace) : list row :=
  match tr with
  | [] => []
  | (InsertSales rows _, r) :: rest =>
      if took_effect r then rows ++ sales_table rest else sales_table rest
  | _ :: rest => sales_table rest
  end.

End Queries.

Arguments InsertHistory {row}.
Arguments UpdateHistory {row}.
Arguments InsertSales {row}.
Arguments ProbeSales {row}.
Arguments call {row}.
Arguments history_table {row}.
Arguments sales_table {row}.

End Supabase.

(** The body of a JSON response. *)
Inductive json : Type :=
| JBool (b : bool)
| JNum (n : nat)
| JStr (s : string)
| JStrs (l : list string).

Record response : Type := {
  http_status : nat;
  body : list (string * json)
}.

(** [body.key], absent when the object has no such member. *)
Fixpoint member (key : string) (b : list (string * json)) : option json :=
  match b with
  | [] => None
  | (k, v) :: rest => if (k =? key)%string then Some v else member key rest
  end.

(** A member whose value may be [undefined]: JSON drops it then. *)
Definition optional (key : string) (v : option string) : list (string * json) :=
  match v with
  | Some s => [(key, JStr s)]
  | None => []
  end.

(** The uploaded file of the form: [name], [size], [type]. *)
Record File : Type := {
  name : string;
  size : Z;
  type : string
}.

(** The multipart form of a request: [formData.get] is null for a field
    that is absent. *)
Record Request : Type := {
  form_file : option File;
  form_entity : option string
}.

(* ================================================================= *)
(** ** src/app/api/upload/route.ts *)

Module Route.
Import JS Supabase.

(** The object pushed on [transformedData]; the seventy text members and
    the thirteen numeric members are kept under their column names. *)
Record mappedRow : Type := {
  entity : string;
  year : option Z;
  quarter : option string;
  invoice_date : option string;
  due_date : option string;
  created_date : option string;
  texts : list (string * value);
  numbers : list (string * option number);
  upload_batch_id : string
}.

(** An element of [rawData]: [sheet_to_json] builds one object for each
    row of the sheet. *)
Inductive rawRecord : Type :=
| RObject (o : object).

(** What [XLSX.read] and [sheet_to_json] make of the uploaded bytes. *)
Inductive workbook : Type :=
| Unreadable (message : string)
| Sheet (rawData : list rawRecord).

(** route.ts:224-309, members of the form [row[header] || null] *)
Definition text_columns : list (string * string) :=
  [("sales_type", "Sales Type"); ("invoice", "Invoice");
   ("voucher", "Voucher"); ("pool", "Pool");
   ("supply_method", "Supply method"); ("sub_method_1", "Sub Method - 1");
   ("sub_method_2", "Sub Method - 2"); ("sub_method_3", "Sub Method - 3");
   ("application", "Application"); ("industry", "Industry");
   ("sub_industry_1", "Sub Industry - 1");
   ("sub_industry_2", "Sub Industry - 2");
   ("general_group", "General group"); ("sales_order", "Sales order");
   ("account_number", "Account number"); ("name", "Name");
   ("name2", "Name2");
   ("customer_invoice_account", "Customer invoice account");
   ("invoice_account", "Invoice account"); ("group", "Group");
   ("currency", "Currency"); ("sales_tax_group", "Sales tax group");
   ("payment_type", "Payment type");
   ("terms_of_payment", "Terms of payment");
   ("payment_schedule", "Payment schedule");
   ("method_of_payment", "Method of payment");
   ("posting_profile", "Posting profile");
   ("delivery_terms", "Delivery terms"); ("h_dim_wk", "H_DIM_WK");
   ("h_wk_name", "H_WK_NAME"); ("h_dim_cc", "H_DIM_CC");
   ("h_dim_name", "H_DIM_NAME"); ("street", "Street"); ("city", "City");
   ("state", "State"); ("zip_postal_code", "ZIP/postal code");
   ("final_zipcode", "Final ZipCode"); ("region", "Region");
   ("product_type", "Product type"); ("item_group", "Item group");
   ("category", "Category"); ("model", "Model");
   ("item_number", "Item number"); ("product_name", "Product name");
   ("text", "Text"); ("warehouse", "Warehouse"); ("name3", "Name3");
   ("inventory_unit", "Inventory unit");
   ("sales_tax_group2", "Sales tax group2");
   ("tax_item_group", "TaxItemGroup");
   ("mode_of_delivery", "Mode of delivery"); ("dlv_detail", "Dlv Detail");
   ("online_order", "Online order"); ("sales_channel", "Sales channel");
   ("promotion", "Promotion"); ("second_sales", "2nd Sales");
   ("personnel_number", "Personnel number"); ("worker_name", "WORKERNAME");
   ("l_dim_name", "L_DIM_NAME"); ("l_dim_wk", "L_DIM_WK");
   ("l_wk_name", "L_WK_NAME"); ("l_dim_cc", "L_DIM_CC");
   ("main_account", "Main account"); ("account_name", "Account name");
   ("description", "Description"); ("country", "Country");
   ("created_by", "CREATEDBY"); ("exception", "Exception");
   ("with_collection_agency", "With collection agency");
   ("credit_rating", "Credit rating")].

(** route.ts:246-302, members of the form [parseNumber(row[header])] *)
Definition number_columns : list (string * string) :=
  [("invoice_amount", "Invoice Amount");
   ("invoice_amount_mst", "Invoice Amount_MST");
   ("sales_tax_amount", "Sales tax amount");
   ("sales_tax_amount_accounting", "The sales tax amount, in the accounting currency");
   ("total_for_invoice", "Total for invoice"); ("total_mst", "Total_MST");
   ("open_balance", "Open balance"); ("line_number", "Line number");
   ("quantity", "Quantity"); ("price_unit", "Price unit");
   ("net_amount", "Net amount"); ("line_amount_mst", "Line Amount_MST");
   ("rebate", "Rebate")].

Definition validEntities : list string :=
  ["HQ"; "USA"; "BWA"; "Vietnam"; "Healthcare"; "Korot"].

Definition MAX_FILE_SIZE : Z := 50 * 1024 * 1024.

Definition validTypes : list string :=
  ["application/vnd.openxmlformats-officedocument.spreadsheetml.sheet";
   "application/vnd.ms-excel"].

Definition CHUNK_SIZE : nat := 500.

(** [list.includes(s)] *)
Definition mem (s : string) (l : list string) : bool := existsb (String.eqb s) l.

(** [data.slice(i, j)] *)
Definition slice {A : Type} (l : list A) (i j : nat) : list A :=
  firstn (j - i) (skipn i l).

(** route.ts:211-215 *)
Definition parseNumber (value : value) : option number :=
  match value with
  | VNull | VUndefined | VStr "" => None
  | _ =>
      let num :=
        match value with
        | VStr s => parseFloat (strip_non_numeric s)
        | VNum n => n
        | _ => NaN  (* parseFloat of "true", "false" or a printed Date *)
        end in
      if isNaN num then None else Some num
  end.

Section Handler.
Variable h : Host.

(** route.ts:138 *)
Definition excelEpoch : Date := Date_ymd h 1899 11 30.

(** route.ts:136-146; [None] stands for the throw of 'Invalid date type',
    caught by the handler of the same block. *)
Definition parsedDate (dateValue : value) : option Date :=
  match dateValue with
  | VNum n => Some (Date_of_number (add_mul (getTime excelEpoch) n 86400000))
  | VStr s => Some (Date_of_string h s)
  | VDate d => Some d
  | _ => None
  end.

(** route.ts:127-156: [invoiceDate], [year] and [quarter] *)
Definition invoiceDateFields (row : object)
    : option string * option Z * option string :=
  let dateValue := get row "Invoice date" in
  if truthy dateValue then
    match parsedDate dateValue with
    | Some (Some t) =>
        (Some (split_head "T" (toISOString t)),
         Some (getFullYear h t),
         Some ("Q" ++ string_of_Z (getMonth h t / 3 + 1))%string)
    | _ => (None, None, None)
    end
  else (None, None, None).

(** route.ts:159-182 *)
Definition dueDateField (row : object) : option string :=
  let dateValue := get row "Due date" in
  if truthy dateValue then
    match parsedDate dateValue with
    | Some (Some t) => Some (split_head "T" (toISOString t))
    | _ => None
    end
  else None.

(** route.ts:185-208 *)
Definition createdDateField (row : object) : option string :=
  let dateValue := get row "CREATEDDATE" in
  if truthy dateValue then
    match parsedDate dateValue with
    | Some (Some t) => Some (toISOString t)
    | _ => None
    end
  else None.

(** route.ts:125-314, the body of the [try]: the row to push, or the
    message of the exception that reaches the [catch] of line 316.  On an
    object no statement of the body raises: the blocks of the three dates
    catch what they throw, and [parseNumber] does not throw. *)
Definition transformRow (entity0 batchId : string) (r : rawRecord)
    : string + mappedRow :=
  match r with
  | RObject row =>
      let '(invoiceDate, year0, quarter0) := invoiceDateFields row in
      inr {| entity := entity0;
             year := year0;
             quarter := quarter0;
             invoice_date := invoiceDate;
             due_date := dueDateField row;
             created_date := createdDateField row;
             texts :=
               map (fun c => (fst c, or_else (get row (snd c)) VNull)) text_columns;
             numbers :=
               map (fun c => (fst c, parseNumber (get row (snd c)))) number_columns;
             upload_batch_id := batchId |}
  end.

(** route.ts:121-323, the loop over [rawData]; [i] is the index of the
    head of [rawData]. *)
Fixpoint transform_loop (entity0 batchId : string) (rawData : list rawRecord)
    (i : nat) (transformedData : list mappedRow) (errors : list string)
    : list mappedRow * list string :=
  match rawData with
  | [] => (transformedData, errors)
  | r :: rest =>
      let rowNum := (i + 2)%nat in
      match transformRow entity0 batchId r with
      | inr mapped =>
          transform_loop entity0 batchId rest (S i) (transformedData ++ [mapped]) errors
      | inl msg =>
          let errors' :=
            errors ++ [("Row " ++ string_of_nat rowNum ++ ": " ++ msg)%string] in
          if (10 <=? List.length errors')%nat
          then (transformedData, errors' ++ ["... (showing first 10 errors)"])
          else transform_loop entity0 batchId rest (S i) transformedData errors'
      end
  end.

(** route.ts:344 *)
Definition stamp (batchId : string) (r : mappedRow) : mappedRow :=
  {| entity := entity r;
     year := year r;
     quarter := quarter r;
     invoice_date := invoice_date r;
     due_date := due_date r;
     created_date := created_date r;
     texts := texts r;
     numbers := numbers r;
     upload_batch_id := batchId |}.

(** Where a run of the handler ends: the response, the queries issued, the
    variables [batchId] and [totalInserted] at that point, and the counts
    that line 405 has printed, one after each chunk inserted. *)
Record outcome : Type := {
  reply : response;
  queries : trace mappedRow;
  batchId_at_exit : string;
  totalInserted_at_exit : nat;
  progress : list nat
}.

Definition rejected (st : nat) (error : string) (more : list (string * json))
    : outcome :=
  {| reply := {| http_status := st;
                 body := [("success", JBool false); ("error", JStr error)] ++ more |};
     queries := [];
     batchId_at_exit := "";
     totalInserted_at_exit := 0;
     progress := [] |}.

Section Persisting.
Variable w : world mappedRow.
Variables (entity0 : string) (file : File).
Variable batchId : string.
Variable transformedData : list mappedRow.
Variable errors : list string.

(** route.ts:426-453, the handler of the outer [try], entered with the
    message of the exception.  An update that rejects is logged.  The
    member [stack] of the body is set in development builds only and is
    left out. *)
Definition catch_all (totalInserted : nat) (printed : list nat) (msg : string)
    (tr : trace mappedRow) : outcome :=
  {| reply := {| http_status := 500;
                 body := [("success", JBool false);
                          ("error", JStr "Internal server error");
                          ("details", JStr msg)] |};
     queries :=
       if (batchId =? "")%string then tr
       else snd (call w tr (UpdateHistory "failed" (Some msg) batchId));
     batchId_at_exit := batchId;
     totalInserted_at_exit := totalInserted;
     progress := printed |}.

(** route.ts:408-424 *)
Definition complete (totalInserted : nat) (printed : list nat)
    (tr : trace mappedRow) : outcome :=
  match call w tr (UpdateHistory "completed" None batchId) with
  | (Rejected msg, tr') => catch_all totalInserted printed msg tr'
  | (Resolved _ _, tr') =>
      {| reply := {| http_status := 200;
                     body := [("success", JBool true);
                              ("batchId", JStr batchId);
                              ("rowsInserted", JNum totalInserted);
                              ("rowsSkipped", JNum (List.length errors));
                              ("entity", JStr entity0);
                              ("fileName", JStr (name file))] |};
         queries := tr';
         batchId_at_exit := batchId;
         totalInserted_at_exit := totalInserted;
         progress := printed |}
  end.

(** route.ts:381-402 *)
Definition insert_failed (totalInserted : nat) (printed : list nat)
    (insertError : PostgrestError) (tr : trace mappedRow) : outcome :=
  match call w tr (UpdateHistory "failed" (Some (message insertError)) batchId) with
  | (Rejected msg, tr') => catch_all totalInserted printed msg tr'
  | (Resolved _ _, tr') =>
      {| reply := {| http_status := 500;
                     body := [("success", JBool false);
                              ("error", JStr "Database insert failed");
                              ("details", JStr (message insertError))] ++
                             optional "hint" (hint insertError) |};
         queries := tr';
         batchId_at_exit := batchId;
         totalInserted_at_exit := totalInserted;
         progress := printed |}
  end.

(** route.ts:375-406, the loop over the chunks, entered at index [i].  Each
    turn adds [CHUNK_SIZE] to [i]: the turns left never exceed the rows
    left, so the loop is never cut short when [fuel] is the number of rows
    ([insert_loop_fuel] below). *)
Fixpoint insert_loop (fuel : nat) (i totalInserted : nat) (printed : list nat)
    (tr : trace mappedRow) : outcome :=
  if (i <? List.length transformedData)%nat then
    match fuel with
    | O => complete totalInserted printed tr
    | S fuel' =>
        let chunk := slice transformedData i (i + CHUNK_SIZE) in
        match call w tr (InsertSales chunk false) with
        | (Rejected msg, tr') => catch_all totalInserted printed msg tr'
        | (Resolved _ (Some insertError), tr') =>
            insert_failed totalInserted printed insertError tr'
        | (Resolved _ None, tr') =>
            let totalInserted' := (totalInserted + List.length chunk)%nat in
            insert_loop fuel' (i + CHUNK_SIZE) totalInserted'
              (printed ++ [totalInserted']) tr'
        end
    end
  else complete totalInserted printed tr.

(** route.ts:346-424 *)
Definition persist : outcome :=
  match
    call w []
      (InsertHistory {| batch_id := batchId;
                        history_entity := entity0;
                        file_name := name file;
                        rows_uploaded := List.length transformedData;
                        status := "processing";
                        error_message := None |})
  with
  | (Rejected msg, tr) => catch_all 0 [] msg tr
  | (Resolved _ (Some historyError), tr) =>
      {| reply := {| http_status := 500;
                     body := [("success", JBool false);
                              ("error", JStr "Database error");
                              ("details", JStr (message historyError))] |};
         queries := tr;
         batchId_at_exit := batchId;
         totalInserted_at_exit := 0;
         progress := [] |}
  | (Resolved _ None, tr) =>
      insert_loop (List.length transformedData) 0 0 [] tr
  end.

End Persisting.

(** What the handler takes from outside the request: the spreadsheet
    library and the generator of batch identifiers.  The request is taken
    as its parsed form, and [createServiceClient] (lib/supabase/server, not
    among the sources) as returning a client: past the checks the awaited
    queries are the steps that may throw. *)
Variable XLSX_read : File -> workbook.
Variable uuidv4 : string.

(** route.ts:29-337: the checks, the parse and the transform.  A request
    that passes yields the file, the entity, [transformedData] and
    [errors]; one that does not yields the response returned at once. *)
Definition prepare (req : Request)
    : outcome + (File * string * list mappedRow * list string) :=
  match form_file req with
  | None => inl (rejected 400 "No file provided" [])
  | Some file =>
      match form_entity req with
      | None | Some "" => inl (rejected 400 "No entity selected" [])
      | Some entity0 =>
          if negb (mem entity0 validEntities) then
            inl (rejected 400 ("Invalid entity: " ++ entity0)%string [])
          else if MAX_FILE_SIZE <? size file then
            inl (rejected 400 "File too large. Maximum size is 50MB." [])
          else if negb (mem (type file) validTypes) then
            inl (rejected 400
                   "Invalid file type. Only .xlsx and .xls files are allowed." [])
          else
            match XLSX_read file with
            | Unreadable msg =>
                inl (rejected 400 "Failed to parse Excel file"
                       [("details", JStr msg)])
            | Sheet rawData =>
                if (List.length rawData =? 0)%nat then
                  inl (rejected 400 "Excel file is empty" [])
                else
                  let '(transformedData, errors) :=
                    transform_loop entity0 "" rawData 0 [] [] in
                  if (0 <? List.length errors)%nat
                     && (List.length transformedData =? 0)%nat
                  then
                    inl (rejected 400 "Data validation failed"
                           [("details", JStrs errors)])
                  else inr (file, entity0, transformedData, errors)
            end
      end
  end.

(** route.ts:11-454 *)
Definition POST (req : Request) (w : world mappedRow) : outcome :=
  match prepare req with
  | inl out => out
  | inr (file, entity0, transformedData, errors) =>
      persist w entity0 file uuidv4 (map (stamp uuidv4) transformedData) errors
  end.

End Handler.

End Route.

(* ================================================================= *)
(** ** src/unnamed/part_000 *)

Module Part000.
Import JS Supabase.

(** part_000:195-282, [columnMapping]: header, then column *)
Definition columnMapping : list (string * string) :=
  [("Sales Type", "sales_type"); ("Invoice", "invoice");
   ("Voucher", "voucher"); ("Invoice date", "invoice_date");
   ("Pool", "pool"); ("Supply method", "supply_method");
   ("Sub Method - 1", "sub_method_1"); ("Sub Method - 2", "sub_method_2");
   ("Sub Method - 3", "sub_method_3"); ("Application", "application");
   ("Industry", "industry"); ("Sub Industry - 1", "sub_industry_1");
   ("Sub Industry - 2", "sub_industry_2");
   ("General group", "general_group"); ("Sales order", "sales_order");
   ("Account number", "account_number"); ("Name", "name");
   ("Name2", "name2");
   ("Customer invoice account", "customer_invoice_account");
   ("Invoice account", "invoice_account"); ("Group", "group");
   ("Currency", "currency"); ("Invoice Amount", "invoice_amount");
   ("Invoice Amount_MST", "invoice_amount_mst");
   ("Sales tax amount", "sales_tax_amount");
   ("The sales tax amount, in the accounting currency", "sales_tax_amount_accounting");
   ("Total for invoice", "total_for_invoice"); ("Total_MST", "total_mst");
   ("Open balance", "open_balance"); ("Due date", "due_date");
   ("Sales tax group", "sales_tax_group"); ("Payment type", "payment_type");
   ("Terms of payment", "terms_of_payment");
   ("Payment schedule", "payment_schedule");
   ("Method of payment", "method_of_payment");
   ("Posting profile", "posting_profile");
   ("Delivery terms", "delivery_terms"); ("H_DIM_WK", "h_dim_wk");
   ("H_WK_NAME", "h_wk_name"); ("H_DIM_CC", "h_dim_cc");
   ("H DIM NAME", "h_dim_name"); ("Line number", "line_number");
   ("Street", "street"); ("City", "city"); ("State", "state");
   ("ZIP/postal code", "zip_postal_code");
   ("Final ZipCode", "final_zipcode"); ("Region", "region");
   ("Product type", "product_type"); ("Item group", "item_group");
   ("Category", "category"); ("Model", "model");
   ("Item number", "item_number"); ("Product name", "product_name");
   ("Text", "text"); ("Warehouse", "warehouse"); ("Name3", "name3");
   ("Quantity", "quantity"); ("Inventory unit", "inventory_unit");
   ("Price unit", "price_unit"); ("Net amount", "net_amount");
   ("Line Amount_MST", "line_amount_mst");
   ("Sales tax group2", "sales_tax_group2");
   ("TaxItemGroup", "tax_item_group");
   ("Mode of delivery", "mode_of_delivery"); ("Dlv Detail", "dlv_detail");
   ("Online order", "online_order"); ("Sales channel", "sales_channel");
   ("Promotion", "promotion"); ("2nd Sales", "second_sales");
   ("Personnel number", "personnel_number"); ("WORKERNAME", "worker_name");
   ("L DIM NAME", "l_dim_name"); ("L_DIM_WK", "l_dim_wk");
   ("L_WK_NAME", "l_wk_name"); ("L_DIM_CC", "l_dim_cc");
   ("Main account", "main_account"); ("Account name", "account_name");
   ("Rebate", "rebate"); ("Description", "description");
   ("Country", "country"); ("CREATEDDATE", "created_date");
   ("CREATEDBY", "created_by"); ("Exception", "exception");
   ("With collection agency", "with_collection_agency");
   ("Credit rating", "credit_rating")].

(** [dbRow[key] = v] *)
Fixpoint set (o : object) (key : string) (v : value) : object :=
  match o with
  | [] => [(key, v)]
  | (k, v0) :: rest =>
      if (k =? key)%string then (k, v) :: rest else (k, v0) :: set rest key v
  end.

(** part_000:136-143, on ASCII strings; the handler declares this helper
    and maps the headers through [columnMapping] instead. *)
Definition toSnakeCase (str : string) : string :=
  toLowerCase
    (replace_char "/" "_"
       (filter_chars (fun c => negb (Ascii.eqb c "(" || Ascii.eqb c ")"))
          (replace_char "-" "_" (replace_space_runs "_" false str)))).

(** part_000:146-156 *)
Definition getValue (row : object) (columnName : string) : value :=
  match get row columnName with
  | VUndefined =>
      match
        find (fun kv => (toLowerCase (fst kv) =? toLowerCase columnName)%string) row
      with
      | Some (matchedKey, _) =>
          if (matchedKey =? "")%string then VNull else get row matchedKey
      | None => VNull
      end
  | v => v
  end.

(** part_000:290 and 295-297: the kind of a column, read off its name *)
Definition is_date_column (dbCol : string) : bool :=
  includes dbCol "_date" || (dbCol =? "created_date")%string.

Definition is_numeric_column (dbCol : string) : bool :=
  includes dbCol "amount" || includes dbCol "balance" ||
  includes dbCol "quantity" || (dbCol =? "line_number")%string ||
  (dbCol =? "price_unit")%string || (dbCol =? "rebate")%string.

Section Handler.
Variable h : Host.


(** part_000:20-24; [x || 0] is 0 when [x] is NaN or zero. *)
Definition parseNumber (value : value) : number :=
  match value with
  | VNum n => n
  | _ =>
      let cleaned := strip_non_numeric (toString h value) in
      match parseFloat cleaned with
      | NaN => Num 0
      | Num q => if Qeq_bool q 0 then Num 0 else Num q
      | Inf s => Inf s
      end
  end.

(** part_000:159-168.  The result is null ([None]) or a Date, which may
    be an Invalid Date ([Some None]). *)
Definition parseDateValue (value : value) : option Date :=
  if negb (truthy value) then None
  else
    match value with
    | VDate d => Some d
    | VNum n =>
        let excelEpoch := Date_ymd h 1899 11 30 in
        Some (Date_of_number (add_mul (getTime excelEpoch) n 86400000))
    | _ =>
        match Date_of_value h value with
        | None => None
        | Some t => Some (Some t)
        end
    end.

(** The helpers of lib/utils/formatters and lib/utils, which are not among
    the sources: the handler is embedded for any such functions. *)
Variable getYearFromDate : Date -> number.
Variable getQuarterFromDate : Date -> string.

(** part_000:174-183: [invoiceDate], [year] and [quarter] *)
Definition invoiceDateOf (row : object) : option Date :=
  parseDateValue (or_else (getValue row "Invoice date") (getValue row "Date")).

Definition yearQuarter (invoiceDate : option Date) : value * value :=
  match invoiceDate with
  | Some d => (VNum (getYearFromDate d), VStr (getQuarterFromDate d))
  | None => (VNull, VNull)
  end.

(** part_000:286-304: the value stored for one column; [None] stands for
    the RangeError of [toISOString] on an Invalid Date. *)
Definition columnValue (row : object) (excelCol dbCol : string) : option value :=
  let value := getValue row excelCol in
  if is_date_column dbCol then
    match parseDateValue value with
    | Some (Some t) => Some (VStr (split_head "T" (toISOString t)))
    | Some None => None
    | None => Some VNull
    end
  else if is_numeric_column dbCol then
    let numValue := parseNumber value in
    Some (if isNaN numValue then VNull else VNum numValue)
  else
    Some (match value with
          | VNull | VUndefined => VNull
          | _ => VStr (trim (toString h value))
          end).

(** part_000:285-305, the [forEach] over the columns *)
Fixpoint fill (row : object) (columns : list (string * string)) (dbRow : object)
    : option object :=
  match columns with
  | [] => Some dbRow
  | (excelCol, dbCol) :: rest =>
      match columnValue row excelCol dbCol with
      | Some v => fill row rest (set dbRow dbCol v)
      | None => None
      end
  end.

(** part_000:171-312: the row for the database, or [None] for the null
    that the [catch] returns and the [filter] drops. *)
Definition mapRow (entity0 batchId : string) (row : object) : option object :=
  let '(year0, quarter0) := yearQuarter (invoiceDateOf row) in
  fill row columnMapping
    [("entity", VStr entity0); ("year", year0); ("quarter", quarter0);
     ("upload_batch_id", VStr batchId)].

(** part_000:170-313 *)
Fixpoint mapRows (entity0 batchId : string) (excelData : list object)
    : list object :=
  match excelData with
  | [] => []
  | row :: rest =>
      match mapRow entity0 batchId row with
      | Some dbRow => dbRow :: mapRows entity0 batchId rest
      | None => mapRows entity0 batchId rest
      end
  end.

Record outcome : Type := {
  reply : response;
  queries : trace object
}.

Definition respond (st : nat) (b : list (string * json)) (tr : trace object)
    : outcome :=
  {| reply := {| http_status := st; body := b |}; queries := tr |}.

(** part_000:380-391, the handler of the outer [try] *)
Definition catch_all (msg : string) (tr : trace object) : outcome :=
  respond 500
    [("error", JStr "Failed to process upload");
     ("details", JStr (if (msg =? "")%string then "Unknown error occurred" else msg))]
    tr.

Definition nonempty (o : option string) : option string :=
  match o with
  | Some "" => None
  | _ => o
  end.

(** part_000:340, the line pushed for a row that the fallback fails to
    insert; the first row of the sheet is row 2. *)
Definition row_error (i : nat) (e : PostgrestError) : string :=
  ("Row " ++ string_of_nat (i + 2) ++ ": " ++ message e ++
   match nonempty (details e) with
   | Some d => " (" ++ d ++ ")"
   | None => ""
   end ++
   match nonempty (hint e) with
   | Some t => " - Hint: " ++ t
   | None => ""
   end)%string.

Section Persisting.
Variable w : world object.
Variables (entity0 : string) (file : File).
Variable batchId : string.
Variable salesData : list object.

(** part_000:332-348, the fallback: one insert per row, from row [i] on *)
Fixpoint insert_each (rows : list object) (i rowsInserted : nat)
    (errors : list string) (tr : trace object)
    : nat * list string * trace object :=
  match rows with
  | [] => (rowsInserted, errors, tr)
  | row :: rest =>
      match call w tr (InsertSales [row] false) with
      | (Rejected msg, tr') =>
          insert_each rest (S i) rowsInserted
            (errors ++ [("Row " ++ string_of_nat (i + 2) ++ ": " ++ msg)%string]) tr'
      | (Resolved _ (Some insertError), tr') =>
          insert_each rest (S i) rowsInserted (errors ++ [row_error i insertError]) tr'
      | (Resolved _ None, tr') =>
          insert_each rest (S i) (S rowsInserted) errors tr'
      end
  end.

(** part_000:316-356 *)
Definition insert_all (tr : trace object) : nat * list string * trace object :=
  match salesData with
  | [] => (O, [], tr)
  | _ =>
      match call w tr (InsertSales salesData true) with
      | (Rejected msg, tr') =>
          (O, [("Failed to insert data: " ++ msg)%string], tr')
      | (Resolved _ (Some _), tr') => insert_each salesData 0 0 [] tr'
      | (Resolved data None, tr') =>
          (match data with Some n => n | None => O end, [], tr')
      end
  end.

(** part_000:315-379, entered after the probe of the table *)
Definition persist (tr : trace object) : outcome :=
  let '(rowsInserted, errors, tr1) := insert_all tr in
  let failed := (0 <? List.length errors)%nat in
  match
    call w tr1
      (InsertHistory {| batch_id := batchId;
                        history_entity := entity0;
                        file_name := name file;
                        rows_uploaded := rowsInserted;
                        status := if failed then "partial" else "success";
                        error_message :=
                          if failed then Some (String.concat "; " errors)
                          else None |})
  with
  | (Rejected msg, tr2) => catch_all msg tr2
  | (Resolved _ _, tr2) =>
      respond 200
        ([("success", JBool true);
          ("batchId", JStr batchId);
          ("rowsInserted", JNum rowsInserted);
          ("totalRows", JNum (List.length salesData))] ++
         (if failed then [("errors", JStrs errors)] else []))
        tr2
  end.

End Persisting.

(** What the handler takes from outside the request: the configured size
    limit, the reader and the validator of lib/utils (not among the
    sources), and the generator of batch identifiers. *)
Variable MAX_FILE_SIZE : Z.
Variable parseExcelBuffer : File -> string + list object.
Variable validateExcelData : list object -> string -> bool * list string.
Variable randomUUID : string.

Definition validExtensions : list string := [".xlsx"; ".xls"].

Definition validTypes : list string :=
  ["application/vnd.openxmlformats-officedocument.spreadsheetml.sheet";
   "application/vnd.ms-excel";
   "application/excel";
   "application/x-excel"].

(** part_000:39-85: the checks on the form; the file and the entity of a
    request that passes, the response returned at once otherwise. *)
Definition check (req : Request) : outcome + (File * string) :=
  match form_file req with
  | None => inl (respond 400 [("error", JStr "No file provided")] [])
  | Some file =>
      match form_entity req with
      | None | Some "" | Some "All" =>
          inl (respond 400
                 [("error",
                   JStr "Please select a specific entity (HQ, USA, BWA, Vietnam, Healthcare, or Korot)")]
                 [])
      | Some entity0 =>
          if MAX_FILE_SIZE <? size file then
            inl (respond 400
                   [("error",
                     JStr ("File size exceeds maximum limit of " ++
                           Number_toString h (Num (inject_Z MAX_FILE_SIZE / 1048576)) ++
                           "MB")%string)]
                   [])
          else
            let fileName := toLowerCase (name file) in
            let hasValidExtension := existsb (endsWith fileName) validExtensions in
            if negb hasValidExtension
               && negb (existsb (String.eqb (type file)) validTypes)
            then
              inl (respond 400
                     [("error", JStr "Invalid file type. Please upload .xlsx or .xls file");
                      ("details",
                       JStr ("File type: " ++
                             (if (type file =? "")%string then "unknown" else type file) ++
                             ", File name: " ++ name file)%string)]
                     [])
            else inr (file, entity0)
      end
  end.

(** part_000:26-392 *)
Definition POST (req : Request) (w : world object) : outcome :=
  match check req with
  | inl out => out
  | inr (file, entity0) =>
      match parseExcelBuffer file with
      | inl msg => catch_all msg []
      | inr excelData =>
          if (List.length excelData =? 0)%nat then
            respond 400
              [("error",
                JStr "Excel file is empty or could not be parsed. Please check the file format.")]
              []
          else
            let '(valid, validation_errors) := validateExcelData excelData entity0 in
            if negb valid then
              respond 400
                [("error", JStr "Data validation failed");
                 ("details", JStrs validation_errors)]
                []
            else
              let batchId := randomUUID in
              match call w [] ProbeSales with
              | (Rejected msg, tr) => catch_all msg tr
              | (Resolved _ (Some tableError), tr) =>
                  if (code tableError =? "42P01")%string then
                    respond 500
                      [("error", JStr "Database table not found");
                       ("details",
                        JStr "The sales_data table does not exist. Please run the database schema from database/schema.sql in your Supabase SQL Editor.");
                       ("hint",
                        JStr "Go to Supabase Dashboard → SQL Editor → New Query → Paste schema.sql content → Run")]
                      tr
                  else
                    persist w entity0 file batchId (mapRows entity0 batchId excelData) tr
              | (Resolved _ None, tr) =>
                  persist w entity0 file batchId (mapRows entity0 batchId excelData) tr
              end
      end
  end.

End Handler.

(** Modelled from the spec: [getYearFromDate] and [getQuarterFromDate] of
    lib/utils/formatters are not among the sources.  Section 4.1 of the
    specification gives them as the calendar year of the date, and as the
    letter Q followed by floor(month / 3) + 1 for the zero-based month. *)
Definition getYearFromDate (h : Host) (d : Date) : number :=
  match d with
  | Some t => Num (inject_Z (getFullYear h t))
  | None => NaN
  end.

Definition getQuarterFromDate (h : Host) (d : Date) : string :=
  match d with
  | Some t => ("Q" ++ string_of_Z (getMonth h t / 3 + 1))%string
  | None => "QNaN"
  end.

End Part000.

(* ================================================================= *)
(** ** src/unnamed/part_000, the dashboard page *)

Module Dashboard.

(** part_000:450, the value of the query parameter [entities] for the
    entities selected in the filter. *)
Definition entityParam (entities : list string) : string :=
  if (List.length entities =? 0)%nat || (List.length entities =? 6)%nat
  then "All"
  else String.concat "," entities.

End Dashboard.

(* ================================================================= *)
(** ** src/app/(dashboard)/upload/page.tsx *)

Module UploadPage.

(** The icons of lucide-react that the page draws beside a file name. *)
Inductive icon : Type :=
| CheckCircle2  (* green *)
| XCircle       (* red *)
| Clock.        (* yellow *)

(** page.tsx:49-58 *)
Definition getStatusIcon (status : string) : icon :=
  if (status =? "success")%string then CheckCircle2
  else if (status =? "failed")%string then XCircle
  else Clock.

End UploadPage.

(* ================================================================= *)
(** ** Vocabulary of the statements *)

Import JS Supabase.

(** A cell that holds the whole number [d]. *)
Definition serial (d : Z) : value := VNum (Num (inject_Z d)).



(** The quarter of a zero-based month, as both handlers print it. *)
Definition quarter_of_month (m : Z) : string :=
  ("Q" ++ string_of_Z (m / 3 + 1))%string.

Section Traces.
Context {row : Type}.

(** The row lists of the inserts into sales_data, in the order issued. *)
Fixpoint sales_inserts (tr : trace row) : list (list row) :=
  match tr with
  | [] => []
  | (InsertSales rows _, _) :: rest => rows :: sales_inserts rest
  | _ :: rest => sales_inserts rest
  end.

(** Every insert into sales_data comes after an insert of a history record
    in state processing that took effect. *)
Definition processing_before_inserts (tr : trace row) : Prop :=
  forall i rows returning r,
    nth_error tr i = Some (InsertSales rows returning, r) ->
    exists j rec r0,
      (j < i)%nat /\ nth_error tr j = Some (InsertHistory rec, r0) /\
      status rec = "processing" /\ took_effect r0 = true.

(** The message of the error a query ended with, if it did. *)
Definition failure_message (r : settled) : option string :=
  match r with
  | Resolved _ (Some e) => Some (message e)
  | Rejected msg => Some msg
  | Resolved _ None => None
  end.

Definition is_rejected (r : settled) : bool :=
  match r with
  | Rejected _ => true
  | Resolved _ _ => false
  end.

(** A query that moves record [id] to status failed or completed. *)
Definition terminal_update (id : string) (q : query row) : Prop :=
  exists st e, q = UpdateHistory st e id /\ (st = "failed" \/ st = "completed").

End Traces.

(** The k-th chunk of the chunked insert. *)
Definition chunk {A : Type} (data : list A) (k : nat) : list A :=
  Route.slice data (k * Route.CHUNK_SIZE) (k * Route.CHUNK_SIZE + Route.CHUNK_SIZE).

(** The rows of a sheet that [Route.transformRow] maps. *)
Fixpoint mapped (h : Host) (entity0 batchId : string) (l : list Route.rawRecord)
    : list Route.mappedRow :=
  match l with
  | [] => []
  | r :: rest =>
      match Route.transformRow h entity0 batchId r with
      | inr m => m :: mapped h entity0 batchId rest
      | inl _ => mapped h entity0 batchId rest
      end
  end.

Section MoreTraces.
Context {row : Type}.

(** The inserts into sales_data with their results, in the order issued. *)
Fixpoint sales_calls (tr : trace row) : list (list row * settled) :=
  match tr with
  | [] => []
  | (InsertSales rows _, r) :: rest => (rows, r) :: sales_calls rest
  | _ :: rest => sales_calls rest
  end.

(** A run of chunk inserts from index [i] on: each call carries the chunk
    that starts where the one before ended, and a call is followed by
    another only if it took effect. *)
Fixpoint chunk_run (data : list row) (i : nat) (calls : list (list row * settled))
    : Prop :=
  match calls with
  | [] => True
  | (rows, r) :: rest =>
      rows = Route.slice data i (i + Route.CHUNK_SIZE) /\
      (i < List.length data)%nat /\
      (rest <> [] -> took_effect r = true) /\
      chunk_run data (i + Route.CHUNK_SIZE) rest
  end.

(** Counts that grow strictly, the first one above [start]. *)
Fixpoint climbing (start : nat) (l : list nat) : Prop :=
  match l with
  | [] => True
  | a :: rest => (start < a)%nat /\ climbing a rest
  end.

(** The call of the k-th chunk insert, as query number [base + k]. *)
Definition chunk_call (w : world row) (data : list row) (base k : nat)
    : query row * settled :=
  let q := InsertSales (chunk data k) false in (q, w (base + k)%nat q).

End MoreTraces.

(** *** Runs of the chunked insert of route.ts *)

Section RouteRuns.
(** The batch identifier of the run. *)
Variable id : string.

Definition closing (qr : query Route.mappedRow * settled) : Prop :=
  terminal_update id (fst qr).

Definition chunk_insert (qr : query Route.mappedRow * settled) : Prop :=
  exists rows, fst qr = InsertSales rows false.

(** An exit of the insert loop: the counters as they were, and after the
    queries so far one or two updates to a terminal status. *)
Definition exits (tot : nat) (pr : list nat) (tr : trace Route.mappedRow)
    (out : Route.outcome) : Prop :=
  Route.totalInserted_at_exit out = tot /\
  Route.progress out = pr /\
  Route.batchId_at_exit out = id /\
  exists fin,
    Route.queries out = tr ++ fin /\ fin <> [] /\ Forall closing fin.

(** A run of the insert loop entered at index [i]: chunk inserts, each one
    issued after the one before took effect, then the updates of an exit;
    the count printed after each chunk is above the one before, and the
    counter at the exit is the last count printed. *)
Definition loop_outcome (data : list Route.mappedRow) (i tot : nat)
    (pr : list nat) (tr : trace Route.mappedRow) (out : Route.outcome) : Prop :=
  exists ins fin new,
    Route.queries out = tr ++ ins ++ fin /\
    Forall chunk_insert ins /\
    chunk_run data i (sales_calls ins) /\
    fin <> [] /\ Forall closing fin /\
    Route.progress out = pr ++ new /\
    climbing tot new /\
    Route.totalInserted_at_exit out = last new tot /\
    Route.batchId_at_exit out = id.

End RouteRuns.

(** The history record that route.ts writes before the inserts. *)
Definition processing_record (id entity0 : string) (file : File) (rows : nat)
    : upload_history :=
  {| batch_id := id;
     history_entity := entity0;
     file_name := name file;
     rows_uploaded := rows;
     status := "processing";
     error_message := None |}.

(** The checks of route.ts:29-114 on a request, its file [file] and its
    entity [entity0]. *)
Definition validated (XLSX_read : File -> Route.workbook) (req : Request)
    (file : File) (entity0 : string) : Prop :=
  form_file req = Some file /\
  form_entity req = Some entity0 /\
  In entity0 Route.validEntities /\
  size file <= Route.MAX_FILE_SIZE /\
  In (type file) Route.validTypes /\
  exists rawData, XLSX_read file = Route.Sheet rawData /\ rawData <> [].

(** *** A host, a database and requests for the examples *)

Module Sample.

(** [Date.parse] on the form YYYY-MM-DD, which every engine reads as
    midnight UTC of that day; nothing else is accepted here. *)
Definition parse_ymd (s : string) : option Z :=
  let '(y, n1, r1) := read_digits s 0 O in
  match r1 with
  | String "-" r1' =>
      let '(m, n2, r2) := read_digits r1' 0 O in
      match r2 with
      | String "-" r2' =>
          let '(d, n3, r3) := read_digits r2' 0 O in
          if (n1 =? 4)%nat && (n2 =? 2)%nat && (n3 =? 2)%nat && (r3 =? "")%string
             && (1 <=? m) && (m <=? 12) && (1 <=? d)
             && (d <=? daysInMonth (isLeapYear y) (m - 1))
          then Some (MakeDate (MakeDay y (m - 1) d) 0)
          else None
      | _ => None
      end
  | _ => None
  end.

(** A host that runs in UTC.  Its printers are only exercised on whole
    numbers and valid dates. *)
Definition utc : Host :=
  {| LocalTZA := fun _ _ => 0;
     Date_parse := parse_ymd;
     Number_toString :=
       fun n => match n with
                | NaN => "NaN"
                | Num q => string_of_Z (truncate q)
                | Inf negative => if negative then "-Infinity" else "Infinity"
                end;
     Date_toString :=
       fun d => match d with
                | Some t => toISOString t
                | None => "Invalid Date"
                end |}.

(** A time zone as the zone files give it: the offset before the first
    change, then the instant of each change with the offset from then on,
    all in milliseconds.  A local time that a change skips or repeats is
    read with the offset before the change. *)
Definition zone_offset (first : Z) (changes : list (Z * Z)) (t : Z) (isUTC : bool)
    : Z :=
  fold_left
    (fun offset change =>
       let '(instant, new) := change in
       let from := if isUTC then instant else instant + Z.max offset new in
       if from <=? t then new else offset)
    changes first.

(** Zone Asia/Ho_Chi_Minh: local mean time, 7:06:30 ahead of UTC, until
    1911; seven hours ahead since 1975. *)
Definition Asia_Ho_Chi_Minh : Z -> bool -> Z :=
  zone_offset 25590000
    [(-2004073590000, 25590000); (-1851577590000, 25200000);
     (-852105600000, 28800000); (-782643600000, 32400000);
     (-767869200000, 25200000); (-718095600000, 28800000);
     (-457772400000, 25200000); (-315648000000, 28800000);
     (171820800000, 25200000)].

(** [Date.parse] on the form M/D/YYYY, which the engines read as local
    midnight of that day. *)
Definition parse_mdy (zone : Z -> bool -> Z) (s : string) : option Z :=
  let '(m, n1, r1) := read_digits s 0 O in
  match r1 with
  | String "/" r1' =>
      let '(d, n2, r2) := read_digits r1' 0 O in
      match r2 with
      | String "/" r2' =>
          let '(y, n3, r3) := read_digits r2' 0 O in
          if (1 <=? n1)%nat && (n1 <=? 2)%nat && (1 <=? n2)%nat && (n2 <=? 2)%nat
             && (n3 =? 4)%nat && (r3 =? "")%string
             && (1 <=? m) && (m <=? 12) && (1 <=? d)
             && (d <=? daysInMonth (isLeapYear y) (m - 1))
          then
            let t := MakeDate (MakeDay y (m - 1) d) 0 in
            Some (t - zone t false)
          else None
      | _ => None
      end
  | _ => None
  end.

(** A host in zone Asia/Ho_Chi_Minh, with the printers of [utc]. *)
Definition saigon : Host :=
  {| LocalTZA := Asia_Ho_Chi_Minh;
     Date_parse :=
       fun s =>
         match parse_ymd s with
         | Some t => Some t
         | None => parse_mdy Asia_Ho_Chi_Minh s
         end;
     Number_toString := Number_toString utc;
     Date_toString := Date_toString utc |}.

Definition xlsx : File :=
  {| name := "sales.xlsx";
     size := 2048;
     type := "application/vnd.openxmlformats-officedocument.spreadsheetml.sheet" |}.

(** A database on which every query succeeds. *)
Definition accepting {row : Type} : world row :=
  fun _ _ => Resolved None None.

(** The same, with the rows stored returned to an insert that selects
    them. *)
Definition storing {row : Type} : world row :=
  fun _ q =>
    match q with
    | InsertSales rows true => Resolved (Some (List.length rows)) None
    | _ => Resolved None None
    end.

Definition db_error (msg : string) : PostgrestError :=
  {| message := msg; details := None; hint := None; code := "23505" |}.

(** A database on which query number [n] resolves with an error and every
    other query succeeds. *)
Definition failing_at {row : Type} (n : nat) (msg : string) : world row :=
  fun k _ => if (k =? n)%nat then Resolved None (Some (db_error msg))
             else Resolved None None.

(** A database on which query number [n] rejects. *)
Definition throwing_at {row : Type} (n : nat) (msg : string) : world row :=
  fun k _ => if (k =? n)%nat then Rejected msg else Resolved None None.

Definition invoice (number date : string) (amount : value) : object :=
  [("Invoice", VStr number); ("Invoice date", VStr date);
   ("Invoice Amount", amount)].

(** A sheet of [n] rows. *)
Definition sheet (n : nat) : list Route.rawRecord :=
  repeat (Route.RObject (invoice "INV-1" "2024-05-15" (VStr "$1,234.50"))) n.

(** A row as part_000 hands it to the database. *)
Definition db_row : object :=
  [("entity", VStr "USA"); ("upload_batch_id", VStr "0b7a-batch");
   ("invoice", VStr "INV-1")].

Definition request (entity0 : string) : Request :=
  {| form_file := Some xlsx; form_entity := Some entity0 |}.

(** The rows that route.ts maps from a sheet of [n] rows for entity USA,
    before the batch identifier is stamped on them. *)
Definition mapped_sheet (n : nat) : list Route.mappedRow :=
  fst (Route.transform_loop utc "USA" "" (sheet n) 0 [] []).

(** The route of route.ts on host [utc], reading [rows] from any file. *)
Definition route (rows : list Route.rawRecord) (req : Request)
    (w : world Route.mappedRow) : Route.outcome :=
  Route.POST utc (fun _ => Route.Sheet rows) "0b7a-batch" req w.

End Sample.

(** *** Characters of a string *)

(** Every character of [s] passes the test [p]. *)
Fixpoint all_chars (p : ascii -> bool) (s : string) : bool :=
  match s with
  | EmptyString => true
  | String c s' => p c && all_chars p s'
  end.

(** A capital letter of ASCII. *)
Definition is_upper (c : ascii) : bool :=
  let n := nat_of_ascii c in (65 <=? n)%nat && (n <=? 90)%nat.

(** The characters that [Part000.toSnakeCase] leaves as they are: anything
    but white space, a hyphen, a parenthesis, a slash or a capital. *)
Definition snake_char (c : ascii) : bool :=
  negb (is_space c || Ascii.eqb c "-" || Ascii.eqb c "(" || Ascii.eqb c ")"
        || Ascii.eqb c "/" || is_upper c).

(** The sign of a numeral. *)
Definition sign_text (negative : bool) : string :=
  if negative then "-" else "".

(** The form YYYY-MM-DD. *)
Definition is_ymd (s : string) : bool :=
  match s with
  | String y1 (String y2 (String y3 (String y4 (String s1
      (String m1 (String m2 (String s2 (String d1 (String d2 EmptyString))))))))) =>
      is_digit y1 && is_digit y2 && is_digit y3 && is_digit y4 &&
      Ascii.eqb s1 "-" && is_digit m1 && is_digit m2 &&
      Ascii.eqb s2 "-" && is_digit d1 && is_digit d2
  | _ => false
  end.

(** *** Accounts of a run of route.ts *)

(** The reply of route.ts:417-424. *)
Definition success_reply (entity0 : string) (file : File) (id : string)
    (errors : list string) (rowsInserted : nat) : response :=
  {| http_status := 200;
     body := [("success", JBool true);
              ("batchId", JStr id);
              ("rowsInserted", JNum rowsInserted);
              ("rowsSkipped", JNum (List.length errors));
              ("entity", JStr entity0);
              ("fileName", JStr (name file))] |}.

(** A chunk of [data]: the rows from one that exists up to [CHUNK_SIZE]
    rows further. *)
Definition a_chunk_of {A : Type} (data rows : list A) : Prop :=
  exists j,
    (j < List.length data)%nat /\
    rows = Route.slice data j (j + Route.CHUNK_SIZE).

(** Every result of the trace is an answer of the database [w]. *)
Definition answered_by {row : Type} (w : world row) (tr : trace row) : Prop :=
  forall q r, In (q, r) tr -> exists j, r = w j q.

(** A query of the trace did not take effect. *)
Definition some_failure {row : Type} (tr : trace row) : Prop :=
  exists q r, In (q, r) tr /\ took_effect r = false.

(** The queries of a run that ends well: chunk inserts, then the update to
    status completed, which resolves. *)
Definition completed_run (id : string) (new : trace Route.mappedRow) : Prop :=
  exists ins r,
    new = ins ++ [(UpdateHistory "completed" None id, r)] /\
    Forall chunk_insert ins /\ is_rejected r = false.

(** The account of the queries [new] that the insert loop issues when
    entered at index [i] with [tot] rows counted: the inserts carry chunks
    of [data]; the rows stored are the [k] rows from index [i] on, and the
    counter has grown by [k]; the reply is a 500 after a query that failed,
    or the reply of success, which on a loop that is not cut short
    ([full]) comes with every row stored. *)
Definition account (w : world Route.mappedRow) (entity0 : string) (file : File)
    (id : string) (data : list Route.mappedRow) (errors : list string)
    (i tot : nat) (full : Prop) (new : trace Route.mappedRow)
    (out : Route.outcome) : Prop :=
  new <> [] /\
  answered_by w new /\
  Forall (a_chunk_of data) (sales_inserts new) /\
  exists k,
    sales_table new = firstn k (skipn i data) /\
    Route.totalInserted_at_exit out = (tot + k)%nat /\
    (k <= List.length data - i)%nat /\
    (http_status (Route.reply out) = 500%nat /\ some_failure new
     \/
     Route.reply out = success_reply entity0 file id errors (tot + k) /\
     (full -> k = (List.length data - i)%nat) /\
     completed_run id new).

(** The rows that a request hands to the insert loop of route.ts: the rows
    transformed, stamped with the batch identifier; none when the request
    is turned down before. *)
Definition transformed (h : Host) (XLSX_read : File -> Route.workbook)
    (uuidv4 : string) (req : Request) : list Route.mappedRow :=
  match Route.prepare h XLSX_read req with
  | inr (_, _, td, _) => map (Route.stamp uuidv4) td
  | inl _ => []
  end.

(** *** Accounts of a run of part_000 *)

(** The history record that part_000 writes at the end (part_000:359-367). *)
Definition final_record (id entity0 : string) (file : File) (rowsInserted : nat)
    (errors : list string) : upload_history :=
  {| batch_id := id;
     history_entity := entity0;
     file_name := name file;
     rows_uploaded := rowsInserted;
     status := if (0 <? List.length errors)%nat then "partial" else "success";
     error_message :=
       if (0 <? List.length errors)%nat then Some (String.concat "; " errors)
       else None |}.

(** An insert into sales_data. *)
Definition is_sales_insert {row : Type} (qr : query row * settled) : Prop :=
  exists rows returning, fst qr = InsertSales rows returning.

(** The columns of a row that part_000 sends to sales_data: the four that
    the handler adds, then the columns of [columnMapping] in its order. *)
Definition sales_columns : list string :=
  ["entity"; "year"; "quarter"; "upload_batch_id"] ++
  map snd Part000.columnMapping.

(* ================================================================= *)
(** ** The calendar of Date *)

Section Calendar.

(** The estimate of [YearFromDay] is corrected to the year of the day:
    [YearFromTime t] is the year [y] with [TimeFromYear y <= t], the next
    year starting after [t]. *)
Lemma YearFromDay_bounds (d : Z) :
  DayFromYear (YearFromDay d) <= d < DayFromYear (YearFromDay d + 1).
Proof.
  unfold YearFromDay.
  set (y := 1970 + 400 * d / 146097).
  destruct (Z.ltb_spec d (DayFromYear y)) as [Hlt | Hge].
  - unfold DayFromYear in *. replace (y - 1 + 1) with y by lia. subst y.
    Z.to_euclidean_division_equations; lia.
  - destruct (Z.leb_spec (DayFromYear (y + 1)) d) as [Hle | Hgt]; [ | lia].
    unfold DayFromYear in *. subst y.
    Z.to_euclidean_division_equations; lia.
Qed.

Lemma DayFromYear_succ (y : Z) :
  DayFromYear (y + 1) = DayFromYear y + DaysInYear y.
Proof.
  unfold DayFromYear, DaysInYear, isLeapYear.
  destruct (Z.eqb_spec (y mod 4) 0); cbn [negb];
    destruct (Z.eqb_spec (y mod 100) 0); cbn [negb];
    destruct (Z.eqb_spec (y mod 400) 0); cbn [negb];
    Z.to_euclidean_division_equations; lia.
Qed.

Lemma DayFromYear_mono (y y' : Z) : y <= y' -> DayFromYear y <= DayFromYear y'.
Proof.
  intros H. unfold DayFromYear. Z.to_euclidean_division_equations; lia.
Qed.

Lemma YearFromDay_unique (d y : Z) :
  DayFromYear y <= d < DayFromYear (y + 1) -> YearFromDay d = y.
Proof.
  intros H. pose proof (YearFromDay_bounds d) as B.
  destruct (Z.lt_trichotomy (YearFromDay d) y) as [L | [E | G]]; [ | exact E | ].
  - pose proof (DayFromYear_mono (YearFromDay d + 1) y ltac:(lia)). lia.
  - pose proof (DayFromYear_mono (y + 1) (YearFromDay d) ltac:(lia)). lia.
Qed.

Lemma Day_of_day (day : Z) : Day (day * msPerDay) = day.
Proof. unfold Day, msPerDay. apply Z.div_mul. discriminate. Qed.

(** Year, month and day of the month depend on the day number only. *)
Lemma fields_of_day (t : Z) :
  (YearFromTime t, MonthFromTime t, DateFromTime t) = civil (Day t).
Proof.
  unfold civil, DateFromTime, MonthFromTime, DayWithinYear, InLeapYear, YearFromTime.
  rewrite Day_of_day. reflexivity.
Qed.

Ltac month_cases m :=
  let C := fresh "C" in
  assert (m = 0 \/ m = 1 \/ m = 2 \/ m = 3 \/ m = 4 \/ m = 5 \/ m = 6 \/
          m = 7 \/ m = 8 \/ m = 9 \/ m = 10 \/ m = 11) as C by lia;
  repeat (destruct C as [C | C]; [subst m | ]); [ .. | subst m].

Ltac decide_ltb :=
  repeat match goal with
         | |- context [?a <? ?b] => destruct (Z.ltb_spec a b); try lia
         end.

(** [MakeDay] and [civil] are inverse on the dates of the calendar. *)
Lemma civil_MakeDay (y m d : Z) :
  0 <= m <= 11 -> 1 <= d <= daysInMonth (isLeapYear y) m ->
  civil (MakeDay y m d) = (y, m, d).
Proof.
  intros Hm Hd.
  assert (E : MakeDay y m d = DayFromYear y + monthStart (isLeapYear y) m + d - 1).
  { unfold MakeDay.
    replace (m / 12) with 0 by (Z.to_euclidean_division_equations; lia).
    replace (m mod 12) with m by (Z.to_euclidean_division_equations; lia).
    rewrite Z.add_0_r. reflexivity. }
  assert (Y : YearFromTime (MakeDay y m d * msPerDay) = y).
  { unfold YearFromTime. rewrite Day_of_day. apply YearFromDay_unique.
    rewrite DayFromYear_succ, E. unfold DaysInYear.
    destruct (isLeapYear y); month_cases m; cbn [monthStart daysInMonth] in *; lia. }
  unfold civil, DateFromTime, MonthFromTime, DayWithinYear, InLeapYear.
  rewrite Y, Day_of_day, E.
  destruct (isLeapYear y); month_cases m; cbn [monthStart daysInMonth] in *;
    decide_ltb; repeat f_equal; lia.
Qed.

Lemma MonthFromTime_range (t : Z) : 0 <= MonthFromTime t <= 11.
Proof. unfold MonthFromTime. decide_ltb; lia. Qed.


End Calendar.

(* ================================================================= *)
(** ** Serial dates *)

Section SerialDates.
Variable h : Host.



(** A whole number below 2^53 in size is a Number. *)
Lemma Qred_whole (z : Z) : Qred (inject_Z z) = inject_Z z.
Proof.
  pose proof (Qred_correct (inject_Z z)) as C.
  pose proof (gcd_Qred (inject_Z z)) as G.
  destruct (Qred (inject_Z z)) as [n d].
  unfold Qeq in C. cbn in C, G. rewrite Z.mul_1_r in C. subst n.
  rewrite Z.gcd_comm, (Z.mul_comm z), Z.gcd_mul_diag_l in G by lia.
  assert (d = 1%positive) as -> by lia.
  unfold inject_Z. f_equal. lia.
Qed.

Lemma is_Number_whole (q : Q) (z : Z) :
  q == inject_Z z -> Z.abs z < 2 ^ 53 -> is_Number q = true.
Proof.
  intros E B. unfold is_Number.
  rewrite (Qred_complete _ _ E), Qred_whole. cbn [Qnum Qden inject_Z].
  change (Z.log2 1) with 0. change (2 ^ 0) with 1.
  assert (L : Z.max 0 (Z.log2 (Z.abs z) - 52) = 0).
  { destruct (Z.eq_dec (Z.abs z) 0) as [-> | N]; [reflexivity | ].
    assert (Z.log2 (Z.abs z) < 53) by (apply Z.log2_lt_pow2; lia). lia. }
  rewrite L, Z.shiftr_0_r, Z.shiftl_0_r, !Z.eqb_refl, Z.mul_1_r.
  assert (P : 2 ^ 53 < 2 ^ 1024) by (apply Z.pow_lt_mono_r; lia).
  destruct (Z.ltb_spec (Z.abs z) (2 ^ 1024)); [reflexivity | lia].
Qed.

Lemma Number_value_whole (q : Q) (z : Z) :
  q == inject_Z z -> Z.abs z < 2 ^ 53 -> Number_value q = Num q.
Proof.
  intros E B. unfold Number_value. rewrite (is_Number_whole q z E B). reflexivity.
Qed.






Lemma serial_truthy (d : Z) : d <> 0 -> truthy (serial d) = true.
Proof.
  intros H. unfold serial, truthy, Qeq_bool. cbn.
  rewrite Z.mul_1_r. destruct (Z.eqb_spec d 0); [contradiction | reflexivity].
Qed.


End SerialDates.

(** The reference epoch is the calendar date 1899-12-30 (month 11 is
    December). *)
Example epoch_date : civil (MakeDay 1899 11 30) = (1899, 11, 30).
Proof. reflexivity. Qed.




(* ================================================================= *)
(** ** Objects and the column table of part_000 *)

Section Objects.

Lemma get_set_same (o : object) (k : string) (v : value) :
  get (Part000.set o k v) k = v.
Proof.
  induction o as [ | [k0 v0] o IH]; cbn [Part000.set get].
  - rewrite String.eqb_refl. reflexivity.
  - destruct (String.eqb_spec k0 k) as [E | N]; cbn [get].
    + rewrite E, String.eqb_refl. reflexivity.
    + destruct (String.eqb_spec k0 k); [contradiction | exact IH].
Qed.

Lemma get_set_other (o : object) (k k' : string) (v : value) :
  k <> k' -> get (Part000.set o k v) k' = get o k'.
Proof.
  intros N. induction o as [ | [k0 v0] o IH]; cbn [Part000.set get].
  - destruct (String.eqb_spec k k'); [contradiction | reflexivity].
  - destruct (String.eqb_spec k0 k) as [E | N0]; cbn [get].
    + subst k0. destruct (String.eqb_spec k k'); [contradiction | reflexivity].
    + destruct (String.eqb_spec k0 k'); [reflexivity | exact IH].
Qed.

Lemma not_In_existsb (key : string) (l : list string) :
  existsb (String.eqb key) l = false -> ~ In key l.
Proof.
  intros E I. assert (T : existsb (String.eqb key) l = true).
  { apply existsb_exists. exists key. split; [exact I | apply String.eqb_refl]. }
  congruence.
Qed.

Variable h : Host.
Variable row : object.

(** A member that no column writes keeps its value. *)
Lemma fill_get_other (key : string) (cols : list (string * string)) :
  forall dbRow dbRow',
    Part000.fill h row cols dbRow = Some dbRow' ->
    ~ In key (map snd cols) ->
    get dbRow' key = get dbRow key.
Proof.
  induction cols as [ | [excelCol dbCol] cols IH]; intros dbRow dbRow' F N.
  - cbn in F. injection F as <-. reflexivity.
  - cbn [Part000.fill] in F.
    destruct (Part000.columnValue h row excelCol dbCol) as [v | ]; [ | discriminate].
    rewrite (IH _ _ F).
    + apply get_set_other. intros E. apply N. left. exact E.
    + intros I. apply N. right. exact I.
Qed.

(** A member written by one column holds the value of that column. *)
Lemma fill_get_column (key excelCol : string) (pre post : list (string * string)) :
  forall dbRow dbRow',
    Part000.fill h row (pre ++ (excelCol, key) :: post) dbRow = Some dbRow' ->
    ~ In key (map snd post) ->
    Part000.columnValue h row excelCol key = Some (get dbRow' key).
Proof.
  induction pre as [ | [ec dc] pre IH]; intros dbRow dbRow' F N.
  - cbn [app Part000.fill] in F.
    destruct (Part000.columnValue h row excelCol key) as [v | ]; [ | discriminate].
    rewrite (fill_get_other key post _ _ F N), get_set_same. reflexivity.
  - cbn [app Part000.fill] in F.
    destruct (Part000.columnValue h row ec dc) as [v | ]; [ | discriminate].
    exact (IH _ _ F N).
Qed.

End Objects.

Lemma columnMapping_invoice_date :
  Part000.columnMapping =
  firstn 3 Part000.columnMapping ++
  ("Invoice date", "invoice_date") :: skipn 4 Part000.columnMapping.
Proof. reflexivity. Qed.

(** [a || b] is falsy only when both are. *)
Lemma or_else_falsy (a b : value) :
  truthy (or_else a b) = false -> truthy a = false /\ truthy b = false.
Proof.
  unfold or_else. destruct (truthy a) eqn:E; intros H.
  - congruence.
  - split; [reflexivity | exact H].
Qed.

(** The members [year], [quarter] and [invoice_date] of a row that
    part_000 maps. *)
Lemma part000_row_dates (h : Host) (getY : Date -> number) (getQ : Date -> string)
    (entity0 batchId : string) (row dbRow : object) :
  Part000.mapRow h getY getQ entity0 batchId row = Some dbRow ->
  (get dbRow "year", get dbRow "quarter") =
    Part000.yearQuarter getY getQ (Part000.invoiceDateOf h row) /\
  Part000.columnValue h row "Invoice date" "invoice_date" =
    Some (get dbRow "invoice_date").
Proof.
  unfold Part000.mapRow.
  destruct (Part000.yearQuarter getY getQ (Part000.invoiceDateOf h row))
    as [year0 quarter0].
  intros F. split.
  - f_equal.
    + rewrite (fill_get_other h row "year" _ _ _ F); [reflexivity | ].
      apply not_In_existsb. reflexivity.
    + rewrite (fill_get_other h row "quarter" _ _ _ F); [reflexivity | ].
      apply not_In_existsb. reflexivity.
  - rewrite columnMapping_invoice_date in F.
    apply (fill_get_column h row _ _ _ _ _ _ F).
    apply not_In_existsb. reflexivity.
Qed.

(* ================================================================= *)
(** ** Rows without an invoice date *)

(** C10.  A cell that is falsy, as the number 0, the empty string and null
    are, is coerced to null by [parseDateValue]; a row of route.ts whose
    invoice date is such a cell has [invoice_date], [year] and [quarter]
    null, and so has a row of part_000 when the cell it resolves for the
    invoice date is.  Serial 0 never becomes the epoch date. *)
Theorem falsy_invoice_date_gives_nulls (h : Host) (v : value) :
  v = serial 0 \/ v = VStr "" \/ v = VNull \/ truthy v = false ->
  Part000.parseDateValue h v = None /\
  (forall row entity0 batchId,
     get row "Invoice date" = v ->
     exists r,
       Route.transformRow h entity0 batchId (Route.RObject row) = inr r /\
       Route.invoice_date r = None /\ Route.year r = None /\
       Route.quarter r = None) /\
  (forall getY getQ row entity0 batchId dbRow,
     or_else (Part000.getValue row "Invoice date") (Part000.getValue row "Date") = v ->
     Part000.mapRow h getY getQ entity0 batchId row = Some dbRow ->
     get dbRow "invoice_date" = VNull /\ get dbRow "year" = VNull /\
     get dbRow "quarter" = VNull).
Proof.
  intros Hv.
  assert (F : truthy v = false).
  { destruct Hv as [-> | [-> | [-> | F]]]; [reflexivity .. | exact F]. }
  clear Hv. split; [ | split].
  - unfold Part000.parseDateValue. rewrite F. reflexivity.
  - intros row entity0 batchId Hrow.
    unfold Route.transformRow, Route.invoiceDateFields.
    rewrite Hrow, F. eexists. split; [reflexivity | ]. cbn. auto.
  - intros getY getQ row entity0 batchId dbRow Hsrc M.
    destruct (part000_row_dates h getY getQ entity0 batchId row dbRow M) as [YQ C].
    unfold Part000.invoiceDateOf in YQ. rewrite Hsrc in YQ.
    unfold Part000.parseDateValue in YQ. rewrite F in YQ. cbn in YQ.
    injection YQ as -> ->.
    rewrite <- Hsrc in F. destruct (or_else_falsy _ _ F) as [Fa _].
    unfold Part000.columnValue in C. cbn [Part000.is_date_column] in C.
    change (Part000.is_date_column "invoice_date") with true in C. cbn iota in C.
    unfold Part000.parseDateValue in C. rewrite Fa in C. cbn in C.
    injection C as <-. auto.
Qed.

(** The theorem at serial 0, on the host in UTC. *)
Lemma falsy_invoice_date_gives_nulls_witness :
  Part000.parseDateValue Sample.utc (serial 0) = None /\
  exists r,
    Route.transformRow Sample.utc "USA" "" (Route.RObject [("Invoice date", serial 0)])
      = inr r /\
    Route.invoice_date r = None /\ Route.year r = None /\ Route.quarter r = None.
Proof.
  destruct (falsy_invoice_date_gives_nulls Sample.utc (serial 0) (or_introl eq_refl))
    as (P & R & _).
  split; [exact P | ].
  exact (R [("Invoice date", serial 0)] "USA" "" eq_refl).
Defined.

(* ================================================================= *)
(** ** Year and quarter *)



(** A date of 2024-05-15 gives year 2024 and quarter Q2; a row without an
    invoice date, or with one that does not parse, gives neither. *)
Example year_quarter_examples :
  Route.invoiceDateFields Sample.utc [("Invoice date", VStr "2024-05-15")] =
    (Some "2024-05-15", Some 2024, Some "Q2") /\
  Route.invoiceDateFields Sample.utc [("Invoice", VStr "INV-1")] = (None, None, None) /\
  Route.invoiceDateFields Sample.utc [("Invoice date", VStr "next week")] =
    (None, None, None) /\
  Route.invoiceDateFields Sample.utc [("Invoice date", VBool true)] = (None, None, None).
Proof. repeat split. Qed.

(** In part_000 a row without an invoice date takes year and quarter from
    its column Date, when it has one; [invoice_date] stays null.  The two
    helpers are the ones modelled from the specification. *)
Example part000_date_fallback_example :
  let dbRow :=
    Part000.mapRow Sample.utc (Part000.getYearFromDate Sample.utc)
      (Part000.getQuarterFromDate Sample.utc) "USA" "0b7a-batch"
      [("Invoice date", serial 0); ("Date", VStr "2024-05-15")] in
  option_map
    (fun o => (get o "invoice_date", get o "year", get o "quarter")) dbRow
  = Some (VNull, VNum (Num (inject_Z 2024)), VStr "Q2").
Proof. vm_compute. reflexivity. Qed.

(* ================================================================= *)
(** ** Numbers *)

(** [parseNumber] of route.ts is null on null, on the empty string and on
    every text whose stripped form does not parse; otherwise it is the
    number parsed. *)
Lemma route_parseNumber_null_on_failure :
  Route.parseNumber VNull = None /\
  Route.parseNumber VUndefined = None /\
  Route.parseNumber (VStr "") = None /\
  forall s : string,
    match parseFloat (strip_non_numeric s) with
    | NaN => Route.parseNumber (VStr s) = None
    | n => s <> "" -> Route.parseNumber (VStr s) = Some n
    end.
Proof.
  repeat split. intros s.
  destruct (parseFloat (strip_non_numeric s)) as [ | q | neg] eqn:P.
  - destruct s as [ | c s']; [reflexivity | ].
    unfold Route.parseNumber. rewrite P. reflexivity.
  - intros N. destruct s as [ | c s']; [contradiction | ].
    unfold Route.parseNumber. rewrite P. reflexivity.
  - intros N. destruct s as [ | c s']; [contradiction | ].
    unfold Route.parseNumber. rewrite P. reflexivity.
Qed.

Example route_parseNumber_examples :
  Route.parseNumber (VStr "$1,234.50") = Some (Num (Qmake 123450 100)) /\
  Route.parseNumber (VStr "n/a") = None /\
  Route.parseNumber (VStr "0") = Some (Num (Qmake 0 1)).
Proof. repeat split. Qed.

(** [parseNumber] of part_000 on a value that is not a number: 0 where the
    stripped text does not parse. *)
Lemma part000_parseNumber_text (h : Host) (s : string) :
  Part000.parseNumber h (VStr s) =
  match parseFloat (strip_non_numeric s) with
  | NaN => Num 0
  | Num q => if Qeq_bool q 0 then Num 0 else Num q
  | Inf negative => Inf negative
  end.
Proof. reflexivity. Qed.

(** C4, on part_000: [parseNumber] there answers 0, not null, for null, for
    the empty string and for a text without a number, and the test for NaN
    of line 299 lets the 0 through to the row; [parseNumber] of route.ts
    answers null on the same cells. *)
Theorem part000_parseNumber_failure_is_zero (h : Host) :
  Part000.parseNumber h VNull = Num 0 /\
  Part000.parseNumber h (VStr "") = Num 0 /\
  Part000.parseNumber h (VStr "n/a") = Num 0 /\
  Part000.columnValue h [("Quantity", VNull)] "Quantity" "quantity" =
    Some (VNum (Num 0)) /\
  Part000.columnValue h [("Quantity", VStr "n/a")] "Quantity" "quantity" =
    Some (VNum (Num 0)) /\
  Route.parseNumber VNull = None /\
  Route.parseNumber (VStr "") = None /\
  Route.parseNumber (VStr "n/a") = None.
Proof. repeat split. Qed.

(* ================================================================= *)
(** ** Lists, slices and traces *)

Section Slices.
Context {A : Type}.
Variable data : list A.

Lemma slice_length (i j : nat) :
  List.length (Route.slice data i j) = Nat.min (j - i) (List.length data - i).
Proof. unfold Route.slice. rewrite length_firstn, length_skipn. reflexivity. Qed.

Lemma slice_from_0 (j : nat) : Route.slice data 0 j = firstn j data.
Proof. unfold Route.slice. rewrite Nat.sub_0_r. reflexivity. Qed.

Lemma firstn_plus (a b : nat) (l : list A) :
  firstn (a + b) l = firstn a l ++ firstn b (skipn a l).
Proof.
  revert l. induction a as [ | a IH]; intros l; [reflexivity | ].
  destruct l as [ | x l]; cbn.
  - rewrite firstn_nil. reflexivity.
  - rewrite IH. reflexivity.
Qed.

Lemma last_cons (a d : A) (l : list A) : last (a :: l) d = last l a.
Proof.
  revert a d. induction l as [ | b l IH]; intros a d; [reflexivity | ].
  change (last (a :: b :: l) d) with (last (b :: l) d).
  rewrite !IH. reflexivity.
Qed.

(** Two adjacent slices make one. *)
Lemma slice_app (i j k : nat) :
  (i <= j)%nat -> (j <= k)%nat ->
  Route.slice data i j ++ Route.slice data j k = Route.slice data i k.
Proof.
  intros Hij Hjk. unfold Route.slice.
  replace (k - i)%nat with ((j - i) + (k - j))%nat by lia.
  rewrite firstn_plus, skipn_skipn.
  replace (j - i + i)%nat with j by lia. reflexivity.
Qed.

(** The first [k] chunks are the first [k * CHUNK_SIZE] rows. *)
Lemma concat_chunks (k : nat) :
  List.concat (map (chunk data) (seq 0 k)) = firstn (k * Route.CHUNK_SIZE) data.
Proof.
  induction k as [ | k IH].
  - reflexivity.
  - rewrite seq_S, map_app, concat_app, IH. cbn [map List.concat Nat.add].
    rewrite app_nil_r, <- !slice_from_0. unfold chunk.
    rewrite slice_app by lia. f_equal. lia.
Qed.

End Slices.

Section TraceFacts.
Context {row : Type}.

Lemma sales_inserts_app (tr1 tr2 : trace row) :
  sales_inserts (tr1 ++ tr2) = sales_inserts tr1 ++ sales_inserts tr2.
Proof.
  induction tr1 as [ | [q r] tr1 IH]; [reflexivity | ].
  destruct q; cbn; rewrite IH; reflexivity.
Qed.

Lemma sales_calls_app (tr1 tr2 : trace row) :
  sales_calls (tr1 ++ tr2) = sales_calls tr1 ++ sales_calls tr2.
Proof.
  induction tr1 as [ | [q r] tr1 IH]; [reflexivity | ].
  destruct q; cbn; rewrite IH; reflexivity.
Qed.

Lemma sales_table_app (tr1 tr2 : trace row) :
  sales_table (tr1 ++ tr2) = sales_table tr1 ++ sales_table tr2.
Proof.
  induction tr1 as [ | [q r] tr1 IH]; [reflexivity | ].
  destruct q; cbn; try exact IH.
  destruct (took_effect r); rewrite IH; [apply app_assoc | reflexivity].
Qed.

Lemma history_table_app (tr1 tr2 : trace row) (table : list upload_history) :
  history_table (tr1 ++ tr2) table = history_table tr2 (history_table tr1 table).
Proof.
  revert table. induction tr1 as [ | [q r] tr1 IH]; intros table; [reflexivity | ].
  cbn. apply IH.
Qed.

Variable w : world row.
Variable data : list row.

Lemma chunk_calls_inserts (base k : nat) :
  sales_inserts (map (chunk_call w data base) (seq 0 k)) = map (chunk data) (seq 0 k).
Proof.
  induction k as [ | k IH]; [reflexivity | ].
  rewrite seq_S, !map_app, sales_inserts_app, IH. reflexivity.
Qed.

Lemma chunk_calls_table (base k : nat) :
  (forall j, (j < k)%nat -> took_effect (snd (chunk_call w data base j)) = true) ->
  sales_table (map (chunk_call w data base) (seq 0 k)) =
  firstn (k * Route.CHUNK_SIZE) data.
Proof.
  intros H. rewrite <- concat_chunks.
  induction k as [ | k IH]; [reflexivity | ].
  rewrite seq_S, !map_app, sales_table_app, concat_app, IH by (intros; apply H; lia).
  f_equal. cbn [map Nat.add sales_table chunk_call List.concat].
  specialize (H k ltac:(lia)). cbn [chunk_call snd] in H. rewrite H. reflexivity.
Qed.

Lemma chunk_calls_history (base k : nat) (table : list upload_history) :
  history_table (map (chunk_call w data base) (seq 0 k)) table = table.
Proof.
  induction k as [ | k IH]; [reflexivity | ].
  rewrite seq_S, map_app, history_table_app, IH. cbn.
  destruct (took_effect _); reflexivity.
Qed.

End TraceFacts.

(* ================================================================= *)
(** ** The chunked insert of route.ts *)

Section RoutePersist.
Variable w : world Route.mappedRow.
Variables (entity0 : string) (file : File) (batchId : string).
Variable data : list Route.mappedRow.
Variable errors : list string.

Local Abbreviation loop := (Route.insert_loop w entity0 file batchId data errors).
Local Abbreviation complete := (Route.complete w entity0 file batchId errors).
Local Abbreviation catch_all := (Route.catch_all w batchId).
Local Abbreviation insert_failed := (Route.insert_failed w batchId).
Local Abbreviation n := (List.length data).
Local Abbreviation CH := Route.CHUNK_SIZE.

Lemma insert_loop_done (fuel i tot : nat) (pr : list nat) tr :
  (n <= i)%nat -> loop fuel i tot pr tr = complete tot pr tr.
Proof.
  intros H. destruct fuel; cbn [Route.insert_loop];
    destruct (Nat.ltb_spec i n); (lia || reflexivity).
Qed.

Lemma insert_loop_step (fuel i tot : nat) (pr : list nat) tr :
  (i < n)%nat ->
  loop (S fuel) i tot pr tr =
  let slice_i := Route.slice data i (i + CH) in
  match call w tr (InsertSales slice_i false) with
  | (Rejected msg, tr') => catch_all tot pr msg tr'
  | (Resolved _ (Some insertError), tr') => insert_failed tot pr insertError tr'
  | (Resolved _ None, tr') =>
      loop fuel (i + CH)%nat (tot + List.length slice_i)%nat
        (pr ++ [(tot + List.length slice_i)%nat]) tr'
  end.
Proof.
  intros H. cbn [Route.insert_loop].
  destruct (Nat.ltb_spec i n); [reflexivity | lia].
Qed.

Lemma insert_loop_ok_step (fuel i tot : nat) (pr : list nat) tr :
  (i < n)%nat ->
  let q := InsertSales (Route.slice data i (i + CH)) false in
  took_effect (w (List.length tr) q) = true ->
  loop (S fuel) i tot pr tr =
  loop fuel (i + CH)%nat (tot + List.length (Route.slice data i (i + CH)))%nat
    (pr ++ [(tot + List.length (Route.slice data i (i + CH)))%nat])
    (tr ++ [(q, w (List.length tr) q)]).
Proof.
  intros H q T. rewrite insert_loop_step by exact H.
  unfold call. fold q. cbv zeta.
  destruct (w (List.length tr) q) as [d [e | ] | msg]; try discriminate T.
  reflexivity.
Qed.

(** The loop is not cut short: any two amounts of fuel that cover the rows
    left give the same run.  [persist] starts it at row 0 with one unit of
    fuel per row. *)
Lemma insert_loop_fuel (fuel1 : nat) :
  forall (fuel2 i tot : nat) (pr : list nat) tr,
    (n <= i + fuel1 * CH)%nat -> (n <= i + fuel2 * CH)%nat ->
    loop fuel1 i tot pr tr = loop fuel2 i tot pr tr.
Proof.
  induction fuel1 as [ | fuel1 IH]; intros fuel2 i tot pr tr H1 H2.
  - rewrite !insert_loop_done by lia. reflexivity.
  - destruct (Nat.ltb_spec i n) as [L | G].
    + destruct fuel2 as [ | fuel2]; [cbn in H2; lia | ].
      rewrite !insert_loop_step by exact L. cbv zeta.
      destruct (call w tr _) as [[d [e | ] | msg] tr']; try reflexivity.
      apply IH; unfold CH in *; lia.
    + rewrite !insert_loop_done by lia. reflexivity.
Qed.

(** The run up to chunk [m], when the inserts of the chunks before it all
    take effect. *)
Lemma insert_loop_run (m : nat) :
  forall (fuel : nat) tr,
    (m <= fuel)%nat ->
    (forall j, (j < m)%nat -> (j * CH < n)%nat) ->
    (forall j, (j < m)%nat ->
       took_effect (snd (chunk_call w data (List.length tr) j)) = true) ->
    loop fuel 0 0 [] tr =
    loop (fuel - m) (m * CH) (List.length (firstn (m * CH) data))
      (map (fun j => List.length (firstn (S j * CH) data)) (seq 0 m))
      (tr ++ map (chunk_call w data (List.length tr)) (seq 0 m)).
Proof.
  induction m as [ | m IH]; intros fuel tr Hf Hn Hw.
  - cbn. rewrite Nat.sub_0_r, app_nil_r. reflexivity.
  - rewrite IH by (try lia; intros; (apply Hn || apply Hw); lia).
    replace (fuel - m)%nat with (S (fuel - S m)) by lia.
    assert (L : List.length (tr ++ map (chunk_call w data (List.length tr)) (seq 0 m))
                = (List.length tr + m)%nat).
    { rewrite length_app, length_map, length_seq. reflexivity. }
    rewrite insert_loop_ok_step.
    + rewrite L, seq_S, !map_app, <- app_assoc. cbn [map Nat.add app].
      assert (T : (List.length (firstn (m * CH) data) +
                   List.length (Route.slice data (m * CH) (m * CH + CH)))%nat
                  = List.length (firstn (S m * CH) data)).
      { rewrite slice_length, !length_firstn. unfold CH. lia. }
      rewrite T. f_equal. lia.
    + apply Hn. lia.
    + rewrite L. exact (Hw m ltac:(lia)).
Qed.

(** *** How a run ends *)

Lemma closing_failed (msg : string) (r : settled) :
  closing batchId (UpdateHistory "failed" (Some msg) batchId, r).
Proof. exists "failed", (Some msg). auto. Qed.

Lemma closing_completed (r : settled) :
  closing batchId (UpdateHistory "completed" None batchId, r).
Proof. exists "completed", None. auto. Qed.

Section Allocated.
Hypothesis allocated : batchId <> "".

Lemma catch_all_queries (tot : nat) (pr : list nat) (msg : string) tr :
  Route.queries (catch_all tot pr msg tr) =
  tr ++ [(UpdateHistory "failed" (Some msg) batchId,
          w (List.length tr) (UpdateHistory "failed" (Some msg) batchId))].
Proof.
  unfold Route.catch_all. cbn [Route.queries].
  destruct (String.eqb_spec batchId ""); [contradiction | reflexivity].
Qed.

Lemma catch_all_exits (tot : nat) (pr : list nat) (msg : string) tr :
  exits batchId tot pr tr (catch_all tot pr msg tr).
Proof.
  repeat split. eexists. split; [apply catch_all_queries | ].
  split; [discriminate | ]. constructor; [apply closing_failed | constructor].
Qed.

Lemma exits_after (tot : nat) (pr : list nat) tr qr out :
  closing batchId qr -> exits batchId tot pr (tr ++ [qr]) out ->
  exits batchId tot pr tr out.
Proof.
  intros C (T & P & B & fin & Q & N & F). repeat split; try assumption.
  exists (qr :: fin). rewrite Q, <- app_assoc. split; [reflexivity | ].
  split; [discriminate | constructor; assumption].
Qed.

Lemma complete_exits (tot : nat) (pr : list nat) tr :
  exits batchId tot pr tr (complete tot pr tr).
Proof.
  unfold Route.complete, call.
  destruct (w (List.length tr) _) as [d e | msg] eqn:E.
  - repeat split. eexists. split; [reflexivity | ].
    split; [discriminate | ]. constructor; [apply closing_completed | constructor].
  - eapply exits_after; [ | apply catch_all_exits]. apply closing_completed.
Qed.

Lemma insert_failed_exits (tot : nat) (pr : list nat) e tr :
  exits batchId tot pr tr (insert_failed tot pr e tr).
Proof.
  unfold Route.insert_failed, call.
  destruct (w (List.length tr) _) as [d e' | msg] eqn:E.
  - repeat split. eexists. split; [reflexivity | ].
    split; [discriminate | ]. constructor; [apply closing_failed | constructor].
  - eapply exits_after; [ | apply catch_all_exits]. apply closing_failed.
Qed.

Lemma exits_loop_outcome (i tot : nat) (pr : list nat) tr out :
  exits batchId tot pr tr out -> loop_outcome batchId data i tot pr tr out.
Proof.
  intros (T & P & B & fin & Q & N & F).
  exists [], fin, []. cbn. rewrite app_nil_r. repeat split; auto.
Qed.

(** One more failed or rejected chunk insert in front of an exit. *)
Lemma exits_after_insert (i tot : nat) (pr : list nat) tr r out :
  (i < n)%nat ->
  exits batchId tot pr
    (tr ++ [(InsertSales (Route.slice data i (i + CH)) false, r)]) out ->
  loop_outcome batchId data i tot pr tr out.
Proof.
  intros L (T & P & B & fin & Q & N & F).
  exists [(InsertSales (Route.slice data i (i + CH)) false, r)], fin, [].
  rewrite Q, <- app_assoc, app_nil_r. cbn.
  repeat split; auto.
  constructor; [eexists; reflexivity | constructor].
Qed.

Lemma insert_loop_shape (fuel : nat) :
  forall (i tot : nat) (pr : list nat) tr,
    loop_outcome batchId data i tot pr tr (loop fuel i tot pr tr).
Proof.
  induction fuel as [ | fuel IH]; intros i tot pr tr.
  - apply exits_loop_outcome.
    cbn [Route.insert_loop]. destruct (_ <? _)%nat; apply complete_exits.
  - destruct (Nat.ltb_spec i n) as [L | G].
    + rewrite insert_loop_step by exact L. unfold call. cbv zeta.
      destruct (w (List.length tr) _) as [d [e | ] | msg] eqn:E.
      * eapply exits_after_insert; [exact L | apply insert_failed_exits].
      * specialize (IH (i + CH)%nat
                      (tot + List.length (Route.slice data i (i + CH)))%nat
                      (pr ++ [(tot + List.length (Route.slice data i (i + CH)))%nat])
                      (tr ++ [(InsertSales (Route.slice data i (i + CH)) false,
                               Resolved d None)])).
        destruct IH as (ins & fin & new & Q & FI & CR & N & FC & P & CL & T & B).
        exists ((InsertSales (Route.slice data i (i + CH)) false, Resolved d None) :: ins),
               fin, ((tot + List.length (Route.slice data i (i + CH)))%nat :: new).
        rewrite Q, P, <- !app_assoc. cbn [app sales_calls chunk_run climbing].
        repeat split; auto.
        -- constructor; [eexists; reflexivity | exact FI].
        -- rewrite slice_length. unfold CH. lia.
        -- rewrite T, last_cons. reflexivity.
      * eapply exits_after_insert; [exact L | apply catch_all_exits].
    + rewrite insert_loop_done by exact G.
      apply exits_loop_outcome, complete_exits.
Qed.

(** The three ways [persist] goes on after the insert of the history
    record: the insert resolved with an error and the handler returns 500 at
    once; it rejected and the handler of the outer [try] marks the batch;
    it took effect and the insert loop runs. *)
Lemma persist_shape :
  let q0 := InsertHistory (processing_record batchId entity0 file n) in
  let r0 := w 0%nat q0 in
  let out := Route.persist w entity0 file batchId data errors in
  Route.batchId_at_exit out = batchId /\
  (((exists d e, r0 = Resolved d (Some e)) /\
    Route.queries out = [(q0, r0)] /\ http_status (Route.reply out) = 500%nat /\
    Route.progress out = [] /\ Route.totalInserted_at_exit out = 0%nat)
   \/
   ((exists msg, r0 = Rejected msg) /\ exits batchId 0 [] [(q0, r0)] out)
   \/
   (took_effect r0 = true /\ loop_outcome batchId data 0 0 [] [(q0, r0)] out)).
Proof.
  intros q0 r0 out. subst out. unfold Route.persist, call.
  change (w (List.length (@nil (query Route.mappedRow * settled))) _) with r0.
  destruct r0 as [d [e | ] | msg] eqn:E.
  - split; [reflexivity | ]. left. cbn. eauto 8.
  - pose proof (insert_loop_shape n 0 0 [] ([] ++ [(q0, Resolved d None)])) as Sh.
    split; [ | right; right; split; [reflexivity | exact Sh]].
    destruct Sh as (ins & fin & new & Sh). apply Sh.
  - pose proof (catch_all_exits 0 [] msg ([] ++ [(q0, Rejected msg)])) as Ex.
    split; [apply Ex | ]. right; left. split; [eauto | exact Ex].
Qed.

End Allocated.
End RoutePersist.

(* ================================================================= *)
(** ** The transform loop of route.ts *)

Section Transform.
Variable h : Host.
Variables entity0 batchId : string.

(** The body of the loop raises on no element of [rawData]. *)
Lemma transformRow_total (r : Route.rawRecord) :
  exists m, Route.transformRow h entity0 batchId r = inr m.
Proof.
  destruct r as [row]. unfold Route.transformRow.
  destruct (Route.invoiceDateFields h row) as [[a b] c]. eexists. reflexivity.
Qed.

Lemma transformRow_raises (r : Route.rawRecord) (msg : string) :
  Route.transformRow h entity0 batchId r <> inl msg.
Proof.
  destruct (transformRow_total r) as (m & T). rewrite T. discriminate.
Qed.



(** The loop, from any state: it pushes the row of every record that
    remains and leaves the warnings as they are. *)
Lemma transform_loop_total (rawData : list Route.rawRecord) :
  forall (i : nat) (td0 : list Route.mappedRow) (errs0 : list string),
    Route.transform_loop h entity0 batchId rawData i td0 errs0 =
    (td0 ++ mapped h entity0 batchId rawData, errs0).
Proof.
  induction rawData as [|r rest IH]; intros i td0 errs0.
  - cbn. rewrite app_nil_r. reflexivity.
  - cbn [Route.transform_loop mapped].
    destruct (transformRow_total r) as (m & T). rewrite T.
    rewrite IH, <- app_assoc. reflexivity.
Qed.

Lemma transformRow_object (row : object) :
  exists m, Route.transformRow h entity0 batchId (Route.RObject row) = inr m.
Proof. apply transformRow_total. Qed.

Lemma transform_loop_objects (rows : list object) :
  forall (i : nat) (td0 : list Route.mappedRow) (errs0 : list string),
    Route.transform_loop h entity0 batchId (map Route.RObject rows) i td0 errs0 =
    (td0 ++ mapped h entity0 batchId (map Route.RObject rows), errs0).
Proof. apply transform_loop_total. Qed.

Lemma mapped_objects (rows : list object) :
  Forall2 (fun row m => Route.transformRow h entity0 batchId (Route.RObject row) = inr m)
    rows (mapped h entity0 batchId (map Route.RObject rows)).
Proof.
  induction rows as [|row rows IH]; [constructor | ].
  cbn [map mapped]. destruct (transformRow_object row) as (m & T). rewrite T.
  constructor; [exact T | exact IH].
Qed.

End Transform.


(** The loop on a sheet of three rows, one of them with a date and an
    amount that cannot be read: three rows are mapped, no warning is
    collected. *)
Example warnings_capped_rows_kept_example :
  let result :=
    Route.transform_loop Sample.utc "USA" ""
      (map Route.RObject
         [Sample.invoice "INV-1" "2024-05-15" (VStr "$1,234.50");
          Sample.invoice "INV-2" "soon" (VStr "n/a");
          Sample.invoice "INV-3" "2024-05-17" (VStr "12")]) 0 [] [] in
  snd result = [] /\
  map Route.invoice_date (fst result) =
    [Some "2024-05-15"; None; Some "2024-05-17"].
Proof. vm_compute. split; reflexivity. Qed.

(* ================================================================= *)
(** ** The checks of route.ts *)

Section RouteChecks.
Variable h : Host.
Variable XLSX_read : File -> Route.workbook.

Lemma mem_In (s : string) (l : list string) : Route.mem s l = true <-> In s l.
Proof.
  unfold Route.mem. rewrite existsb_exists. split.
  - intros (x & I & E). apply String.eqb_eq in E. subst x. exact I.
  - intros I. exists s. split; [exact I | apply String.eqb_refl].
Qed.

Lemma rejected_facts (st : nat) (error : string) (more : list (string * json)) :
  let out := Route.rejected st error more in
  http_status (Route.reply out) = st /\ Route.queries out = [] /\
  Route.batchId_at_exit out = "" /\
  member "success" (body (Route.reply out)) = Some (JBool false) /\
  member "error" (body (Route.reply out)) = Some (JStr error).
Proof. repeat split. Qed.

(** A request that [prepare] turns down gets a 400 and leaves no trace. *)
Lemma prepare_inl (req : Request) (out : Route.outcome) :
  Route.prepare h XLSX_read req = inl out ->
  http_status (Route.reply out) = 400%nat /\ Route.queries out = [] /\
  Route.batchId_at_exit out = "" /\ Route.progress out = [] /\
  member "success" (body (Route.reply out)) = Some (JBool false).
Proof.
  unfold Route.prepare. intros P.
  repeat match type of P with
         | match ?x with _ => _ end = _ => destruct x eqn:?
         | (if ?b then _ else _) = _ => destruct b eqn:?
         | (let '(_, _) := ?x in _) = _ => destruct x eqn:?
         | inl _ = inl _ => injection P as <-
         | inr _ = inl _ => discriminate P
         end; repeat split.
Qed.

(** A request that [prepare] lets through has passed every check. *)
Lemma prepare_inr (req : Request) (file : File) (entity0 : string)
    (td : list Route.mappedRow) (errs : list string) :
  Route.prepare h XLSX_read req = inr (file, entity0, td, errs) ->
  validated XLSX_read req file entity0 /\
  exists rawData,
    XLSX_read file = Route.Sheet rawData /\
    (td, errs) = Route.transform_loop h entity0 "" rawData 0 [] [].
Proof.
  unfold Route.prepare, validated. intros P.
  destruct (form_file req) as [f | ] eqn:Ff; [ | discriminate].
  destruct (form_entity req) as [e | ] eqn:Fe; [ | discriminate].
  destruct e as [ | c e']; [discriminate | ].
  destruct (Route.mem (String c e') Route.validEntities) eqn:Me; [ | discriminate].
  cbn [negb] in P.
  destruct (Z.ltb_spec Route.MAX_FILE_SIZE (size f)) as [ | Sz]; [discriminate | ].
  destruct (Route.mem (type f) Route.validTypes) eqn:Mt; [ | discriminate].
  cbn [negb] in P.
  destruct (XLSX_read f) as [msg | rawData] eqn:X; [discriminate | ].
  destruct (Nat.eqb_spec (List.length rawData) 0) as [ | Ne]; [discriminate | ].
  destruct (Route.transform_loop h (String c e') "" rawData 0 [] []) as [td' errs'] eqn:T.
  destruct ((0 <? List.length errs')%nat && (List.length td' =? 0)%nat); [discriminate | ].
  injection P as <- <- <- <-.
  repeat split; try reflexivity.
  - apply mem_In. exact Me.
  - exact Sz.
  - apply mem_In. exact Mt.
  - exists rawData. split; [exact X | ]. intros ->. apply Ne. reflexivity.
  - exists rawData. rewrite T. split; [exact X | reflexivity].
Qed.

End RouteChecks.






(* ================================================================= *)
(** ** The history record of a run of route.ts *)

Section HistoryRecord.
Variable id : string.

Lemma closing_is_update (qr : query Route.mappedRow * settled) :
  closing id qr -> exists st e, fst qr = UpdateHistory st e id.
Proof. intros (st & e & E & _). eauto. Qed.

Lemma chunk_inserts_table (ins : trace Route.mappedRow) (table : list upload_history) :
  Forall chunk_insert ins -> history_table ins table = table.
Proof.
  induction 1 as [ | [q r] ins [rows E] F IH]; [reflexivity | ].
  cbn in E. subst q. cbn. destruct (took_effect r); exact IH.
Qed.

Lemma closing_no_sales (fin : trace Route.mappedRow) :
  Forall (closing id) fin ->
  sales_calls fin = [] /\ sales_inserts fin = [] /\ sales_table fin = [].
Proof.
  induction 1 as [ | [q r] fin C F IH]; [auto | ].
  destruct (closing_is_update _ C) as (st & e & E). cbn in E. subst q. exact IH.
Qed.

Lemma closing_empty_table (fin : trace Route.mappedRow) :
  Forall (closing id) fin -> history_table fin [] = [].
Proof.
  induction 1 as [ | [q r] fin C F IH]; [reflexivity | ].
  destruct (closing_is_update _ C) as (st & e & E). cbn in E. subst q.
  cbn. destruct (took_effect r); exact IH.
Qed.

(** The record of the batch after the updates of an exit: it has left its
    status for failed or completed unless every one of the updates failed to
    take effect. *)
Lemma closing_table (fin : trace Route.mappedRow) :
  forall rec,
    batch_id rec = id -> Forall (closing id) fin ->
    exists rec',
      history_table fin [rec] = [rec'] /\ batch_id rec' = id /\
      (status rec' = status rec /\
       (forall qr, In qr fin -> took_effect (snd qr) = false)
       \/ status rec' = "failed" \/ status rec' = "completed").
Proof.
  induction fin as [ | [q r] fin IH]; intros rec B F.
  - exists rec. split; [reflexivity | ]. split; [exact B | ]. left.
    split; [reflexivity | intros qr []].
  - apply Forall_cons_iff in F. destruct F as [C F'].
    destruct C as (st & e & E & T). cbn in E. subst q. cbn [history_table].
    destruct (took_effect r) eqn:TE.
    + cbn [map]. unfold patch at 1. rewrite B, String.eqb_refl.
      match goal with |- context [history_table fin [?r1]] => set (rec1 := r1) end.
      destruct (IH rec1 eq_refl F') as (rec' & H & B' & S').
      exists rec'. split; [exact H | ]. split; [exact B' | ]. right.
      destruct S' as [[S' _] | S']; [ | exact S'].
      rewrite S'. exact T.
    + destruct (IH rec B F') as (rec' & H & B' & S').
      exists rec'. split; [exact H | ]. split; [exact B' | ].
      destruct S' as [[S' A] | S']; [left | right; exact S'].
      split; [exact S' | ]. intros qr [<- | I]; [exact TE | exact (A qr I)].
Qed.

End HistoryRecord.

Lemma Forall_nth_error {A : Type} (P : A -> Prop) (l : list A) (i : nat) (x : A) :
  Forall P l -> nth_error l i = Some x -> P x.
Proof.
  intros F E. rewrite Forall_forall in F. apply F. exact (nth_error_In l i E).
Qed.

Lemma nonempty_last {A : Type} (l : list A) :
  l <> [] -> exists pre x, l = pre ++ [x].
Proof.
  intros N. destruct (exists_last N) as (pre & x & E). eauto.
Qed.

(* ================================================================= *)
(** ** Runs of route.ts *)

Section RouteRunsFacts.
Variable h : Host.
Variable XLSX_read : File -> Route.workbook.
Variable uuidv4 : string.
Hypothesis allocated : uuidv4 <> "".
Variable req : Request.
Variable w : world Route.mappedRow.

Local Abbreviation out := (Route.POST h XLSX_read uuidv4 req w).

(** A run that issues a query has passed the checks; the first query is
    the insert of the history record in state processing, and what follows
    depends on how that insert settles. *)
Lemma POST_shape :
  Route.queries out = [] /\ Route.batchId_at_exit out = "" /\ Route.progress out = []
  \/
  exists file entity0 td errs,
    Route.prepare h XLSX_read req = inr (file, entity0, td, errs) /\
    let data := map (Route.stamp uuidv4) td in
    let q0 := InsertHistory (processing_record uuidv4 entity0 file (List.length td)) in
    let r0 := w 0%nat q0 in
    Route.batchId_at_exit out = uuidv4 /\
    (((exists d e, r0 = Resolved d (Some e)) /\
      Route.queries out = [(q0, r0)] /\ http_status (Route.reply out) = 500%nat /\
      Route.progress out = [] /\ Route.totalInserted_at_exit out = 0%nat)
     \/
     ((exists msg, r0 = Rejected msg) /\ exits uuidv4 0 [] [(q0, r0)] out)
     \/
     (took_effect r0 = true /\ loop_outcome uuidv4 data 0 0 [] [(q0, r0)] out)).
Proof.
  unfold Route.POST.
  destruct (Route.prepare h XLSX_read req) as [o | [[[file entity0] td] errs]] eqn:P.
  - left. destruct (prepare_inl h XLSX_read req o P) as (_ & Q & B & Pr & _). auto.
  - right. exists file, entity0, td, errs. split; [reflexivity | ].
    pose proof (persist_shape w entity0 file uuidv4 (map (Route.stamp uuidv4) td)
                  errs allocated) as Sh.
    rewrite length_map in Sh. exact Sh.
Qed.

End RouteRunsFacts.

(* ================================================================= *)
(** ** The batch does not stay in state processing *)

(** Queries that do not take effect leave the table as it is. *)
Lemma history_table_without_effect (tr : trace Route.mappedRow)
    (table : list upload_history) :
  (forall qr, In qr tr -> took_effect (snd qr) = false) ->
  history_table tr table = table.
Proof.
  induction tr as [ | [q r] tr IH]; intros A; [reflexivity | ].
  cbn [history_table]. pose proof (A (q, r) (or_introl eq_refl)) as E.
  cbn [snd] in E. rewrite E.
  apply IH. intros qr I. apply A. right. exact I.
Qed.

(** C7, as amended.  In a run of route.ts that has allocated a batch
    identifier, the first query is the insert of the history record of the
    batch, in state processing.  When that insert resolves with an error
    the handler answers 500 at once, without an update, and the table holds
    no record of the batch.  Otherwise the last query of the run is an
    update of the record to status failed or completed, whatever settles or
    rejects in between.  The handler does not look at how these updates
    settle: the record of the batch is still in state processing at the end
    exactly when none of them took effect. *)
Theorem batch_leaves_processing (h : Host) (XLSX_read : File -> Route.workbook)
    (uuidv4 : string) (req : Request) (w : world Route.mappedRow) :
  uuidv4 <> "" ->
  let out := Route.POST h XLSX_read uuidv4 req w in
  Route.batchId_at_exit out <> "" ->
  exists rec r0 rest,
    Route.queries out = (InsertHistory rec, r0) :: rest /\
    batch_id rec = uuidv4 /\ status rec = "processing" /\
    (((exists d e, r0 = Resolved d (Some e)) /\ rest = [] /\
      http_status (Route.reply out) = 500%nat /\
      history_table (Route.queries out) [] = [])
     \/
     (exists pre q r, rest = pre ++ [(q, r)] /\ terminal_update uuidv4 q)) /\
    (forall rec',
       In rec' (history_table (Route.queries out) []) ->
       batch_id rec' = uuidv4 /\
       (status rec' = "processing" <->
        forall q r, In (q, r) rest -> terminal_update uuidv4 q ->
                    took_effect r = false)).
Proof.
  intros Hu out Hb.
  pose proof (POST_shape h XLSX_read uuidv4 Hu req w) as Sh. fold out in Sh.
  destruct Sh as [(_ & B & _) | (file & entity0 & td & errs & P & _ & Sh)];
    [contradiction | ].
  cbv zeta in Sh.
  set (rec0 := processing_record uuidv4 entity0 file (List.length td)) in *.
  set (r0 := w 0%nat (InsertHistory rec0)) in *.
  exists rec0, r0.
  assert (Last : forall fin : trace Route.mappedRow,
            fin <> [] -> Forall (closing uuidv4) fin ->
            exists pre q r, fin = pre ++ [(q, r)] /\ terminal_update uuidv4 q).
  { intros fin N F. destruct (nonempty_last fin N) as (pre & [q r] & E).
    exists pre, q, r. split; [exact E | ].
    rewrite E in F. apply Forall_app in F. destruct F as [_ F].
    apply Forall_cons_iff in F. exact (proj1 F). }
  destruct Sh as [((d & e & R) & Q & S5 & _) | [((msg & R) & _ & _ & _ & fin & Q & N & F) |
                   (T & ins & fin & new & Q & FI & _ & N & FC & _)]].
  - exists []. split; [exact Q | ]. split; [reflexivity | ]. split; [reflexivity | ].
    assert (H0 : history_table (Route.queries out) [] = []).
    { rewrite Q. cbn. fold rec0. fold r0. rewrite R. reflexivity. }
    split.
    + left. split; [eauto | ]. split; [reflexivity | ]. split; [exact S5 | exact H0].
    + intros rec' I. rewrite H0 in I. destruct I.
  - exists fin. split; [exact Q | ]. split; [reflexivity | ]. split; [reflexivity | ].
    split.
    + right. exact (Last fin N F).
    + intros rec' I. exfalso. rewrite Q in I. cbn in I. fold rec0 in I. fold r0 in I.
      rewrite R in I. cbn in I. rewrite (closing_empty_table uuidv4 fin F) in I.
      destruct I.
  - exists (ins ++ fin). split; [exact Q | ]. split; [reflexivity | ].
    split; [reflexivity | ]. split.
    + right. destruct (Last fin N FC) as (pre & q & r & E & U).
      exists (ins ++ pre), q, r. rewrite E, app_assoc. auto.
    + intros rec' I. rewrite Q in I. cbn in I. fold rec0 in I. fold r0 in I.
      rewrite T in I. cbn [app] in I.
      rewrite history_table_app, (chunk_inserts_table ins [rec0] FI) in I.
      destruct (closing_table uuidv4 fin rec0 eq_refl FC) as (rec1 & H1 & B1 & S1).
      rewrite H1 in I. destruct I as [<- | []].
      split; [exact B1 | ]. split.
      * intros St q r I U.
        destruct S1 as [[_ A] | [S1 | S1]];
          [ | rewrite S1 in St; discriminate St | rewrite S1 in St; discriminate St].
        apply in_app_or in I. destruct I as [I | I].
        -- exfalso. rewrite Forall_forall in FI. destruct (FI _ I) as [rows X].
           destruct U as (st & e & U & _). cbn in X. rewrite U in X. discriminate X.
        -- exact (A (q, r) I).
      * intros A.
        assert (E : history_table fin [rec0] = [rec0]).
        { apply history_table_without_effect. intros [q r] I.
          apply (A q r).
          - apply in_or_app. right. exact I.
          - rewrite Forall_forall in FC. exact (FC _ I). }
        rewrite E in H1. injection H1 as <-. reflexivity.
Qed.

(** The theorem on three runs: the first chunk insert rejects, and the
    handler of the outer [try] marks the batch failed; the first chunk
    insert resolves with an error; every query succeeds. *)
Lemma batch_leaves_processing_witness :
  (exists rec r0 rest,
     Route.queries
       (Sample.route (Sample.sheet 3) (Sample.request "USA")
          (Sample.throwing_at 1 "fetch failed"))
     = (InsertHistory rec, r0) :: rest /\
     status rec = "processing" /\
     exists pre q r, rest = pre ++ [(q, r)] /\ terminal_update "0b7a-batch" q) /\
  map status
    (history_table
       (Route.queries
          (Sample.route (Sample.sheet 3) (Sample.request "USA")
             (Sample.throwing_at 1 "fetch failed"))) []) = ["failed"] /\
  map status
    (history_table
       (Route.queries
          (Sample.route (Sample.sheet 3) (Sample.request "USA")
             (Sample.failing_at 1 "duplicate key"))) []) = ["failed"] /\
  map status
    (history_table
       (Route.queries
          (Sample.route (Sample.sheet 3) (Sample.request "USA") Sample.accepting))
       []) = ["completed"].
Proof.
  split; [ | repeat split].
  destruct (batch_leaves_processing Sample.utc (fun _ => Route.Sheet (Sample.sheet 3))
              "0b7a-batch" (Sample.request "USA") (Sample.throwing_at 1 "fetch failed")
              ltac:(discriminate) ltac:(discriminate))
    as (rec & r0 & rest & Q & _ & St & [((d & e & R) & N & _) | L] & _).
  - exfalso. rewrite N in Q. vm_compute in Q. discriminate Q.
  - exists rec, r0, rest. auto.
Defined.

(** C7, as stated, fails.  When the update to status completed resolves
    with an error, which line 409 does not look at, the run ends with
    status 200 and the record of the batch in state processing.  When that
    update rejects and the update of the handler of the outer [try] fails
    as well, the run ends with status 500 and the record in state
    processing.  And when the insert of the record itself resolves with an
    error, the run ends after that one query: the batch identifier is
    allocated and no update is attempted. *)
Lemma batch_left_processing_counterexample :
  let run := Sample.route (Sample.sheet 3) (Sample.request "USA") in
  (let out := run (Sample.failing_at 2 "statement timeout") in
   http_status (Route.reply out) = 200%nat /\
   member "success" (body (Route.reply out)) = Some (JBool true) /\
   member "rowsInserted" (body (Route.reply out)) = Some (JNum 3) /\
   map status (history_table (Route.queries out) []) = ["processing"]) /\
  (let out :=
     run (fun k _ => if (k <? 2)%nat then Resolved None None
                     else Rejected "fetch failed") in
   http_status (Route.reply out) = 500%nat /\
   List.length (Route.queries out) = 4%nat /\
   map status (history_table (Route.queries out) []) = ["processing"]) /\
  (let out := run (Sample.failing_at 0 "permission denied") in
   Route.batchId_at_exit out = "0b7a-batch" /\
   http_status (Route.reply out) = 500%nat /\
   List.length (Route.queries out) = 1%nat).
Proof. vm_compute. repeat split. Qed.

(* ================================================================= *)
(** ** A chunk that fails *)

Section ChunkFailure.
Variable w : world Route.mappedRow.
Variables (entity0 : string) (file : File) (batchId : string).
Variable data : list Route.mappedRow.
Variable errors : list string.
Hypothesis allocated : batchId <> "".

Local Abbreviation n := (List.length data).
Local Abbreviation CH := Route.CHUNK_SIZE.
Local Abbreviation q0 := (InsertHistory (processing_record batchId entity0 file n)).

(** The queries of a run up to and with the insert of chunk [k]. *)
Local Abbreviation upto k :=
  ([(q0, w 0%nat q0)] ++ map (chunk_call w data 1) (seq 0 k) ++
   [chunk_call w data 1 k]).

Lemma upto_length (k : nat) :
  List.length ([(q0, w 0%nat q0)] ++ map (chunk_call w data 1) (seq 0 k)) = S k.
Proof. rewrite length_app, length_map, length_seq. reflexivity. Qed.

(** Once the history record is written the insert loop starts. *)
Lemma persist_started :
  took_effect (w 0%nat q0) = true ->
  Route.persist w entity0 file batchId data errors =
  Route.insert_loop w entity0 file batchId data errors n 0 0 [] [(q0, w 0%nat q0)].
Proof.
  unfold Route.persist, call, processing_record. cbn [List.length app].
  intros T. destruct (w 0%nat _) as [d0 [e0 | ] | m0]; try discriminate T.
  reflexivity.
Qed.

(** The run in which the inserts before chunk [k] take effect and the
    insert of chunk [k] ends with an error: the update to status failed
    follows, and when the insert had resolved and this update rejects, the
    update of the handler of the outer [try] follows, with the message of
    the rejection. *)
Lemma persist_chunk_failure (k : nat) (msg : string) :
  (k * CH < n)%nat ->
  (forall j q, (j <= k)%nat -> took_effect (w j q) = true) ->
  failure_message (w (S k) (InsertSales (chunk data k) false)) = Some msg ->
  let out := Route.persist w entity0 file batchId data errors in
  let ins := InsertSales (chunk data k) false in
  let upd := UpdateHistory "failed" (Some msg) batchId in
  let r1 := w (S (S k)) upd in
  http_status (Route.reply out) = 500%nat /\
  member "rowsInserted" (body (Route.reply out)) = None /\
  Route.totalInserted_at_exit out = (k * CH)%nat /\
  ((is_rejected (w (S k) ins) = true \/ is_rejected r1 = false) /\
   Route.queries out = upto k ++ [(upd, r1)] /\
   member "details" (body (Route.reply out)) = Some (JStr msg)
   \/
   exists msg2,
     is_rejected (w (S k) ins) = false /\ r1 = Rejected msg2 /\
     Route.queries out =
       upto k ++
       [(upd, r1);
        (UpdateHistory "failed" (Some msg2) batchId,
         w (S (S (S k))) (UpdateHistory "failed" (Some msg2) batchId))] /\
     member "error" (body (Route.reply out)) = Some (JStr "Internal server error") /\
     member "details" (body (Route.reply out)) = Some (JStr msg2)).
Proof.
  intros Hk Hok Hfail out ins upd r1. subst out.
  rewrite persist_started by (apply Hok; lia).
  rewrite (insert_loop_run w entity0 file batchId data errors k n [(q0, w 0%nat q0)]).
  2: { unfold CH in Hk. lia. }
  2: { intros j Hj. unfold CH in *. lia. }
  2: { intros j Hj. cbn. apply Hok. lia. }
  replace (n - k)%nat with (S (n - S k)) by (unfold CH in Hk; lia).
  rewrite insert_loop_step by exact Hk.
  cbv zeta. unfold call.
  cbn [List.length]. rewrite upto_length.
  change (Route.slice data (k * CH) (k * CH + CH)) with (chunk data k).
  assert (Tot : List.length (firstn (k * CH) data) = (k * CH)%nat).
  { rewrite length_firstn. lia. }
  change (chunk_call w data 1 k)
    with (InsertSales (chunk data k) false, w (S k) (InsertSales (chunk data k) false)).
  subst ins.
  destruct (w (S k) (InsertSales (chunk data k) false)) as [d [e | ] | m] eqn:Wk;
    cbn in Hfail; try discriminate Hfail; injection Hfail as <-.
  - unfold Route.insert_failed, call.
    rewrite length_app, upto_length. cbn [List.length]. rewrite Nat.add_1_r.
    fold upd. fold r1.
    destruct r1 as [du eu | mu] eqn:Wu.
    + cbn [Route.queries Route.reply http_status body Route.totalInserted_at_exit].
      split; [reflexivity | ]. split; [destruct (hint e); reflexivity | ].
      split; [exact Tot | ]. left.
      split; [right; reflexivity | ]. rewrite <- !app_assoc.
      split; reflexivity.
    + rewrite catch_all_queries by exact allocated.
      rewrite 2!length_app, upto_length. cbn [List.length].
      replace (S k + 1 + 1)%nat with (S (S (S k))) by lia.
      cbn [Route.catch_all Route.reply http_status body Route.totalInserted_at_exit].
      split; [reflexivity | ]. split; [reflexivity | ].
      split; [exact Tot | ]. right. exists mu.
      split; [reflexivity | ]. split; [reflexivity | ].
      rewrite <- !app_assoc. split; [reflexivity | ]. split; reflexivity.
  - rewrite catch_all_queries by exact allocated.
    rewrite length_app, upto_length. cbn [List.length]. rewrite Nat.add_1_r.
    fold upd. fold r1.
    cbn [Route.catch_all Route.reply http_status body Route.totalInserted_at_exit].
    split; [reflexivity | ]. split; [reflexivity | ].
    split; [exact Tot | ]. left.
    split; [left; reflexivity | ]. rewrite <- !app_assoc.
    split; reflexivity.
Qed.

(** What the queries of such a run store. *)
Lemma upto_stored (k : nat) (tail : trace Route.mappedRow) :
  (forall j q, (j <= k)%nat -> took_effect (w j q) = true) ->
  took_effect (w (S k) (InsertSales (chunk data k) false)) = false ->
  Forall (closing batchId) tail ->
  sales_inserts (upto k ++ tail) = map (chunk data) (seq 0 (S k)) /\
  sales_table (upto k ++ tail) = firstn (k * CH) data.
Proof.
  intros Hok Hk F. destruct (closing_no_sales batchId tail F) as (_ & SI & ST).
  split.
  - rewrite !sales_inserts_app, SI, chunk_calls_inserts, seq_S, map_app.
    cbn. rewrite app_nil_r. reflexivity.
  - rewrite !sales_table_app, ST, chunk_calls_table.
    + cbn. rewrite Hk, !app_nil_r. reflexivity.
    + intros j Hj. cbn. apply Hok. lia.
Qed.

(** The history table after such a run: the record of the batch alone. *)
Lemma upto_history (k : nat) (tail : trace Route.mappedRow) :
  took_effect (w 0%nat q0) = true ->
  history_table (upto k ++ tail) [] =
  history_table tail [processing_record batchId entity0 file n].
Proof.
  intros T. rewrite !history_table_app. cbn [history_table]. rewrite T.
  cbn [app]. rewrite chunk_calls_history. unfold chunk_call.
  destruct (took_effect (w (1 + k)%nat _)); reflexivity.
Qed.

End ChunkFailure.

(** The record of a batch after one update to status failed. *)
Lemma failed_update_table (id entity0 : string) (file : File) (rows : nat)
    (msg : string) (r : settled) (tail : trace Route.mappedRow) :
  history_table ((UpdateHistory "failed" (Some msg) id, r) :: tail)
    [processing_record id entity0 file rows] =
  history_table tail
    [if took_effect r
     then {| batch_id := id;
             history_entity := entity0;
             file_name := name file;
             rows_uploaded := rows;
             status := "failed";
             error_message := Some msg |}
     else processing_record id entity0 file rows].
Proof.
  cbn [history_table]. destruct (took_effect r); [ | reflexivity].
  cbn [map]. unfold patch, processing_record. cbn [batch_id].
  rewrite String.eqb_refl. reflexivity.
Qed.

(** C2, as amended.  Take a request that passes the checks, and a run in
    which the history record and the chunks before chunk [k] are inserted
    and the insert of chunk [k] ends with an error of message [msg]: it
    resolves with one, or rejects.  No later chunk is inserted: the next
    query is the update of the batch to status failed with [msg], and the
    rows stored are those of the chunks before [k].  The response has
    status 500.  It carries [msg] when the insert rejected or the update
    does not reject; when the insert resolved and the update rejects, the
    handler tries once more to mark the batch failed, now with the message
    of the rejection, and the response carries that message.  The record of
    the batch is in status failed, with the message of the update, when such
    an update takes effect, and stays in state processing otherwise.  The
    counter of rows inserted stands at the rows of the chunks before [k],
    but no output carries it: the response has no member rowsInserted, and
    the record still counts all the rows of the upload. *)
Theorem chunk_failure_aborts (h : Host) (XLSX_read : File -> Route.workbook)
    (uuidv4 : string) (req : Request) (w : world Route.mappedRow)
    (file : File) (entity0 : string) (td : list Route.mappedRow)
    (errs : list string) (k : nat) (msg : string) :
  uuidv4 <> "" ->
  Route.prepare h XLSX_read req = inr (file, entity0, td, errs) ->
  let data := map (Route.stamp uuidv4) td in
  (k * Route.CHUNK_SIZE < List.length data)%nat ->
  (forall j q, (j <= k)%nat -> took_effect (w j q) = true) ->
  failure_message (w (S k) (InsertSales (chunk data k) false)) = Some msg ->
  let out := Route.POST h XLSX_read uuidv4 req w in
  let ins := InsertSales (chunk data k) false in
  let upd := UpdateHistory "failed" (Some msg) uuidv4 in
  let r1 := w (S (S k)) upd in
  let record := fun rec => (status rec, error_message rec, rows_uploaded rec) in
  sales_inserts (Route.queries out) = map (chunk data) (seq 0 (S k)) /\
  sales_table (Route.queries out) = firstn (k * Route.CHUNK_SIZE) data /\
  Route.totalInserted_at_exit out = (k * Route.CHUNK_SIZE)%nat /\
  http_status (Route.reply out) = 500%nat /\
  member "rowsInserted" (body (Route.reply out)) = None /\
  ((is_rejected (w (S k) ins) = true \/ is_rejected r1 = false) /\
   (exists pre, Route.queries out = pre ++ [(ins, w (S k) ins); (upd, r1)]) /\
   member "details" (body (Route.reply out)) = Some (JStr msg) /\
   map record (history_table (Route.queries out) []) =
     [if took_effect r1 then ("failed", Some msg, List.length data)
      else ("processing", None, List.length data)]
   \/
   exists msg2,
     is_rejected (w (S k) ins) = false /\ r1 = Rejected msg2 /\
     let upd2 := UpdateHistory "failed" (Some msg2) uuidv4 in
     let r2 := w (S (S (S k))) upd2 in
     (exists pre,
        Route.queries out = pre ++ [(ins, w (S k) ins); (upd, r1); (upd2, r2)]) /\
     member "error" (body (Route.reply out)) = Some (JStr "Internal server error") /\
     member "details" (body (Route.reply out)) = Some (JStr msg2) /\
     map record (history_table (Route.queries out) []) =
       [if took_effect r2 then ("failed", Some msg2, List.length data)
        else ("processing", None, List.length data)]).
Proof.
  intros Hu P data Hk Hok Hfail out ins upd r1 record. subst out.
  unfold Route.POST. rewrite P. fold data.
  destruct (persist_chunk_failure w entity0 file uuidv4 data errs Hu k msg
              Hk Hok Hfail) as (S5 & RI & T & C).
  fold ins upd r1 in C.
  assert (NE : took_effect (w (S k) ins) = false).
  { subst ins. destruct (w (S k) (InsertSales (chunk data k) false)) as [d [e | ] | m];
      [reflexivity | discriminate Hfail | reflexivity]. }
  assert (T0 : took_effect
                 (w 0%nat (InsertHistory
                             (processing_record uuidv4 entity0 file (List.length data))))
               = true) by (apply Hok; lia).
  set (pre := [(InsertHistory (processing_record uuidv4 entity0 file (List.length data)),
                w 0%nat (InsertHistory
                           (processing_record uuidv4 entity0 file (List.length data))))]
              ++ map (chunk_call w data 1) (seq 0 k)).
  destruct C as [(R & Q & D) | (msg2 & R & R1 & Q & E & D)].
  - destruct (upto_stored w entity0 file uuidv4 data k [(upd, r1)] Hok NE) as (SI & ST).
    { constructor; [apply closing_failed | constructor]. }
    rewrite Q.
    split; [exact SI | ]. split; [exact ST | ]. split; [exact T | ].
    split; [exact S5 | ]. split; [exact RI | ]. left.
    split; [exact R | ]. split.
    + exists pre. unfold pre, chunk_call. rewrite <- !app_assoc. reflexivity.
    + split; [exact D | ].
      rewrite (upto_history w entity0 file uuidv4 data k _ T0).
      unfold upd. rewrite failed_update_table. cbn [history_table map].
      destruct (took_effect r1); reflexivity.
  - set (upd2 := UpdateHistory "failed" (Some msg2) uuidv4) in *.
    set (r2 := w (S (S (S k))) upd2) in *.
    destruct (upto_stored w entity0 file uuidv4 data k [(upd, r1); (upd2, r2)] Hok NE)
      as (SI & ST).
    { constructor; [apply closing_failed | ].
      constructor; [apply closing_failed | constructor]. }
    rewrite Q.
    split; [exact SI | ]. split; [exact ST | ]. split; [exact T | ].
    split; [exact S5 | ]. split; [exact RI | ]. right. exists msg2.
    split; [exact R | ]. split; [exact R1 | ]. cbv zeta. fold upd2. fold r2. split.
    + exists pre. unfold pre, chunk_call. rewrite <- !app_assoc. reflexivity.
    + split; [exact E | ]. split; [exact D | ].
      rewrite (upto_history w entity0 file uuidv4 data k _ T0).
      unfold upd. rewrite failed_update_table, R1. cbn [took_effect].
      unfold upd2. rewrite failed_update_table. cbn [history_table map].
      destruct (took_effect r2); reflexivity.
Qed.

(** The theorem on a sheet of three rows whose first chunk the database
    refuses. *)
Lemma chunk_failure_aborts_witness :
  let out :=
    Sample.route (Sample.sheet 3) (Sample.request "USA")
      (Sample.failing_at 1 "duplicate key") in
  http_status (Route.reply out) = 500%nat /\
  member "rowsInserted" (body (Route.reply out)) = None /\
  member "details" (body (Route.reply out)) = Some (JStr "duplicate key") /\
  List.length (sales_inserts (Route.queries out)) = 1%nat /\
  sales_table (Route.queries out) = [] /\
  map (fun rec => (status rec, error_message rec, rows_uploaded rec))
    (history_table (Route.queries out) []) = [("failed", Some "duplicate key", 3%nat)].
Proof.
  assert (P : Route.prepare Sample.utc (fun _ => Route.Sheet (Sample.sheet 3))
                (Sample.request "USA")
              = inr (Sample.xlsx, "USA", Sample.mapped_sheet 3, []))
    by (vm_compute; reflexivity).
  assert (Hk : (0 * Route.CHUNK_SIZE <
                List.length (map (Route.stamp "0b7a-batch") (Sample.mapped_sheet 3)))%nat)
    by (apply Nat.ltb_lt; vm_compute; reflexivity).
  assert (Hok : forall j (q : query Route.mappedRow), (j <= 0)%nat ->
                  took_effect (Sample.failing_at 1 "duplicate key" j q) = true).
  { intros j q Hj. destruct j as [ | j]; [reflexivity | lia]. }
  destruct (chunk_failure_aborts Sample.utc (fun _ => Route.Sheet (Sample.sheet 3))
              "0b7a-batch" (Sample.request "USA") (Sample.failing_at 1 "duplicate key")
              Sample.xlsx "USA" (Sample.mapped_sheet 3) [] 0 "duplicate key"
              ltac:(discriminate) P Hk Hok eq_refl)
    as (SI & ST & _ & S5 & RI & C).
  split; [exact S5 | ]. split; [exact RI | ].
  destruct C as [(_ & _ & D & H) | (msg2 & _ & R1 & _)]; [ | discriminate R1].
  split; [exact D | ]. split; [unfold Sample.route; rewrite SI; reflexivity | ].
  split; [exact ST | exact H].
Defined.

(** C2, as stated, fails in three ways.  On a sheet of three rows, when the
    insert of the chunk resolves with the error duplicate key and the
    update to status failed rejects with fetch failed, the response and the
    record carry fetch failed, not the message of the insert.  When that
    update resolves with an error, the response carries duplicate key and
    the record stays in state processing.  On a sheet of 501 rows whose
    second chunk the database refuses, 500 rows are stored, while the
    response has no count of rows and the record counts 501. *)
Lemma chunk_failure_counterexample :
  (let out :=
     Sample.route (Sample.sheet 3) (Sample.request "USA")
       (fun k _ =>
          match k with
          | 1%nat => Resolved None (Some (Sample.db_error "duplicate key"))
          | 2%nat => Rejected "fetch failed"
          | _ => Resolved None None
          end) in
   http_status (Route.reply out) = 500%nat /\
   member "error" (body (Route.reply out)) = Some (JStr "Internal server error") /\
   member "details" (body (Route.reply out)) = Some (JStr "fetch failed") /\
   map (fun rec => (status rec, error_message rec))
     (history_table (Route.queries out) []) = [("failed", Some "fetch failed")]) /\
  (let out :=
     Sample.route (Sample.sheet 3) (Sample.request "USA")
       (fun k _ =>
          if (1 <=? k)%nat then Resolved None (Some (Sample.db_error "duplicate key"))
          else Resolved None None) in
   http_status (Route.reply out) = 500%nat /\
   member "details" (body (Route.reply out)) = Some (JStr "duplicate key") /\
   map (fun rec => (status rec, error_message rec))
     (history_table (Route.queries out) []) = [("processing", None)]) /\
  (let out :=
     Sample.route (Sample.sheet 501) (Sample.request "USA")
       (Sample.failing_at 2 "duplicate key") in
   http_status (Route.reply out) = 500%nat /\
   List.length (sales_table (Route.queries out)) = 500%nat /\
   member "rowsInserted" (body (Route.reply out)) = None /\
   map (fun rec => (status rec, rows_uploaded rec))
     (history_table (Route.queries out) []) = [("failed", 501%nat)]).
Proof.
  split; [ | split].
  - vm_compute. repeat split.
  - vm_compute. repeat split.
  - vm_compute. repeat split.
Qed.

(* ================================================================= *)
(** ** Twelve hundred rows *)

Section Chunks.
Context {row : Type}.
Variable data : list row.

Lemma chunk_run_length (calls : list (list row * settled)) :
  forall i,
    chunk_run data i calls ->
    calls = [] \/
    (i + List.length calls * Route.CHUNK_SIZE <
     List.length data + Route.CHUNK_SIZE)%nat.
Proof.
  induction calls as [ | [rows r] calls IH]; intros i R; [left; reflexivity | right].
  cbn [chunk_run] in R. destruct R as (_ & L & _ & R).
  destruct (IH _ R) as [-> | B]; cbn [List.length]; unfold Route.CHUNK_SIZE in *; lia.
Qed.

End Chunks.

(** C8.  For a request that passes the checks with 1,200 rows mapped: when
    the insert of the history record and the three chunk inserts take
    effect, the inserts into sales_data are three, of the rows 0 to 499, 500
    to 999 and 1000 to 1199 in that order; the count printed after them is
    500, 1000 and 1200, and the 1,200 rows are stored.  Whatever the
    database answers, the chunks are inserted in that order, chunk N+1 only
    after the insert of chunk N has taken effect, there are at most three
    inserts, and each count printed is above the one before. *)
Theorem twelve_hundred_rows (h : Host) (XLSX_read : File -> Route.workbook)
    (uuidv4 : string) (req : Request) (file : File) (entity0 : string)
    (td : list Route.mappedRow) (errs : list string) :
  uuidv4 <> "" ->
  Route.prepare h XLSX_read req = inr (file, entity0, td, errs) ->
  List.length td = 1200%nat ->
  let data := map (Route.stamp uuidv4) td in
  (forall w : world Route.mappedRow,
     (forall j q, (j <= 3)%nat -> took_effect (w j q) = true) ->
     let out := Route.POST h XLSX_read uuidv4 req w in
     sales_inserts (Route.queries out) = [chunk data 0; chunk data 1; chunk data 2] /\
     map (@List.length _) (sales_inserts (Route.queries out)) = [500; 500; 200]%nat /\
     Route.progress out = [500; 1000; 1200]%nat /\
     Route.totalInserted_at_exit out = 1200%nat /\
     sales_table (Route.queries out) = data) /\
  (forall w : world Route.mappedRow,
     let out := Route.POST h XLSX_read uuidv4 req w in
     chunk_run data 0 (sales_calls (Route.queries out)) /\
     (List.length (sales_calls (Route.queries out)) <= 3)%nat /\
     climbing 0 (Route.progress out)).
Proof.
  intros Hu P Hn data.
  assert (Ln : List.length data = 1200%nat).
  { unfold data. rewrite length_map. exact Hn. }
  assert (F1 : List.length (firstn (1 * Route.CHUNK_SIZE) data) = 500%nat).
  { rewrite length_firstn, Ln. reflexivity. }
  assert (F2 : List.length (firstn (2 * Route.CHUNK_SIZE) data) = 1000%nat).
  { rewrite length_firstn, Ln. reflexivity. }
  assert (F3 : List.length (firstn (3 * Route.CHUNK_SIZE) data) = 1200%nat).
  { rewrite length_firstn, Ln. reflexivity. }
  split.
  - intros w Hok out. subst out. unfold Route.POST. rewrite P. fold data.
    rewrite persist_started by (rewrite Ln; apply Hok; lia).
    rewrite (insert_loop_run w entity0 file uuidv4 data errs 3).
    2: { rewrite Ln. lia. }
    2: { intros j Hj. rewrite Ln. unfold Route.CHUNK_SIZE. lia. }
    2: { intros j Hj. cbn. apply Hok. lia. }
    rewrite insert_loop_done by (rewrite Ln; unfold Route.CHUNK_SIZE; lia).
    destruct (complete_exits w entity0 file uuidv4 errs Hu
                (List.length (firstn (3 * Route.CHUNK_SIZE) data))
                (map (fun j => List.length (firstn (S j * Route.CHUNK_SIZE) data)) (seq 0 3))
                ([(InsertHistory (processing_record uuidv4 entity0 file (List.length data)),
                   w 0%nat (InsertHistory
                              (processing_record uuidv4 entity0 file (List.length data))))]
                 ++ map (chunk_call w data 1) (seq 0 3)))
      as (T & Pr & _ & fin & Q & _ & F).
    cbn [List.length] in T, Pr, Q |- *. rewrite T, Pr, Q.
    destruct (closing_no_sales uuidv4 fin F) as (_ & SI & ST).
    assert (I3 : sales_inserts
                   (([(InsertHistory (processing_record uuidv4 entity0 file (List.length data)),
                       w 0%nat (InsertHistory
                                  (processing_record uuidv4 entity0 file (List.length data))))]
                     ++ map (chunk_call w data 1) (seq 0 3)) ++ fin)
                 = [chunk data 0; chunk data 1; chunk data 2]).
    { rewrite !sales_inserts_app, SI, chunk_calls_inserts, app_nil_r. reflexivity. }
    split; [exact I3 | ]. split.
    + rewrite I3. unfold chunk. cbn [map]. rewrite !slice_length, Ln. reflexivity.
    + split.
      * cbn [seq map]. rewrite F1, F2, F3. reflexivity.
      * split; [exact F3 | ].
        rewrite !sales_table_app, ST, chunk_calls_table, app_nil_r.
        -- apply firstn_all2. rewrite Ln. unfold Route.CHUNK_SIZE. lia.
        -- intros j Hj. cbn. apply Hok. lia.
  - intros w out.
    pose proof (POST_shape h XLSX_read uuidv4 Hu req w) as Sh. fold out in Sh.
    destruct Sh as [(Q & _ & Pr) | (file' & entity' & td' & errs' & P' & _ & Sh)].
    + rewrite Q, Pr. cbn. auto with arith.
    + rewrite P in P'. injection P' as <- <- <- <-. cbv zeta in Sh. fold data in Sh.
      destruct Sh as [(_ & Q & _ & Pr & _) | [(_ & _ & Pr & _ & fin & Q & _ & F) |
                       (_ & ins & fin & new & Q & FI & R & _ & FC & Pr & C & _)]].
      * rewrite Q, Pr. cbn. auto with arith.
      * destruct (closing_no_sales uuidv4 fin F) as (SC & _).
        rewrite Q, Pr, sales_calls_app, SC. cbn. auto with arith.
      * destruct (closing_no_sales uuidv4 fin FC) as (SC & _).
        rewrite Q, Pr, !sales_calls_app, SC, app_nil_r. cbn [sales_calls app].
        split; [exact R | ]. split; [ | exact C].
        destruct (chunk_run_length data _ _ R) as [-> | B]; [cbn; lia | ].
        rewrite Ln in B. unfold Route.CHUNK_SIZE in B. lia.
Qed.

(** The theorem on a sheet of 1,200 rows and a database that accepts every
    query. *)
Lemma twelve_hundred_rows_witness :
  let out :=
    Sample.route (Sample.sheet 1200) (Sample.request "USA") Sample.accepting in
  map (@List.length _) (sales_inserts (Route.queries out)) = [500; 500; 200]%nat /\
  Route.progress out = [500; 1000; 1200]%nat /\
  Route.totalInserted_at_exit out = 1200%nat.
Proof.
  assert (P : Route.prepare Sample.utc (fun _ => Route.Sheet (Sample.sheet 1200))
                (Sample.request "USA")
              = inr (Sample.xlsx, "USA", Sample.mapped_sheet 1200, []))
    by (vm_compute; reflexivity).
  assert (Hn : List.length (Sample.mapped_sheet 1200) = 1200%nat)
    by (vm_compute; reflexivity).
  destruct (twelve_hundred_rows Sample.utc (fun _ => Route.Sheet (Sample.sheet 1200))
              "0b7a-batch" (Sample.request "USA") Sample.xlsx "USA"
              (Sample.mapped_sheet 1200) [] ltac:(discriminate) P Hn) as [A _].
  destruct (A Sample.accepting (fun _ _ _ => eq_refl)) as (_ & L & Pr & T & _).
  split; [exact L | ]. split; [exact Pr | exact T].
Defined.

(* ================================================================= *)
(** ** Strings: the snake-case helper *)

Section Characters.

Lemma all_chars_impl (p q : ascii -> bool) (s : string) :
  (forall c, p c = true -> q c = true) ->
  all_chars p s = true -> all_chars q s = true.
Proof.
  intros I. induction s as [|c s IH]; simpl; [reflexivity | ].
  intros H. apply andb_true_iff in H. destruct H as [H1 H2].
  rewrite (I c H1), (IH H2). reflexivity.
Qed.

Lemma all_chars_replace_char (p q : ascii -> bool) (a b : ascii) (s : string) :
  (forall c, p c = true -> q (if Ascii.eqb c a then b else c) = true) ->
  all_chars p s = true -> all_chars q (replace_char a b s) = true.
Proof.
  intros I. induction s as [|c s IH]; simpl; [reflexivity | ].
  intros H. apply andb_true_iff in H. destruct H as [H1 H2].
  rewrite (I c H1), (IH H2). reflexivity.
Qed.

Lemma all_chars_filter (p q keep : ascii -> bool) (s : string) :
  (forall c, p c = true -> keep c = true -> q c = true) ->
  all_chars p s = true -> all_chars q (filter_chars keep s) = true.
Proof.
  intros I. induction s as [|c s IH]; simpl; [reflexivity | ].
  intros H. apply andb_true_iff in H. destruct H as [H1 H2].
  destruct (keep c) eqn:K; simpl; [ | exact (IH H2)].
  rewrite (I c H1 K), (IH H2). reflexivity.
Qed.

Lemma all_chars_lower (p q : ascii -> bool) (s : string) :
  (forall c, p c = true -> q (lower_char c) = true) ->
  all_chars p s = true -> all_chars q (toLowerCase s) = true.
Proof.
  intros I. induction s as [|c s IH]; simpl; [reflexivity | ].
  intros H. apply andb_true_iff in H. destruct H as [H1 H2].
  rewrite (I c H1), (IH H2). reflexivity.
Qed.

Lemma all_chars_space_runs (r : ascii) (s : string) :
  is_space r = false ->
  forall inside,
    all_chars (fun c => negb (is_space c)) (replace_space_runs r inside s) = true.
Proof.
  intros R. induction s as [|c s IH]; intros inside; simpl; [reflexivity | ].
  destruct (is_space c) eqn:C.
  - destruct inside; simpl; [apply IH | ]. rewrite R. simpl. apply IH.
  - simpl. rewrite C. simpl. apply IH.
Qed.

Lemma space_runs_fixed (r : ascii) (s : string) :
  all_chars (fun c => negb (is_space c)) s = true ->
  replace_space_runs r false s = s.
Proof.
  induction s as [|c s IH]; simpl; [reflexivity | ].
  intros H. apply andb_true_iff in H. destruct H as [H1 H2].
  apply negb_true_iff in H1. rewrite H1, (IH H2). reflexivity.
Qed.

Lemma replace_char_fixed (a b : ascii) (s : string) :
  all_chars (fun c => negb (Ascii.eqb c a)) s = true -> replace_char a b s = s.
Proof.
  induction s as [|c s IH]; simpl; [reflexivity | ].
  intros H. apply andb_true_iff in H. destruct H as [H1 H2].
  apply negb_true_iff in H1. rewrite H1, (IH H2). reflexivity.
Qed.

Lemma filter_chars_fixed (keep : ascii -> bool) (s : string) :
  all_chars keep s = true -> filter_chars keep s = s.
Proof.
  induction s as [|c s IH]; simpl; [reflexivity | ].
  intros H. apply andb_true_iff in H. destruct H as [H1 H2].
  rewrite H1, (IH H2). reflexivity.
Qed.

Lemma toLowerCase_fixed (s : string) :
  all_chars (fun c => negb (is_upper c)) s = true -> toLowerCase s = s.
Proof.
  induction s as [|c s IH]; simpl; [reflexivity | ].
  intros H. apply andb_true_iff in H. destruct H as [H1 H2].
  apply negb_true_iff in H1. unfold lower_char. unfold is_upper in H1.
  rewrite H1, (IH H2). reflexivity.
Qed.

Lemma filter_chars_all (keep : ascii -> bool) (s : string) :
  all_chars keep (filter_chars keep s) = true.
Proof.
  induction s as [|c s IH]; simpl; [reflexivity | ].
  destruct (keep c) eqn:K; simpl; [rewrite K | ]; exact IH.
Qed.

End Characters.

Ltac each_char :=
  intros [[] [] [] [] [] [] [] []]; vm_compute; intros; congruence.

Lemma toSnakeCase_clean (s : string) :
  all_chars snake_char (Part000.toSnakeCase s) = true.
Proof.
  unfold Part000.toSnakeCase.
  apply all_chars_lower with
    (p := fun c => negb (is_space c || Ascii.eqb c "-" || Ascii.eqb c "("
                         || Ascii.eqb c ")" || Ascii.eqb c "/")).
  { each_char. }
  apply all_chars_replace_char with
    (p := fun c => negb (is_space c || Ascii.eqb c "-" || Ascii.eqb c "("
                         || Ascii.eqb c ")")).
  { each_char. }
  apply all_chars_filter with
    (p := fun c => negb (is_space c || Ascii.eqb c "-")).
  { each_char. }
  apply all_chars_replace_char with (p := fun c => negb (is_space c)).
  { each_char. }
  apply all_chars_space_runs. reflexivity.
Qed.

Lemma toSnakeCase_fixed (s : string) :
  all_chars snake_char s = true -> Part000.toSnakeCase s = s.
Proof.
  intros H. unfold Part000.toSnakeCase.
  rewrite space_runs_fixed by (revert H; apply all_chars_impl; each_char).
  rewrite (replace_char_fixed "-" "_" s)
    by (revert H; apply all_chars_impl; each_char).
  rewrite filter_chars_fixed by (revert H; apply all_chars_impl; each_char).
  rewrite (replace_char_fixed "/" "_" s)
    by (revert H; apply all_chars_impl; each_char).
  apply toLowerCase_fixed. revert H. apply all_chars_impl. each_char.
Qed.

(** X1.  The result of [toSnakeCase] holds no white space,
    hyphen, parenthesis, slash or capital letter; the strings it leaves
    unchanged are exactly those that hold none of these; and applying it
    twice gives what applying it once gives. *)
Theorem toSnakeCase_normal_form (s : string) :
  all_chars snake_char (Part000.toSnakeCase s) = true /\
  (Part000.toSnakeCase s = s <-> all_chars snake_char s = true) /\
  Part000.toSnakeCase (Part000.toSnakeCase s) = Part000.toSnakeCase s.
Proof.
  split; [apply toSnakeCase_clean | ]. split.
  - split; [ | apply toSnakeCase_fixed].
    intros E. rewrite <- E. apply toSnakeCase_clean.
  - apply toSnakeCase_fixed, toSnakeCase_clean.
Qed.

(* ================================================================= *)
(** ** Numbers written as text *)

Section Numerals.

Lemma filter_chars_idem (keep : ascii -> bool) (s : string) :
  filter_chars keep (filter_chars keep s) = filter_chars keep s.
Proof. apply filter_chars_fixed, filter_chars_all. Qed.

Lemma read_digits_stop (s : string) (acc : Z) (cnt : nat) :
  match s with
  | String c _ => is_digit c = false
  | EmptyString => True
  end ->
  read_digits s acc cnt = (acc, cnt, s).
Proof. destruct s as [|c s]; simpl; [reflexivity | ]. intros H. rewrite H. reflexivity. Qed.

Lemma read_digit_step (c : ascii) (s : string) (acc : Z) (cnt : nat) :
  is_digit c = true ->
  read_digits (String c s) acc cnt = read_digits s (10 * acc + digit_value c) (S cnt).
Proof. intros H. simpl. rewrite H. reflexivity. Qed.

Lemma all_chars_drop (p : ascii -> bool) (n : nat) :
  forall s, all_chars p s = true -> all_chars p (drop n s) = true.
Proof.
  induction n as [|n IH]; intros s H; [destruct s; exact H | ].
  destruct s as [|c s]; [exact H | ].
  simpl in H. apply andb_true_iff in H. apply IH, H.
Qed.

Lemma strip_leading_all (p : ascii -> bool) (spaces : list string) (fuel : nat) :
  forall s, all_chars p s = true -> all_chars p (strip_leading spaces fuel s) = true.
Proof.
  induction fuel as [|fuel IH]; intros s H; [exact H | ].
  cbn [strip_leading]. unfold strip_one.
  destruct (find _ spaces) as [ws | ]; [ | exact H].
  apply IH, all_chars_drop, H.
Qed.

Lemma trimStart_all (p : ascii -> bool) (s : string) :
  all_chars p s = true -> all_chars p (trimStart s) = true.
Proof. apply strip_leading_all. Qed.

Lemma read_unsigned_without_digit (s : string) :
  all_chars (fun c => negb (is_digit c)) s = true -> read_unsigned s = None.
Proof.
  intros H. unfold read_unsigned.
  destruct s as [|c s]; [reflexivity | ].
  simpl in H. apply andb_true_iff in H. destruct H as [H1 H2].
  apply negb_true_iff in H1.
  rewrite read_digits_stop by exact H1.
  assert (F : read_digits s 0 0 = (0, O, s)).
  { apply read_digits_stop. destruct s as [|c' s']; [exact I | ].
    simpl in H2. apply andb_true_iff in H2. apply negb_true_iff, H2. }
  destruct c as [[] [] [] [] [] [] [] []]; try reflexivity; rewrite F; reflexivity.
Qed.

Lemma parseFloat_without_digit (s : string) :
  all_chars (fun c => negb (is_digit c)) s = true -> parseFloat s = NaN.
Proof.
  intros H. apply trimStart_all in H. unfold parseFloat.
  destruct (trimStart s) as [|c t]; [reflexivity | ].
  assert (T : all_chars (fun c => negb (is_digit c)) t = true).
  { simpl in H. apply andb_true_iff in H. apply H. }
  assert (N : read_unsigned (String c t) = None)
    by (apply read_unsigned_without_digit, H).
  assert (N' : read_unsigned t = None) by (apply read_unsigned_without_digit, T).
  destruct c as [[] [] [] [] [] [] [] []];
    try (rewrite N; reflexivity); rewrite N'; reflexivity.
Qed.

Lemma strip_without_digit (s : string) :
  all_chars (fun c => negb (is_digit c)) s = true ->
  all_chars (fun c => negb (is_digit c)) (strip_non_numeric s) = true.
Proof. apply all_chars_filter. intros c H _. exact H. Qed.

(** *** Reading a printed numeral *)

Ltac digit_values :=
  repeat match goal with
         | |- context [digit_value ?c] =>
             let v := eval vm_compute in (digit_value c) in
             change (digit_value c) with v
         end.

Lemma read_uint (rest : string) (d : Decimal.uint) :
  forall (acc cnt : nat),
    read_digits (NilEmpty.string_of_uint d ++ rest) (Z.of_nat acc) cnt =
    read_digits rest (Z.of_nat (Nat.of_uint_acc d acc)) (cnt + Decimal.nb_digits d).
Proof.
  induction d as [|d IH|d IH|d IH|d IH|d IH|d IH|d IH|d IH|d IH|d IH];
    intros acc cnt;
    [simpl; f_equal; lia | .. ];
    cbn [NilEmpty.string_of_uint append Nat.of_uint_acc Decimal.nb_digits];
    rewrite read_digit_step by reflexivity;
    rewrite Nat.tail_mul_spec;
    match goal with
    | |- read_digits _ ?z _ = read_digits _ (Z.of_nat (Nat.of_uint_acc _ ?m)) _ =>
        replace z with (Z.of_nat m) by (digit_values; lia)
    end;
    rewrite IH; f_equal; lia.
Qed.

Lemma of_uint_acc_shift (d : Decimal.uint) :
  forall acc : nat,
    Nat.of_uint_acc d acc = (acc * 10 ^ Decimal.nb_digits d + Nat.of_uint_acc d 0)%nat.
Proof.
  induction d as [|d IH|d IH|d IH|d IH|d IH|d IH|d IH|d IH|d IH|d IH];
    intros acc;
    [simpl; lia | .. ];
    cbn [Nat.of_uint_acc Decimal.nb_digits];
    rewrite !Nat.tail_mul_spec;
    match goal with
    | |- Nat.of_uint_acc _ ?m = (_ + Nat.of_uint_acc _ ?m0)%nat =>
        rewrite (IH m), (IH m0)
    end;
    rewrite Nat.pow_succ_r'; nia.
Qed.

Lemma length_uint (d : Decimal.uint) :
  String.length (NilEmpty.string_of_uint d) = Decimal.nb_digits d.
Proof. induction d; simpl; congruence. Qed.

Lemma read_nat (n : nat) (rest : string) (acc cnt : nat) :
  let len := String.length (string_of_nat n) in
  read_digits (string_of_nat n ++ rest) (Z.of_nat acc) cnt =
  read_digits rest (Z.of_nat (acc * 10 ^ len + n)) (cnt + len).
Proof.
  unfold string_of_nat.
  pose proof (DecimalNat.Unsigned.of_to n) as E.
  destruct (Nat.to_uint n) as [|d|d|d|d|d|d|d|d|d|d] eqn:D.
  1: { change (Nat.of_uint Decimal.Nil) with O in E. subst n. cbn [NilZero.string_of_uint String.length append].
       rewrite read_digit_step by reflexivity. f_equal.
       digit_values. simpl Nat.pow. lia. lia. }
  all: cbv zeta; cbv beta delta [NilZero.string_of_uint] iota;
    rewrite read_uint, length_uint, of_uint_acc_shift;
    unfold Nat.of_uint in E; rewrite E; reflexivity.
Qed.

Lemma read_zeros (j : nat) (s : string) :
  forall (acc cnt : nat),
    read_digits (zeros j ++ s) (Z.of_nat acc) cnt =
    read_digits s (Z.of_nat (acc * 10 ^ j)) (cnt + j).
Proof.
  induction j as [|j IH]; intros acc cnt; simpl zeros.
  - cbn [append].
    replace (acc * 10 ^ 0)%nat with acc by (simpl; lia).
    replace (cnt + 0)%nat with cnt by lia. reflexivity.
  - cbn [append]. rewrite read_digit_step by reflexivity.
    replace (10 * Z.of_nat acc + digit_value "0") with (Z.of_nat (10 * acc))
      by (digit_values; lia).
    rewrite IH.
    replace (10 * acc * 10 ^ j)%nat with (acc * 10 ^ S j)%nat
      by (rewrite Nat.pow_succ_r'; nia).
    replace (S cnt + j)%nat with (cnt + S j)%nat by lia. reflexivity.
Qed.

Lemma string_length_app (s t : string) :
  String.length (s ++ t) = (String.length s + String.length t)%nat.
Proof. induction s; simpl; congruence. Qed.

Lemma length_zeros (j : nat) : String.length (zeros j) = j.
Proof. induction j; simpl; congruence. Qed.

Lemma app_assoc_string (s t u : string) : ((s ++ t) ++ u = s ++ t ++ u)%string.
Proof. induction s; simpl; congruence. Qed.

Lemma read_pad (k b : nat) (rest : string) (acc cnt : nat) :
  let len := String.length (pad k (Z.of_nat b)) in
  read_digits (pad k (Z.of_nat b) ++ rest) (Z.of_nat acc) cnt =
  read_digits rest (Z.of_nat (acc * 10 ^ len + b)) (cnt + len).
Proof.
  unfold pad. rewrite Nat2Z.id. cbv zeta.
  rewrite app_assoc_string, read_zeros, read_nat, string_length_app, length_zeros.
  cbv zeta.
  set (z := (k - String.length (string_of_nat b))%nat).
  set (l := String.length (string_of_nat b)).
  replace (acc * 10 ^ z * 10 ^ l)%nat with (acc * 10 ^ (z + l))%nat
    by (rewrite Nat.pow_add_r; nia).
  replace (cnt + z + l)%nat with (cnt + (z + l))%nat by lia. reflexivity.
Qed.

Lemma string_of_nat_head (n : nat) :
  exists c r, string_of_nat n = String c r /\ is_digit c = true.
Proof.
  unfold string_of_nat.
  destruct (Nat.to_uint n) as [|d|d|d|d|d|d|d|d|d|d];
    cbn [NilZero.string_of_uint NilEmpty.string_of_uint];
    eexists; eexists; (split; [reflexivity | reflexivity]).
Qed.

Lemma parseFloat_digit (c : ascii) (r : string) :
  is_digit c = true ->
  parseFloat (String c r) =
  match read_unsigned (String c r) with
  | Some (m, k) => Number_value (decimal_value false m k)
  | None => NaN
  end.
Proof.
  destruct c as [[] [] [] [] [] [] [] []]; intros H; vm_compute in H;
    try discriminate H; reflexivity.
Qed.

Lemma parseFloat_minus (r : string) :
  parseFloat (String "-" r) =
  match read_unsigned r with
  | Some (m, k) => Number_value (decimal_value true m k)
  | None => NaN
  end.
Proof. reflexivity. Qed.

Lemma parseFloat_signed (negative : bool) (c : ascii) (r : string) :
  is_digit c = true ->
  parseFloat (sign_text negative ++ String c r)%string =
  match read_unsigned (String c r) with
  | Some (m, k) => Number_value (decimal_value negative m k)
  | None => NaN
  end.
Proof.
  intros H. destruct negative; simpl sign_text.
  - apply parseFloat_minus.
  - apply parseFloat_digit, H.
Qed.

Lemma read_unsigned_whole (a : nat) :
  read_unsigned (string_of_nat a) = Some (Z.of_nat a, O).
Proof.
  unfold read_unsigned.
  pose proof (read_nat a "" 0 0) as R. cbv zeta in R.
  replace (string_of_nat a ++ "")%string with (string_of_nat a) in R
    by (clear; induction (string_of_nat a); simpl; congruence).
  change (Z.of_nat 0) with 0 in R. rewrite R. cbn [read_digits].
  destruct (string_of_nat_head a) as (c & r & E & _). rewrite E.
  cbn [String.length Nat.add Nat.mul]. reflexivity.
Qed.

Lemma read_unsigned_fraction (a k b : nat) :
  let len := String.length (pad k (Z.of_nat b)) in
  read_unsigned (string_of_nat a ++ "." ++ pad k (Z.of_nat b)) =
  Some (Z.of_nat a * 10 ^ Z.of_nat len + Z.of_nat b, len).
Proof.
  cbv zeta. unfold read_unsigned.
  pose proof (read_nat a ("." ++ pad k (Z.of_nat b)) 0 0) as R. cbv zeta in R.
  change (Z.of_nat 0) with 0 in R. rewrite R.
  rewrite read_digits_stop by reflexivity.
  cbn [append]. cbv iota beta.
  pose proof (read_pad k b "" (0 * 10 ^ String.length (string_of_nat a) + a) 0) as P.
  cbv zeta in P.
  replace (pad k (Z.of_nat b) ++ "")%string with (pad k (Z.of_nat b)) in P
    by (clear; induction (pad k (Z.of_nat b)); simpl; congruence).
  rewrite P. cbn [read_digits].
  destruct (string_of_nat_head a) as (c & r & E & _). rewrite E.
  cbn [String.length Nat.add]. f_equal. f_equal.
  rewrite Nat2Z.inj_add, Nat2Z.inj_mul, Nat2Z.inj_pow. simpl Z.of_nat at 3. lia.
Qed.

End Numerals.

(** X2.  On a text cell [parseNumber] of route.ts
    reads only the digits, dots and minus signs: a currency symbol, a
    thousands separator, a letter or a space changes nothing, and two texts
    with the same such characters give the same result. *)
Theorem route_parseNumber_ignores_formatting (s s' : string) :
  Route.parseNumber (VStr s) = Route.parseNumber (VStr (strip_non_numeric s)) /\
  (strip_non_numeric s = strip_non_numeric s' ->
   Route.parseNumber (VStr s) = Route.parseNumber (VStr s')).
Proof.
  assert (G : forall u,
             Route.parseNumber (VStr u) =
             if isNaN (parseFloat (strip_non_numeric u)) then None
             else Some (parseFloat (strip_non_numeric u))).
  { intros u. destruct u as [|c u]; reflexivity. }
  assert (F : forall u,
             Route.parseNumber (VStr u) =
             Route.parseNumber (VStr (strip_non_numeric u))).
  { intros u. rewrite (G u), (G (strip_non_numeric u)).
    unfold strip_non_numeric. rewrite filter_chars_idem. reflexivity. }
  split; [apply F | ].
  intros E. rewrite (F s), (F s'), E. reflexivity.
Qed.

(** X3.  A text cell without any digit is stored as
    null by route.ts and as 0 by part_000, whatever else it holds. *)
Theorem parseNumber_without_digit (h : Host) (s : string) :
  all_chars (fun c => negb (is_digit c)) s = true ->
  Route.parseNumber (VStr s) = None /\
  Part000.parseNumber h (VStr s) = Num 0.
Proof.
  intros H.
  pose proof (parseFloat_without_digit _ (strip_without_digit _ H)) as N.
  split.
  - destruct s as [|c s]; [reflexivity | ].
    unfold Route.parseNumber. rewrite N. reflexivity.
  - unfold Part000.parseNumber. cbn [toString]. rewrite N. reflexivity.
Qed.

Lemma parseNumber_without_digit_witness :
  Route.parseNumber (VStr "N/A") = None /\
  Part000.parseNumber Sample.utc (VStr "N/A") = Num 0.
Proof. apply (parseNumber_without_digit Sample.utc "N/A"). reflexivity. Defined.

Lemma Number_value_not_NaN (q : Q) : isNaN (Number_value q) = false.
Proof.
  unfold Number_value. destruct (is_Number q); [reflexivity | ].
  unfold nearest_Number.
  repeat match goal with
         | |- context [if ?c then _ else _] => destruct c
         end; reflexivity.
Qed.

Lemma Number_value_exact (q : Q) : is_Number q = true -> Number_value q = Num q.
Proof. intros H. unfold Number_value. rewrite H. reflexivity. Qed.

(** X4.  When the digits, dots and minus signs of a
    text cell spell a whole number, or a whole part, a dot and a fraction,
    with or without a minus sign in front, [parseNumber] of route.ts gives
    the Number value for that numeral: the value of the numeral itself when
    that is a Number, as every whole number below 2^53 is, and the Number
    nearest to it otherwise. *)
Theorem route_parseNumber_numeral (s : string) (negative : bool) (a k b : nat) :
  (strip_non_numeric s = (sign_text negative ++ string_of_nat a)%string ->
   let q := decimal_value negative (Z.of_nat a) 0 in
   Route.parseNumber (VStr s) = Some (Number_value q) /\
   (Z.of_nat a < 2 ^ 53 -> Route.parseNumber (VStr s) = Some (Num q))) /\
  (strip_non_numeric s =
     (sign_text negative ++ string_of_nat a ++ "." ++ pad k (Z.of_nat b))%string ->
   let len := String.length (pad k (Z.of_nat b)) in
   let q := decimal_value negative (Z.of_nat a * 10 ^ Z.of_nat len + Z.of_nat b) len in
   Route.parseNumber (VStr s) = Some (Number_value q) /\
   (is_Number q = true -> Route.parseNumber (VStr s) = Some (Num q))).
Proof.
  assert (G : forall u,
             strip_non_numeric u <> "" ->
             Route.parseNumber (VStr u) =
             if isNaN (parseFloat (strip_non_numeric u)) then None
             else Some (parseFloat (strip_non_numeric u))).
  { intros u _. destruct u as [|c u]; reflexivity. }
  destruct (string_of_nat_head a) as (c & r & E & D).
  split; intros S; cbv zeta.
  - assert (P : Route.parseNumber (VStr s) =
                Some (Number_value (decimal_value negative (Z.of_nat a) 0))).
    { rewrite G by (rewrite S, E; destruct negative; discriminate).
      rewrite S, E, (parseFloat_signed negative c r D), <- E, read_unsigned_whole.
      rewrite Number_value_not_NaN. reflexivity. }
    split; [exact P | ].
    intros B. rewrite P. f_equal.
    apply (Number_value_whole _ (if negative then - Z.of_nat a else Z.of_nat a)).
    + reflexivity.
    + destruct negative; lia.
  - assert (P : Route.parseNumber (VStr s) =
                Some (Number_value
                        (decimal_value negative
                           (Z.of_nat a *
                            10 ^ Z.of_nat (String.length (pad k (Z.of_nat b))) +
                            Z.of_nat b)
                           (String.length (pad k (Z.of_nat b)))))).
    { rewrite G by (rewrite S, E; destruct negative; discriminate).
      rewrite S, E. change (String c r ++ "." ++ pad k (Z.of_nat b))%string
        with (String c (r ++ "." ++ pad k (Z.of_nat b)))%string.
      rewrite (parseFloat_signed negative c _ D).
      change (String c (r ++ "." ++ pad k (Z.of_nat b)))%string
        with (String c r ++ "." ++ pad k (Z.of_nat b))%string.
      rewrite <- E, read_unsigned_fraction.
      rewrite Number_value_not_NaN. reflexivity. }
    split; [exact P | ].
    intros B. rewrite P, (Number_value_exact _ B). reflexivity.
Qed.

(** The theorem on three cells, and on two that round: 0.05 is not a
    Number, and neither is 2^53 + 1. *)
Lemma route_parseNumber_numeral_witness :
  Route.parseNumber (VStr "$1,234.50") = Some (Num (Qmake 123450 100)) /\
  Route.parseNumber (VStr "(1,200)") = Some (Num (Qmake 1200 1)) /\
  Route.parseNumber (VStr "USD -0.25") = Some (Num (Qmake (-25) 100)) /\
  Route.parseNumber (VStr "USD -0.05") =
    Some (Number_value (Qmake (-5) 100)) /\
  Number_value (Qmake (-5) 100) =
    Num (Qmake (-3602879701896397) 72057594037927936) /\
  Route.parseNumber (VStr "9007199254740993") =
    Some (Num (inject_Z 9007199254740992)).
Proof.
  split; [ | split; [ | split; [ | split; [ | split]]]].
  - exact (proj2 (proj2 (route_parseNumber_numeral "$1,234.50" false 1234 2 50) eq_refl)
             eq_refl).
  - exact (proj2 (proj1 (route_parseNumber_numeral "(1,200)" false 1200 0 0) eq_refl)
             eq_refl).
  - exact (proj2 (proj2 (route_parseNumber_numeral "USD -0.25" true 0 2 25) eq_refl)
             eq_refl).
  - exact (proj1 (proj2 (route_parseNumber_numeral "USD -0.05" true 0 2 5) eq_refl)).
  - vm_compute. reflexivity.
  - vm_compute. reflexivity.
Defined.

(* ================================================================= *)
(** ** Dates as they are stored *)

Section StoredDates.

Lemma all_chars_app (p : ascii -> bool) (s t : string) :
  all_chars p (s ++ t) = all_chars p s && all_chars p t.
Proof.
  induction s as [|c s IH]; simpl; [reflexivity | ].
  rewrite IH. apply andb_assoc.
Qed.

Lemma uint_digits (d : Decimal.uint) :
  all_chars is_digit (NilEmpty.string_of_uint d) = true.
Proof. induction d; simpl; [reflexivity | assumption ..]. Qed.

Lemma string_of_nat_digits (n : nat) : all_chars is_digit (string_of_nat n) = true.
Proof.
  unfold string_of_nat.
  destruct (Nat.to_uint n) as [|d|d|d|d|d|d|d|d|d|d];
    cbn [NilZero.string_of_uint]; [reflexivity | .. ]; apply uint_digits.
Qed.

Lemma pad_digits (w : nat) (z : Z) : all_chars is_digit (pad w z) = true.
Proof.
  unfold pad. rewrite all_chars_app, string_of_nat_digits, andb_true_r.
  induction (w - _)%nat; simpl; [reflexivity | assumption].
Qed.

Lemma isoDate_no_T (t : Z) :
  all_chars (fun c => negb (Ascii.eqb c "T")) (isoDate t) = true.
Proof.
  assert (D : forall w z, all_chars (fun c => negb (Ascii.eqb c "T")) (pad w z) = true).
  { intros w z. apply all_chars_impl with (p := is_digit); [ | apply pad_digits].
    intros [[] [] [] [] [] [] [] []]; vm_compute; congruence. }
  unfold isoDate, isoYear.
  destruct (_ && _); [ | destruct (_ <? _)];
    rewrite ?all_chars_app; cbn [all_chars]; rewrite ?D; reflexivity.
Qed.

Lemma split_head_app (c : ascii) (s r : string) :
  all_chars (fun a => negb (Ascii.eqb a c)) s = true ->
  split_head c (s ++ String c r) = s.
Proof.
  induction s as [|a s IH]; simpl.
  - intros _. rewrite Ascii.eqb_refl. reflexivity.
  - intros H. apply andb_true_iff in H. destruct H as [H1 H2].
    apply negb_true_iff in H1. rewrite H1, (IH H2). reflexivity.
Qed.

(** [d.toISOString().split('T')[0]] is the date part. *)
Lemma split_toISOString (t : Z) : split_head "T" (toISOString t) = isoDate t.
Proof.
  unfold toISOString. cbn [append]. apply split_head_app, isoDate_no_T.
Qed.

Lemma isoDate_of_day (t : Z) : isoDate t = isoDate (Day t * msPerDay).
Proof.
  pose proof (fields_of_day t) as A.
  pose proof (fields_of_day (Day t * msPerDay)) as B.
  rewrite Day_of_day, <- A in B. inversion B as [[Y M D]].
  unfold isoDate. rewrite Y, M, D. reflexivity.
Qed.

End StoredDates.

(** X5.  The [invoice_date] that route.ts stores is the date in UTC of the
    instant parsed from the Invoice date cell, while [year] and [quarter]
    are those of its local date.  For a cell parsed as local midnight of a
    day, as the engines parse a text such as 1/1/2023, the stored date is
    that day on a host at or behind UTC at that instant, and the day before
    on a host ahead of UTC, whereas year and quarter are those of the day
    itself.  part_000 stores the same string. *)
Theorem invoice_date_in_utc (h : Host) (row : object) (t : Z) :
  truthy (get row "Invoice date") = true ->
  Route.parsedDate h (get row "Invoice date") = Some (Some t) ->
  let offset := LocalTZA h t true in
  let local_day := Day (LocalTime h t) in
  Route.invoiceDateFields h row =
    (Some (isoDate (Day t * msPerDay)),
     Some (fst (fst (civil local_day))),
     Some (quarter_of_month (snd (fst (civil local_day))))) /\
  Part000.columnValue h row "Invoice date" "invoice_date" =
    Some (VStr (isoDate (Day t * msPerDay))) /\
  (LocalTime h t = local_day * msPerDay ->
   (0 < offset <= msPerDay -> Day t = local_day - 1) /\
   (- msPerDay < offset <= 0 -> Day t = local_day)).
Proof.
  intros T P offset local_day.
  assert (S : split_head "T" (toISOString t) = isoDate (Day t * msPerDay)).
  { rewrite split_toISOString. apply isoDate_of_day. }
  split; [ | split].
  - unfold Route.invoiceDateFields. rewrite T, P, S.
    pose proof (fields_of_day (LocalTime h t)) as F. fold local_day in F.
    unfold getFullYear, getMonth, quarter_of_month. rewrite <- F. reflexivity.
  - assert (G : Part000.getValue row "Invoice date" = get row "Invoice date").
    { unfold Part000.getValue.
      destruct (get row "Invoice date"); try reflexivity. discriminate T. }
    unfold Part000.columnValue. rewrite G.
    change (Part000.is_date_column "invoice_date") with true. cbv iota.
    unfold Part000.parseDateValue. rewrite T. cbn [negb].
    unfold Route.parsedDate, Route.excelEpoch in P.
    destruct (get row "Invoice date") as [ | | b | n | s | d];
      try discriminate P.
    + injection P as P. rewrite P, S. reflexivity.
    + injection P as P. cbn [Date_of_value]. rewrite P, S. reflexivity.
    + injection P as ->. rewrite S. reflexivity.
  - intros M. unfold LocalTime in M. fold offset in M.
    unfold Day in *. unfold msPerDay in *.
    split; intros B; Z.to_euclidean_division_equations; lia.
Qed.

(** The theorem on a host in zone Asia/Ho_Chi_Minh: the text 1/1/2023 is
    parsed as midnight there, 17:00 of the day before in UTC. *)
Lemma invoice_date_in_utc_witness :
  Route.parsedDate Sample.saigon (VStr "1/1/2023") = Some (Some 1672506000000) /\
  Route.invoiceDateFields Sample.saigon [("Invoice date", VStr "1/1/2023")] =
    (Some "2022-12-31", Some 2023, Some "Q1") /\
  Part000.columnValue Sample.saigon [("Invoice date", VStr "1/1/2023")]
    "Invoice date" "invoice_date" = Some (VStr "2022-12-31") /\
  Day 1672506000000 = Day (LocalTime Sample.saigon 1672506000000) - 1.
Proof.
  destruct (invoice_date_in_utc Sample.saigon [("Invoice date", VStr "1/1/2023")]
              1672506000000 eq_refl eq_refl) as (A & B & C).
  split; [reflexivity | ]. split; [exact A | ]. split; [exact B | ].
  apply (proj1 (C eq_refl)). vm_compute. split; [reflexivity | discriminate].
Defined.

Section DateFormat.

Ltac split_ltb :=
  repeat match goal with
         | |- context [?a <? ?b] => destruct (Z.ltb_spec a b); try lia
         end.

Lemma DayWithinYear_range (t : Z) :
  0 <= DayWithinYear t < DaysInYear (YearFromTime t).
Proof.
  unfold DayWithinYear, YearFromTime.
  pose proof (YearFromDay_bounds (Day t)) as B.
  rewrite DayFromYear_succ in B. lia.
Qed.

Lemma DateFromTime_range (t : Z) : 1 <= DateFromTime t <= 31.
Proof.
  pose proof (DayWithinYear_range t) as B.
  unfold DateFromTime, MonthFromTime, InLeapYear, DaysInYear in *.
  destruct (isLeapYear (YearFromTime t)); split_ltb; cbv iota; lia.
Qed.

Lemma nzhead_no_zero (d : Decimal.uint) :
  match Decimal.nzhead d with
  | Decimal.D0 _ => False
  | _ => True
  end.
Proof. induction d; simpl; auto. Qed.

Lemma to_uint_normal (n : nat) : Nat.to_uint n = Decimal.unorm (Nat.to_uint n).
Proof.
  rewrite <- (DecimalNat.Unsigned.to_of (Nat.to_uint n)).
  rewrite DecimalNat.Unsigned.of_to. reflexivity.
Qed.

(** A numeral that does not start with 0 is at least the power of ten of
    its length less one. *)
Lemma of_uint_lower (d : Decimal.uint) :
  match d with
  | Decimal.Nil | Decimal.D0 _ => True
  | _ => (10 ^ (Decimal.nb_digits d - 1) <= Nat.of_uint d)%nat
  end.
Proof.
  destruct d as [|d|d|d|d|d|d|d|d|d|d]; try exact I;
    unfold Nat.of_uint; cbn [Nat.of_uint_acc Decimal.nb_digits];
    rewrite Nat.tail_mul_spec, of_uint_acc_shift, Nat.sub_succ, Nat.sub_0_r;
    pose proof (Nat.pow_nonzero 10 (Decimal.nb_digits d) ltac:(discriminate));
    nia.
Qed.

Lemma uint_length_bound (d : Decimal.uint) (k : nat) :
  match d with
  | Decimal.Nil | Decimal.D0 _ => False
  | _ => True
  end ->
  (Nat.of_uint d < 10 ^ k)%nat -> (Decimal.nb_digits d <= k)%nat.
Proof.
  intros H B. pose proof (of_uint_lower d) as L.
  assert (P : (10 ^ (Decimal.nb_digits d - 1) < 10 ^ k)%nat).
  { destruct d; try contradiction; lia. }
  apply (Nat.pow_lt_mono_r_iff 10) in P; [ | repeat constructor].
  destruct d; try contradiction; cbn [Decimal.nb_digits] in *; lia.
Qed.

Lemma string_of_nat_length (n k : nat) :
  (n < 10 ^ k)%nat -> (1 <= k)%nat -> (String.length (string_of_nat n) <= k)%nat.
Proof.
  intros B K. unfold string_of_nat.
  pose proof (DecimalNat.Unsigned.of_to n) as E.
  pose proof (to_uint_normal n) as N.
  pose proof (nzhead_no_zero (Nat.to_uint n)) as Z.
  unfold Decimal.unorm in N.
  destruct (Decimal.nzhead (Nat.to_uint n)) as [|u|u|u|u|u|u|u|u|u|u] eqn:H.
  1: { rewrite N. exact K. }
  1: { contradiction. }
  all: rewrite N in E |- *;
    cbv beta delta [NilZero.string_of_uint] iota;
    rewrite length_uint;
    apply uint_length_bound; [exact I | rewrite E; exact B].
Qed.

Lemma pad_length (w : nat) (z : Z) :
  (Z.to_nat z < 10 ^ w)%nat -> (1 <= w)%nat -> String.length (pad w z) = w.
Proof.
  intros B K. unfold pad. rewrite string_length_app, length_zeros.
  pose proof (string_of_nat_length (Z.to_nat z) w B K). lia.
Qed.

Lemma pad2_length (z : Z) : 0 <= z < 100 -> String.length (pad 2 z) = 2%nat.
Proof.
  intros H. apply pad_length; [ | repeat constructor].
  change (10 ^ 2)%nat with (Z.to_nat 100). apply Z2Nat.inj_lt; lia.
Qed.

Lemma pad3_length (z : Z) : 0 <= z < 1000 -> String.length (pad 3 z) = 3%nat.
Proof.
  intros H. apply pad_length; [ | repeat constructor].
  replace (10 ^ 3)%nat with (Z.to_nat 1000) by reflexivity. apply Z2Nat.inj_lt; lia.
Qed.

Lemma pad4_length (z : Z) : 0 <= z < 10000 -> String.length (pad 4 z) = 4%nat.
Proof.
  intros H. apply pad_length; [ | repeat constructor].
  replace (10 ^ 4)%nat with (Z.to_nat (100 * 100)) by reflexivity.
  apply Z2Nat.inj_lt; lia.
Qed.

Lemma is_ymd_parts (y m d : string) :
  String.length y = 4%nat -> String.length m = 2%nat -> String.length d = 2%nat ->
  all_chars is_digit y = true -> all_chars is_digit m = true ->
  all_chars is_digit d = true ->
  is_ymd (y ++ "-" ++ m ++ "-" ++ d) = true.
Proof.
  intros Ly Lm Ld Dy Dm Dd.
  destruct y as [|y1 [|y2 [|y3 [|y4 [|? ?]]]]]; try discriminate Ly.
  destruct m as [|m1 [|m2 [|? ?]]]; try discriminate Lm.
  destruct d as [|d1 [|d2 [|? ?]]]; try discriminate Ld.
  cbn [all_chars] in Dy, Dm, Dd. cbn [append is_ymd].
  repeat match goal with
         | H : _ && _ = true |- _ => apply andb_true_iff in H; destruct H
         end.
  repeat match goal with
         | H : is_digit _ = true |- _ => rewrite H; clear H
         end.
  reflexivity.
Qed.

Lemma isoDate_is_ymd (t : Z) :
  0 <= YearFromTime t <= 9999 ->
  is_ymd (isoDate t) = true /\ String.length (isoDate t) = 10%nat.
Proof.
  intros Hy. unfold isoDate, isoYear.
  replace ((0 <=? YearFromTime t) && (YearFromTime t <=? 9999)) with true
    by (symmetry; apply andb_true_iff; split; apply Z.leb_le; lia).
  pose proof (MonthFromTime_range t) as Hm.
  pose proof (DateFromTime_range t) as Hd.
  split.
  - apply is_ymd_parts; try apply pad_digits;
      [apply pad4_length | apply pad2_length | apply pad2_length]; lia.
  - rewrite !string_length_app, pad4_length, !pad2_length by lia. reflexivity.
Qed.

Lemma toISOString_length (t : Z) :
  0 <= YearFromTime t <= 9999 -> String.length (toISOString t) = 24%nat.
Proof.
  intros Hy. unfold toISOString.
  rewrite !string_length_app, (proj2 (isoDate_is_ymd t Hy)).
  unfold HourFromTime, MinFromTime, SecFromTime, msFromTime.
  rewrite !pad2_length, pad3_length
    by (Z.to_euclidean_division_equations; lia).
  reflexivity.
Qed.

End DateFormat.

(** X6.  The invoice date and the due date that route.ts
    stores are the date part of the ISO timestamp of the parsed date: ten
    characters of the form YYYY-MM-DD for a year from 0 to 9999.  The
    created date is stored as the whole timestamp, twenty-four characters
    for such a year. *)
Theorem route_date_strings (h : Host) (entity0 batchId : string) (row : object)
    (r : Route.mappedRow) :
  Route.transformRow h entity0 batchId (Route.RObject row) = inr r ->
  (forall s,
     Route.invoice_date r = Some s ->
     exists t,
       Route.parsedDate h (get row "Invoice date") = Some (Some t) /\
       s = isoDate t /\
       (0 <= YearFromTime t <= 9999 -> is_ymd s = true)) /\
  (forall s,
     Route.due_date r = Some s ->
     exists t,
       Route.parsedDate h (get row "Due date") = Some (Some t) /\
       s = isoDate t /\
       (0 <= YearFromTime t <= 9999 -> is_ymd s = true)) /\
  (forall s,
     Route.created_date r = Some s ->
     exists t,
       Route.parsedDate h (get row "CREATEDDATE") = Some (Some t) /\
       s = toISOString t /\
       (0 <= YearFromTime t <= 9999 ->
        String.length s = 24%nat /\ is_ymd s = false)).
Proof.
  intros T. unfold Route.transformRow in T.
  destruct (Route.invoiceDateFields h row) as [[a b] c] eqn:F.
  injection T as <-. cbn [Route.invoice_date Route.due_date Route.created_date].
  split; [ | split]; intros s Hs.
  - unfold Route.invoiceDateFields in F.
    destruct (truthy (get row "Invoice date")); [ | congruence].
    destruct (Route.parsedDate h (get row "Invoice date")) as [[t|]|];
      try congruence.
    exists t. injection F as <- _ _. injection Hs as <-.
    rewrite split_toISOString.
    split; [reflexivity | split; [reflexivity | ]].
    intros Hy. apply isoDate_is_ymd, Hy.
  - unfold Route.dueDateField in Hs.
    destruct (truthy (get row "Due date")); [ | congruence].
    destruct (Route.parsedDate h (get row "Due date")) as [[t|]|];
      try congruence.
    exists t. injection Hs as <-. rewrite split_toISOString.
    split; [reflexivity | split; [reflexivity | ]].
    intros Hy. apply isoDate_is_ymd, Hy.
  - unfold Route.createdDateField in Hs.
    destruct (truthy (get row "CREATEDDATE")); [ | congruence].
    destruct (Route.parsedDate h (get row "CREATEDDATE")) as [[t|]|];
      try congruence.
    exists t. injection Hs as <-.
    split; [reflexivity | split; [reflexivity | ]].
    intros Hy. pose proof (toISOString_length t Hy) as L.
    split; [exact L | ].
    destruct (toISOString t) as [|c1 [|c2 [|c3 [|c4 [|c5 [|c6 [|c7 [|c8 [|c9 [|c10 [|c11 u]]]]]]]]]]];
      try discriminate L.
    cbn [is_ymd]. reflexivity.
Qed.

Lemma route_date_strings_witness :
  exists r,
    Route.transformRow Sample.utc "USA" ""
      (Route.RObject [("Invoice date", VStr "2024-05-15");
                      ("Due date", serial 45458);
                      ("CREATEDDATE", VStr "2024-05-16")]) = inr r /\
    Route.invoice_date r = Some "2024-05-15" /\
    Route.due_date r = Some "2024-06-15" /\
    Route.created_date r = Some "2024-05-16T00:00:00.000Z" /\
    (forall s, Route.invoice_date r = Some s ->
       exists t, Route.parsedDate Sample.utc (VStr "2024-05-15") = Some (Some t) /\
                 s = isoDate t /\ (0 <= YearFromTime t <= 9999 -> is_ymd s = true)).
Proof.
  eexists. split; [reflexivity | ].
  split; [vm_compute; reflexivity | ].
  split; [vm_compute; reflexivity | ].
  split; [vm_compute; reflexivity | ].
  apply (route_date_strings Sample.utc "USA" ""
           [("Invoice date", VStr "2024-05-15"); ("Due date", serial 45458);
            ("CREATEDDATE", VStr "2024-05-16")]).
  reflexivity.
Defined.

(* ================================================================= *)
(** ** The account of a run of route.ts *)

Section RouteAccount.
Variable w : world Route.mappedRow.
Variables (entity0 : string) (file : File) (batchId : string).
Variable data : list Route.mappedRow.
Variable errors : list string.

Local Abbreviation loop := (Route.insert_loop w entity0 file batchId data errors).
Local Abbreviation complete := (Route.complete w entity0 file batchId errors).
Local Abbreviation catch_all := (Route.catch_all w batchId).
Local Abbreviation insert_failed := (Route.insert_failed w batchId).
Local Abbreviation n := (List.length data).
Local Abbreviation CH := Route.CHUNK_SIZE.
Local Abbreviation success := (success_reply entity0 file batchId errors).

Lemma answered_by_nil : answered_by w [].
Proof. intros q r []. Qed.

Lemma answered_by_one (j : nat) (q : query Route.mappedRow) :
  answered_by w [(q, w j q)].
Proof.
  intros q' r' [E | []]. injection E as <- <-. exists j. reflexivity.
Qed.

Lemma answered_by_app (a b : trace Route.mappedRow) :
  answered_by w a -> answered_by w b -> answered_by w (a ++ b).
Proof.
  intros A B q r I. apply in_app_or in I. destruct I as [I | I]; eauto.
Qed.

Lemma some_failure_app_r (a b : trace Route.mappedRow) :
  some_failure b -> some_failure (a ++ b).
Proof.
  intros (q & r & I & F). exists q, r. split; [ | exact F].
  apply in_or_app. right. exact I.
Qed.

Lemma some_failure_head (q : query Route.mappedRow) (r : settled)
    (b : trace Route.mappedRow) :
  took_effect r = false -> some_failure ((q, r) :: b).
Proof. intros F. exists q, r. split; [left; reflexivity | exact F]. Qed.

(** The handler of the outer [try] adds at most an update. *)
Lemma catch_all_account (tot : nat) (pr : list nat) (msg : string)
    (tr : trace Route.mappedRow) :
  exists fin,
    Route.queries (catch_all tot pr msg tr) = tr ++ fin /\
    answered_by w fin /\ sales_inserts fin = [] /\ sales_table fin = [] /\
    http_status (Route.reply (catch_all tot pr msg tr)) = 500%nat /\
    Route.totalInserted_at_exit (catch_all tot pr msg tr) = tot.
Proof.
  unfold Route.catch_all. cbn [Route.queries Route.reply Route.totalInserted_at_exit
                               http_status].
  destruct (batchId =? "")%string.
  - exists []. rewrite app_nil_r. repeat split. apply answered_by_nil.
  - eexists. unfold call. cbn [snd]. split; [reflexivity | ].
    split; [apply answered_by_one | ]. repeat split.
Qed.

Lemma complete_account (tot : nat) (pr : list nat) (tr : trace Route.mappedRow) :
  exists fin,
    Route.queries (complete tot pr tr) = tr ++ fin /\
    fin <> [] /\
    answered_by w fin /\ sales_inserts fin = [] /\ sales_table fin = [] /\
    Route.totalInserted_at_exit (complete tot pr tr) = tot /\
    (http_status (Route.reply (complete tot pr tr)) = 500%nat /\ some_failure fin
     \/
     Route.reply (complete tot pr tr) = success tot /\
     exists r, fin = [(UpdateHistory "completed" None batchId, r)] /\
               is_rejected r = false).
Proof.
  unfold Route.complete, call.
  set (q := UpdateHistory "completed" None batchId).
  destruct (w (List.length tr) q) as [d e | msg] eqn:W.
  - exists [(q, Resolved d e)]. split; [reflexivity | ].
    split; [discriminate | ]. split; [rewrite <- W; apply answered_by_one | ].
    split; [reflexivity | ]. split; [reflexivity | ]. split; [reflexivity | ].
    right. split; [reflexivity | ]. exists (Resolved d e). split; reflexivity.
  - destruct (catch_all_account tot pr msg (tr ++ [(q, Rejected msg)]))
      as (fin & Q & A & SI & ST & H5 & T).
    exists ((q, Rejected msg) :: fin). rewrite Q, <- app_assoc.
    split; [reflexivity | ]. split; [discriminate | ].
    split.
    { apply (answered_by_app [(q, Rejected msg)] fin); [ | exact A].
      rewrite <- W. apply answered_by_one. }
    split; [exact SI | ]. split; [exact ST | ]. split; [exact T | ].
    left. split; [exact H5 | ]. apply some_failure_head. reflexivity.
Qed.

Lemma insert_failed_account (tot : nat) (pr : list nat) (e : PostgrestError)
    (tr : trace Route.mappedRow) :
  exists fin,
    Route.queries (insert_failed tot pr e tr) = tr ++ fin /\
    answered_by w fin /\ sales_inserts fin = [] /\ sales_table fin = [] /\
    Route.totalInserted_at_exit (insert_failed tot pr e tr) = tot /\
    http_status (Route.reply (insert_failed tot pr e tr)) = 500%nat.
Proof.
  unfold Route.insert_failed, call.
  set (q := UpdateHistory "failed" (Some (message e)) batchId).
  destruct (w (List.length tr) q) as [d e' | msg] eqn:W.
  - exists [(q, Resolved d e')]. split; [reflexivity | ].
    split; [rewrite <- W; apply answered_by_one | ]. repeat split.
  - destruct (catch_all_account tot pr msg (tr ++ [(q, Rejected msg)]))
      as (fin & Q & A & SI & ST & H5 & T).
    exists ((q, Rejected msg) :: fin). rewrite Q, <- app_assoc.
    split; [reflexivity | ].
    split.
    { apply (answered_by_app [(q, Rejected msg)] fin); [ | exact A].
      rewrite <- W. apply answered_by_one. }
    split; [exact SI | ]. split; [exact ST | ]. split; [exact T | exact H5].
Qed.

Lemma complete_is_account (i tot : nat) (full : Prop) (pr : list nat)
    (tr : trace Route.mappedRow) :
  (full -> (n - i = 0)%nat) ->
  exists new,
    Route.queries (complete tot pr tr) = tr ++ new /\
    account w entity0 file batchId data errors i tot full new (complete tot pr tr).
Proof.
  intros Hfull.
  destruct (complete_account tot pr tr) as (fin & Q & NE & A & SI & ST & T & C).
  exists fin. split; [exact Q | ].
  split; [exact NE | ]. split; [exact A | ].
  split; [rewrite SI; constructor | ].
  exists O. rewrite Nat.add_0_r.
  split; [exact ST | ]. split; [exact T | ]. split; [lia | ].
  destruct C as [C | (R & r & F & J)]; [left; exact C | right].
  split; [exact R | ]. split; [intros H; symmetry; apply Hfull, H | ].
  exists [], r. split; [exact F | ]. split; [constructor | exact J].
Qed.

Lemma chunk_then_rest (i k : nat) :
  (k <= n - (i + CH))%nat ->
  Route.slice data i (i + CH) ++ firstn k (skipn (i + CH) data) =
  firstn (List.length (Route.slice data i (i + CH)) + k) (skipn i data).
Proof.
  intros Hk. unfold Route.slice.
  replace (i + CH - i)%nat with CH by lia.
  replace (skipn (i + CH) data) with (skipn CH (skipn i data))
    by (rewrite skipn_skipn; f_equal; lia).
  rewrite <- firstn_plus.
  destruct (Nat.le_gt_cases CH (List.length (skipn i data))) as [L | L].
  - rewrite length_firstn, Nat.min_l by exact L. reflexivity.
  - rewrite length_skipn in L.
    assert (k = 0)%nat as -> by lia.
    rewrite !firstn_all2; [reflexivity | | ];
      rewrite ?length_firstn, ?length_skipn; lia.
Qed.

(** The insert loop, entered anywhere, keeps its account. *)
Lemma insert_loop_account (fuel : nat) :
  forall (i tot : nat) (pr : list nat) (tr : trace Route.mappedRow),
    exists new,
      Route.queries (loop fuel i tot pr tr) = tr ++ new /\
      account w entity0 file batchId data errors i tot
        (n <= i + fuel * CH)%nat new (loop fuel i tot pr tr).
Proof.
  induction fuel as [|fuel IH]; intros i tot pr tr.
  - assert (E : loop 0 i tot pr tr = complete tot pr tr).
    { cbn [Route.insert_loop]. destruct (i <? n)%nat; reflexivity. }
    rewrite E. apply complete_is_account. lia.
  - destruct (Nat.le_gt_cases n i) as [L | L].
    + rewrite insert_loop_done by exact L. apply complete_is_account. lia.
    + rewrite insert_loop_step by exact L. cbv zeta. unfold call.
      set (q := InsertSales (Route.slice data i (i + CH)) false).
      assert (AQ : a_chunk_of data (Route.slice data i (i + CH))).
      { exists i. split; [exact L | reflexivity]. }
      destruct (w (List.length tr) q) as [d [e | ] | msg] eqn:W.
      * destruct (insert_failed_account tot pr e (tr ++ [(q, Resolved d (Some e))]))
          as (fin & Q & A & SI & ST & T & H5).
        exists ((q, Resolved d (Some e)) :: fin). rewrite Q, <- app_assoc.
        split; [reflexivity | ]. split; [discriminate | ].
        split.
        { apply (answered_by_app [(q, Resolved d (Some e))] fin); [ | exact A].
          rewrite <- W. apply answered_by_one. }
        split.
        { unfold q. cbn [sales_inserts]. rewrite SI. constructor; [exact AQ | constructor]. }
        exists O. rewrite Nat.add_0_r. unfold q. cbn [sales_table took_effect].
        split; [exact ST | ]. split; [exact T | ]. split; [lia | ].
        left. split; [exact H5 | ]. apply some_failure_head. reflexivity.
      * set (len := List.length (Route.slice data i (i + CH))).
        destruct (IH (i + CH)%nat (tot + len)%nat (pr ++ [(tot + len)%nat])
                    (tr ++ [(q, Resolved d None)]))
          as (new & Q & NE & A & FI & k & ST & T & K & C).
        exists ((q, Resolved d None) :: new). rewrite Q, <- app_assoc.
        split; [reflexivity | ]. split; [discriminate | ].
        split.
        { apply (answered_by_app [(q, Resolved d None)] new); [ | exact A].
          rewrite <- W. apply answered_by_one. }
        split.
        { unfold q. cbn [sales_inserts]. constructor; [exact AQ | exact FI]. }
        assert (Hlen : len = Nat.min CH (n - i)).
        { unfold len. rewrite slice_length. f_equal. lia. }
        exists (len + k)%nat.
        split.
        { unfold q. cbn [sales_table took_effect]. rewrite ST.
          apply chunk_then_rest. exact K. }
        split; [rewrite T; lia | ].
        split; [lia | ].
        destruct C as [(H5 & F) | (R & Fu & ins & r & EN & FC & J)].
        -- left. split; [exact H5 | ].
           apply (some_failure_app_r [(q, Resolved d None)] new F).
        -- right. split; [rewrite R; f_equal; lia | ].
           split; [intros Hn; rewrite Fu by lia; lia | ].
           exists ((q, Resolved d None) :: ins), r.
           split; [rewrite EN; reflexivity | ].
           split; [ | exact J].
           constructor; [ | exact FC]. eexists. reflexivity.
      * destruct (catch_all_account tot pr msg (tr ++ [(q, Rejected msg)]))
          as (fin & Q & A & SI & ST & H5 & T).
        exists ((q, Rejected msg) :: fin). rewrite Q, <- app_assoc.
        split; [reflexivity | ]. split; [discriminate | ].
        split.
        { apply (answered_by_app [(q, Rejected msg)] fin); [ | exact A].
          rewrite <- W. apply answered_by_one. }
        split.
        { unfold q. cbn [sales_inserts]. rewrite SI. constructor; [exact AQ | constructor]. }
        exists O. rewrite Nat.add_0_r. unfold q. cbn [sales_table took_effect].
        split; [exact ST | ]. split; [exact T | ]. split; [lia | ].
        left. split; [exact H5 | ]. apply some_failure_head. reflexivity.
Qed.

(** The queries of [persist]: the insert of the history record, then
    nothing after an error, an update after a rejection, the insert loop
    otherwise. *)
Lemma persist_account :
  let out := Route.persist w entity0 file batchId data errors in
  let q0 := InsertHistory (processing_record batchId entity0 file n) in
  exists rest k,
    Route.queries out = (q0, w 0%nat q0) :: rest /\
    answered_by w rest /\
    Forall (a_chunk_of data) (sales_inserts rest) /\
    sales_table rest = firstn k data /\
    Route.totalInserted_at_exit out = k /\
    (k <= n)%nat /\
    (http_status (Route.reply out) = 500%nat /\ some_failure (Route.queries out)
     \/
     Route.reply out = success n /\ k = n /\
     took_effect (w 0%nat q0) = true /\ completed_run batchId rest).
Proof.
  intros out q0. subst out.
  destruct (took_effect (w 0%nat q0)) eqn:TE.
  - rewrite persist_started by exact TE. fold q0.
    destruct (insert_loop_account n 0 0 [] [(q0, w 0%nat q0)])
      as (new & Q & _ & A & FI & k & ST & T & K & C).
    exists new, k. rewrite Q.
    split; [reflexivity | ]. split; [exact A | ]. split; [exact FI | ].
    split; [exact ST | ]. split; [exact T | ]. split; [lia | ].
    destruct C as [(H5 & F) | (R & Fu & CR)].
    + left. split; [exact H5 | ].
      apply (some_failure_app_r [(q0, w 0%nat q0)] new F).
    + right. assert (k = n) as ->
        by (pose proof (Fu ltac:(unfold Route.CHUNK_SIZE; lia)); lia).
      split; [exact R | ]. split; [reflexivity | ]. split; [reflexivity | exact CR].
  - unfold Route.persist, call. cbn [List.length].
    fold (processing_record batchId entity0 file n). fold q0.
    destruct (w 0%nat q0) as [d [e | ] | msg] eqn:W; [ | discriminate TE | ].
    + exists [], O. cbn [Route.queries Route.reply Route.totalInserted_at_exit
                        http_status app].
      split; [reflexivity | ]. split; [apply answered_by_nil | ].
      split; [constructor | ]. split; [reflexivity | ]. split; [reflexivity | ].
      split; [lia | ]. left. split; [reflexivity | ].
      apply some_failure_head. reflexivity.
    + destruct (catch_all_account 0 [] msg ([] ++ [(q0, Rejected msg)]))
        as (fin & Q & A & SI & ST & H5 & T).
      exists fin, O. rewrite Q. cbn [app].
      split; [reflexivity | ]. split; [exact A | ].
      split; [rewrite SI; constructor | ]. split; [exact ST | ].
      split; [exact T | ]. split; [lia | ].
      left. split; [exact H5 | ]. apply some_failure_head. reflexivity.
Qed.

End RouteAccount.

Section RouteReplies.
Variable h : Host.
Variable XLSX_read : File -> Route.workbook.
Variable uuidv4 : string.
Variable req : Request.
Variable w : world Route.mappedRow.

Local Abbreviation out := (Route.POST h XLSX_read uuidv4 req w).
Local Abbreviation data := (transformed h XLSX_read uuidv4 req).

Lemma prepare_inl_counter (o : Route.outcome) :
  Route.prepare h XLSX_read req = inl o -> Route.totalInserted_at_exit o = 0%nat.
Proof.
  unfold Route.prepare. intros P.
  repeat match type of P with
         | match ?x with _ => _ end = _ => destruct x eqn:?
         | (if ?b then _ else _) = _ => destruct b eqn:?
         | (let '(_, _) := ?x in _) = _ => destruct x eqn:?
         | inl _ = inl _ => injection P as <-
         | inr _ = inl _ => discriminate P
         end; reflexivity.
Qed.

(** A run of the handler: turned down with a 400 and no query, or the
    account of [persist] on the rows transformed. *)
Lemma POST_account :
  (http_status (Route.reply out) = 400%nat /\ Route.queries out = [] /\
   Route.totalInserted_at_exit out = 0%nat /\ data = [] /\
   exists o, Route.prepare h XLSX_read req = inl o)
  \/
  exists file entity0 td errs,
    Route.prepare h XLSX_read req = inr (file, entity0, td, errs) /\
    data = map (Route.stamp uuidv4) td /\
    let q0 := InsertHistory (processing_record uuidv4 entity0 file (List.length td)) in
    exists rest k,
      Route.queries out = (q0, w 0%nat q0) :: rest /\
      answered_by w rest /\
      Forall (a_chunk_of data) (sales_inserts rest) /\
      sales_table rest = firstn k data /\
      Route.totalInserted_at_exit out = k /\
      (k <= List.length td)%nat /\
      (http_status (Route.reply out) = 500%nat /\ some_failure (Route.queries out)
       \/
       Route.reply out = success_reply entity0 file uuidv4 errs (List.length td) /\
       k = List.length td /\
       took_effect (w 0%nat q0) = true /\ completed_run uuidv4 rest).
Proof.
  unfold transformed, Route.POST.
  destruct (Route.prepare h XLSX_read req) as [o | [[[file entity0] td] errs]] eqn:P.
  - left. destruct (prepare_inl h XLSX_read req o P) as (S4 & Q & _).
    split; [exact S4 | ]. split; [exact Q | ].
    split; [exact (prepare_inl_counter o P) | ].
    split; [reflexivity | ]. exists o. reflexivity.
  - right. exists file, entity0, td, errs.
    split; [reflexivity | ]. split; [reflexivity | ].
    pose proof (persist_account w entity0 file uuidv4 (map (Route.stamp uuidv4) td) errs)
      as A.
    rewrite length_map in A. exact A.
Qed.

End RouteReplies.

(** X7.  The handler answers 200, 400 or 500.  It
    answers 400 exactly when it has sent no query to the database; a 500
    comes after a query that did not take effect; a 200 carries
    [success: true]. *)
Theorem route_reply_classes (h : Host) (XLSX_read : File -> Route.workbook)
    (uuidv4 : string) (req : Request) (w : world Route.mappedRow) :
  let out := Route.POST h XLSX_read uuidv4 req w in
  (http_status (Route.reply out) = 200%nat \/
   http_status (Route.reply out) = 400%nat \/
   http_status (Route.reply out) = 500%nat) /\
  (http_status (Route.reply out) = 400%nat <-> Route.queries out = []) /\
  (http_status (Route.reply out) = 500%nat -> some_failure (Route.queries out)) /\
  (http_status (Route.reply out) = 200%nat ->
   member "success" (body (Route.reply out)) = Some (JBool true)).
Proof.
  intros out.
  pose proof (POST_account h XLSX_read uuidv4 req w) as A.
  change (Route.POST h XLSX_read uuidv4 req w) with out in A.
  destruct A
    as [(S4 & Q & _) | (file & e & td & errs & _ & _ & rest & k & Q & _ & _ & _ & _ & _ & C)].
  - rewrite S4, Q. split; [auto | ]. split; [tauto | ]. split; discriminate.
  - rewrite Q. destruct C as [(S5 & F) | (R & _)].
    + rewrite S5. split; [auto | ]. split; [split; discriminate | ].
      split; [intros _; rewrite <- Q; exact F | discriminate].
    + rewrite R. cbn [success_reply http_status body].
      split; [auto | ]. split; [split; discriminate | ].
      split; [discriminate | reflexivity].
Qed.

(** X8.  When the handler answers 200, every row it
    transformed is stored, once and in the order of the sheet; the reply
    counts them all as [rowsInserted] and the warnings as [rowsSkipped];
    the last query is the update to status completed. *)
Theorem route_success_stores_every_row (h : Host)
    (XLSX_read : File -> Route.workbook) (uuidv4 : string) (req : Request)
    (w : world Route.mappedRow) :
  let out := Route.POST h XLSX_read uuidv4 req w in
  http_status (Route.reply out) = 200%nat ->
  exists file entity0 td errs,
    Route.prepare h XLSX_read req = inr (file, entity0, td, errs) /\
    sales_table (Route.queries out) = map (Route.stamp uuidv4) td /\
    Route.reply out = success_reply entity0 file uuidv4 errs (List.length td) /\
    Route.totalInserted_at_exit out = List.length td /\
    exists pre r,
      Route.queries out = pre ++ [(UpdateHistory "completed" None uuidv4, r)] /\
      is_rejected r = false.
Proof.
  intros out S2.
  pose proof (POST_account h XLSX_read uuidv4 req w) as A.
  change (Route.POST h XLSX_read uuidv4 req w) with out in A.
  destruct A
    as [(S4 & _) | (file & e & td & errs & P & D & rest & k & Q & _ & _ & ST & T & _ & C)].
  - rewrite S4 in S2. discriminate.
  - destruct C as [(S5 & _) | (R & K & _ & ins & r & EN & _ & J)].
    + rewrite S5 in S2. discriminate.
    + exists file, e, td, errs. split; [exact P | ]. split.
      { rewrite Q. cbn [sales_table]. rewrite ST, K, D.
        apply firstn_all2. rewrite length_map. apply Nat.le_refl. }
      split; [exact R | ]. split; [rewrite T; exact K | ].
      eexists ((_, _) :: ins), r. rewrite Q, EN. split; [reflexivity | exact J].
Qed.

Lemma route_success_stores_every_row_witness :
  let out := Sample.route (Sample.sheet 3) (Sample.request "USA") Sample.accepting in
  exists file entity0 td errs,
    Route.prepare Sample.utc (fun _ => Route.Sheet (Sample.sheet 3)) (Sample.request "USA")
      = inr (file, entity0, td, errs) /\
    sales_table (Route.queries out) = map (Route.stamp "0b7a-batch") td /\
    Route.reply out = success_reply entity0 file "0b7a-batch" errs (List.length td) /\
    Route.totalInserted_at_exit out = List.length td /\
    exists pre r,
      Route.queries out = pre ++ [(UpdateHistory "completed" None "0b7a-batch", r)] /\
      is_rejected r = false.
Proof.
  apply (route_success_stores_every_row Sample.utc
           (fun _ => Route.Sheet (Sample.sheet 3)) "0b7a-batch"
           (Sample.request "USA") Sample.accepting).
  vm_compute. reflexivity.
Defined.

(** X9.  After any run the rows stored are the
    first [totalInserted] rows that the handler transformed, in the order
    of the sheet: no row is stored twice or out of order, and the counter
    of the handler is the number of rows stored. *)
Theorem route_counter_counts_stored_rows (h : Host)
    (XLSX_read : File -> Route.workbook) (uuidv4 : string) (req : Request)
    (w : world Route.mappedRow) :
  let out := Route.POST h XLSX_read uuidv4 req w in
  let data := transformed h XLSX_read uuidv4 req in
  sales_table (Route.queries out) = firstn (Route.totalInserted_at_exit out) data /\
  (Route.totalInserted_at_exit out <= List.length data)%nat /\
  List.length (sales_table (Route.queries out)) = Route.totalInserted_at_exit out.
Proof.
  intros out data.
  assert (G : sales_table (Route.queries out) =
              firstn (Route.totalInserted_at_exit out) data /\
              (Route.totalInserted_at_exit out <= List.length data)%nat).
  { pose proof (POST_account h XLSX_read uuidv4 req w) as A.
    change (Route.POST h XLSX_read uuidv4 req w) with out in A.
    change (transformed h XLSX_read uuidv4 req) with data in A.
    destruct A
      as [(_ & Q & T & D & _) |
          (file & e & td & errs & _ & D & rest & k & Q & _ & _ & ST & T & K & _)].
    - rewrite Q, T, D. split; [reflexivity | apply Nat.le_refl].
    - rewrite Q, T. cbn [sales_table]. split; [exact ST | ].
      rewrite D, length_map. exact K. }
  destruct G as (G1 & G2). split; [exact G1 | ]. split; [exact G2 | ].
  rewrite G1, length_firstn. apply Nat.min_l, G2.
Qed.

Section ChunkFacts.
Context {A : Type}.
Variable data : list A.

Lemma slice_incl (i j : nat) : incl (Route.slice data i j) data.
Proof.
  intros x I. unfold Route.slice in I.
  rewrite <- (firstn_skipn i data). apply in_or_app. right.
  rewrite <- (firstn_skipn (j - i) (skipn i data)). apply in_or_app. left. exact I.
Qed.

Lemma a_chunk_bounds (rows : list A) :
  a_chunk_of data rows ->
  (1 <= List.length rows <= Route.CHUNK_SIZE)%nat /\ incl rows data.
Proof.
  intros (j & Hj & ->). split; [ | apply slice_incl].
  rewrite slice_length. unfold Route.CHUNK_SIZE. lia.
Qed.

Lemma sales_inserts_calls (tr : trace A) :
  sales_inserts tr = map fst (sales_calls tr).
Proof.
  induction tr as [|[q r] tr IH]; [reflexivity | ].
  destruct q; cbn [sales_inserts sales_calls map fst]; congruence.
Qed.

End ChunkFacts.

(** X10.  Whatever the database answers, an insert into
    sales_data carries at least one row and at most 500, all of them rows
    that the handler transformed, and a sheet of n rows gives rise to no
    more than n / 500 inserts, rounded up. *)
Theorem route_chunk_bounds (h : Host) (XLSX_read : File -> Route.workbook)
    (uuidv4 : string) (req : Request) (w : world Route.mappedRow) :
  uuidv4 <> "" ->
  let out := Route.POST h XLSX_read uuidv4 req w in
  let data := transformed h XLSX_read uuidv4 req in
  (forall rows,
     In rows (sales_inserts (Route.queries out)) ->
     (1 <= List.length rows <= 500)%nat /\ incl rows data) /\
  (List.length (sales_inserts (Route.queries out)) * 500 < List.length data + 500)%nat.
Proof.
  intros Hu out data. split.
  - intros rows I.
    pose proof (POST_account h XLSX_read uuidv4 req w) as A.
    change (Route.POST h XLSX_read uuidv4 req w) with out in A.
    change (transformed h XLSX_read uuidv4 req) with data in A.
    destruct A as [(_ & Q & _) |
                   (file & e & td & errs & _ & _ & rest & k & Q & _ & F & _)].
    + rewrite Q in I. destruct I.
    + rewrite Q in I. cbn [sales_inserts] in I.
      rewrite Forall_forall in F. apply (a_chunk_bounds data rows), F, I.
  - pose proof (POST_shape h XLSX_read uuidv4 Hu req w) as Sh.
    change (Route.POST h XLSX_read uuidv4 req w) with out in Sh.
    destruct Sh as [(Q & _) | (file & e & td & errs & P & _ & Sh)].
    + rewrite Q. cbn. lia.
    + assert (D : data = map (Route.stamp uuidv4) td).
      { unfold data, transformed. rewrite P. reflexivity. }
      cbv zeta in Sh. rewrite <- D in Sh.
      destruct Sh as [(_ & Q & _) | [(_ & _ & _ & _ & fin & Q & _ & F) |
                       (_ & ins & fin & new & Q & _ & R & _ & F & _)]].
      * rewrite Q. cbn. lia.
      * destruct (closing_no_sales uuidv4 fin F) as (_ & SI & _).
        rewrite Q, sales_inserts_app, SI. cbn. lia.
      * destruct (closing_no_sales uuidv4 fin F) as (_ & SI & _).
        rewrite Q, !sales_inserts_app, SI, app_nil_r. cbn [sales_inserts app].
        rewrite sales_inserts_calls, length_map.
        destruct (chunk_run_length data _ _ R) as [-> | B]; [cbn; lia | ].
        unfold Route.CHUNK_SIZE in B. lia.
Qed.

Lemma route_chunk_bounds_witness :
  let out := Sample.route (Sample.sheet 3) (Sample.request "USA") Sample.accepting in
  (forall rows,
     In rows (sales_inserts (Route.queries out)) ->
     (1 <= List.length rows <= 500)%nat /\
     incl rows
       (transformed Sample.utc (fun _ => Route.Sheet (Sample.sheet 3)) "0b7a-batch"
          (Sample.request "USA"))) /\
  (List.length (sales_inserts (Route.queries out)) * 500 <
   List.length
     (transformed Sample.utc (fun _ => Route.Sheet (Sample.sheet 3)) "0b7a-batch"
        (Sample.request "USA")) + 500)%nat.
Proof.
  apply (route_chunk_bounds Sample.utc (fun _ => Route.Sheet (Sample.sheet 3))
           "0b7a-batch" (Sample.request "USA") Sample.accepting).
  discriminate.
Defined.

Section RowStamps.
Variable h : Host.
Variables entity0 batchId : string.

Lemma transformRow_entity (r : Route.rawRecord) (m : Route.mappedRow) :
  Route.transformRow h entity0 batchId r = inr m -> Route.entity m = entity0.
Proof.
  destruct r as [row]. unfold Route.transformRow.
  destruct (Route.invoiceDateFields h row) as [[a b] c].
  intros E. injection E as <-. reflexivity.
Qed.

Lemma transform_loop_entity (rawData : list Route.rawRecord) :
  forall (i : nat) (td0 : list Route.mappedRow) (errs0 : list string),
    Forall (fun m => Route.entity m = entity0) td0 ->
    Forall (fun m => Route.entity m = entity0)
      (fst (Route.transform_loop h entity0 batchId rawData i td0 errs0)).
Proof.
  induction rawData as [|r rest IH]; intros i td0 errs0 F; [exact F | ].
  cbn [Route.transform_loop].
  destruct (Route.transformRow h entity0 batchId r) as [msg | m] eqn:T.
  - cbv zeta. destruct (10 <=? _)%nat; [exact F | apply IH, F].
  - apply IH. apply Forall_app. split; [exact F | ].
    constructor; [exact (transformRow_entity r m T) | constructor].
Qed.

End RowStamps.

(** X11.  Every row that route.ts sends to sales_data
    carries the batch identifier of the request and the entity of the
    form, which is one of the six entities. *)
Theorem route_rows_carry_batch_and_entity (h : Host)
    (XLSX_read : File -> Route.workbook) (uuidv4 : string) (req : Request)
    (w : world Route.mappedRow) (rows : list Route.mappedRow) (r : Route.mappedRow) :
  In rows (sales_inserts (Route.queries (Route.POST h XLSX_read uuidv4 req w))) ->
  In r rows ->
  Route.upload_batch_id r = uuidv4 /\
  form_entity req = Some (Route.entity r) /\
  In (Route.entity r) Route.validEntities.
Proof.
  intros I Ir.
  destruct (POST_account h XLSX_read uuidv4 req w)
    as [(_ & Q & _) | (file & e & td & errs & P & D & rest & k & Q & _ & F & _)].
  - rewrite Q in I. destruct I.
  - rewrite Q in I. cbn [sales_inserts] in I. rewrite Forall_forall in F.
    destruct (a_chunk_bounds _ rows (F rows I)) as (_ & Inc).
    apply Inc in Ir. rewrite D in Ir. apply in_map_iff in Ir.
    destruct Ir as (r0 & <- & I0).
    destruct (prepare_inr h XLSX_read req file e td errs P)
      as ((_ & Fe & Ve & _) & raw & _ & T).
    assert (E0 : Route.entity r0 = e).
    { pose proof (transform_loop_entity h e "" raw 0 [] [] (Forall_nil _)) as G.
      rewrite <- T in G. cbn [fst] in G. rewrite Forall_forall in G. apply G, I0. }
    cbn [Route.stamp Route.upload_batch_id Route.entity]. rewrite E0.
    split; [reflexivity | ]. split; [exact Fe | exact Ve].
Qed.

Lemma route_rows_carry_batch_and_entity_witness :
  exists rows r,
    In rows (sales_inserts
               (Route.queries
                  (Sample.route (Sample.sheet 3) (Sample.request "USA")
                     Sample.accepting))) /\
    In r rows /\
    Route.upload_batch_id r = "0b7a-batch" /\
    form_entity (Sample.request "USA") = Some (Route.entity r) /\
    In (Route.entity r) Route.validEntities.
Proof.
  eexists. eexists.
  assert (I : In (map (Route.stamp "0b7a-batch") (Sample.mapped_sheet 3))
                (sales_inserts
                   (Route.queries
                      (Sample.route (Sample.sheet 3) (Sample.request "USA")
                         Sample.accepting)))).
  { vm_compute. left. reflexivity. }
  assert (Ir : In (Route.stamp "0b7a-batch"
                     (nth 0 (Sample.mapped_sheet 3)
                        (Route.stamp "" (nth 0 (Sample.mapped_sheet 1)
                           {| Route.entity := ""; Route.year := None;
                              Route.quarter := None; Route.invoice_date := None;
                              Route.due_date := None; Route.created_date := None;
                              Route.texts := []; Route.numbers := [];
                              Route.upload_batch_id := "" |}))))
                  (map (Route.stamp "0b7a-batch") (Sample.mapped_sheet 3))).
  { vm_compute. left. reflexivity. }
  split; [exact I | ]. split; [exact Ir | ].
  exact (route_rows_carry_batch_and_entity Sample.utc
           (fun _ => Route.Sheet (Sample.sheet 3)) "0b7a-batch"
           (Sample.request "USA") Sample.accepting _ _ I Ir).
Defined.

(** X12.  When no query fails, a
    sheet of n transformed rows is sent in n / 500 inserts, rounded up, each
    the next chunk of the rows; every row is stored, the counts printed are
    500, 1000, ... up to n, the reply is the reply of success, and the
    history record of the batch ends in status completed with n rows. *)
Theorem route_accepting_database (h : Host) (XLSX_read : File -> Route.workbook)
    (uuidv4 : string) (req : Request) (w : world Route.mappedRow)
    (file : File) (entity0 : string) (td : list Route.mappedRow)
    (errs : list string) :
  (forall j q, took_effect (w j q) = true) ->
  Route.prepare h XLSX_read req = inr (file, entity0, td, errs) ->
  let out := Route.POST h XLSX_read uuidv4 req w in
  let data := map (Route.stamp uuidv4) td in
  let m := ((List.length td + 499) / 500)%nat in
  sales_inserts (Route.queries out) = map (chunk data) (seq 0 m) /\
  sales_table (Route.queries out) = data /\
  Route.progress out =
    map (fun j => Nat.min (S j * 500) (List.length td)) (seq 0 m) /\
  Route.reply out = success_reply entity0 file uuidv4 errs (List.length td) /\
  history_table (Route.queries out) [] =
    [{| batch_id := uuidv4;
        history_entity := entity0;
        file_name := name file;
        rows_uploaded := List.length td;
        status := "completed";
        error_message := None |}].
Proof.
  intros Hok P out data m. subst out. unfold Route.POST. rewrite P. fold data.
  assert (Ln : List.length data = List.length td) by apply length_map.
  assert (Hm : (m * 500 <= List.length td + 499 < m * 500 + 500)%nat).
  { unfold m. pose proof (Nat.div_mod_eq (List.length td + 499) 500) as E.
    pose proof (Nat.mod_upper_bound (List.length td + 499) 500 ltac:(discriminate)) as B.
    lia. }
  clearbody m.
  rewrite persist_started by apply Hok.
  rewrite (insert_loop_run w entity0 file uuidv4 data errs m).
  2: { rewrite Ln. lia. }
  2: { intros j Hj. rewrite Ln. unfold Route.CHUNK_SIZE. nia. }
  2: { intros j Hj. cbn. apply Hok. }
  rewrite insert_loop_done by (rewrite Ln; unfold Route.CHUNK_SIZE; lia).
  set (q0 := InsertHistory (processing_record uuidv4 entity0 file (List.length data))).
  set (tr := [(q0, w 0%nat q0)] ++ map (chunk_call w data (List.length [(q0, w 0%nat q0)])) (seq 0 m)).
  set (upd := @UpdateHistory Route.mappedRow "completed" None uuidv4).
  assert (F : firstn (m * Route.CHUNK_SIZE) data = data).
  { apply firstn_all2. rewrite Ln. unfold Route.CHUNK_SIZE. lia. }
  unfold Route.complete, call. fold upd.
  pose proof (Hok (List.length tr) upd) as U.
  destruct (w (List.length tr) upd) as [d [e | ] | msg]; try discriminate U.
  cbn [Route.queries Route.reply Route.progress].
  split.
  { unfold tr. rewrite !sales_inserts_app, chunk_calls_inserts.
    change (sales_inserts [(q0, w 0%nat q0)]) with (@nil (list Route.mappedRow)).
    change (sales_inserts [(upd, Resolved d None)]) with (@nil (list Route.mappedRow)).
    rewrite app_nil_r. reflexivity. }
  split.
  { unfold tr. rewrite !sales_table_app, chunk_calls_table.
    - change (sales_table [(q0, w 0%nat q0)]) with (@nil Route.mappedRow).
      change (sales_table [(upd, Resolved d None)]) with (@nil Route.mappedRow).
      rewrite app_nil_r. exact F.
    - intros j Hj. cbn. apply Hok. }
  split.
  { apply map_ext. intros j. rewrite length_firstn, Ln. reflexivity. }
  split.
  { unfold success_reply. rewrite F, Ln. reflexivity. }
  unfold tr. rewrite !history_table_app, chunk_calls_history.
  unfold q0 at 1. cbn [history_table]. rewrite (Hok 0%nat q0).
  unfold upd. cbn [took_effect app map]. unfold Supabase.patch, processing_record.
  cbn [batch_id]. rewrite String.eqb_refl, Ln. reflexivity.
Qed.

Lemma route_accepting_database_witness :
  let out := Sample.route (Sample.sheet 3) (Sample.request "USA") Sample.accepting in
  sales_table (Route.queries out) =
    map (Route.stamp "0b7a-batch") (Sample.mapped_sheet 3) /\
  Route.progress out = [3]%nat /\
  map status (history_table (Route.queries out) []) = ["completed"].
Proof.
  assert (P : Route.prepare Sample.utc (fun _ => Route.Sheet (Sample.sheet 3))
                (Sample.request "USA")
              = inr (Sample.xlsx, "USA", Sample.mapped_sheet 3, [])).
  { vm_compute. reflexivity. }
  destruct (route_accepting_database Sample.utc (fun _ => Route.Sheet (Sample.sheet 3))
              "0b7a-batch" (Sample.request "USA") Sample.accepting
              Sample.xlsx "USA" (Sample.mapped_sheet 3) [] (fun _ _ => eq_refl) P)
    as (_ & ST & Pr & _ & H).
  cbv zeta. unfold Sample.route.
  split; [exact ST | ].
  split; [rewrite Pr; reflexivity | rewrite H; reflexivity].
Defined.

(* ================================================================= *)
(** ** Sheets of objects *)

(** X13.  When the first sheet reads as objects,
    which is what [sheet_to_json] builds, a request that passes the checks
    has every row transformed, in order and without a warning: a date or a
    number that cannot be read makes a null member, never a skipped row. *)
Theorem route_object_rows_never_skipped (h : Host)
    (XLSX_read : File -> Route.workbook) (req : Request) (file : File)
    (entity0 : string) (rows : list object) :
  validated XLSX_read req file entity0 ->
  XLSX_read file = Route.Sheet (map Route.RObject rows) ->
  exists td,
    Route.prepare h XLSX_read req = inr (file, entity0, td, []) /\
    List.length td = List.length rows /\
    Forall2 (fun row m => Route.transformRow h entity0 "" (Route.RObject row) = inr m)
      rows td.
Proof.
  intros (Ff & Fe & Ve & Sz & Vt & raw & X & Ne) Xo.
  rewrite Xo in X. injection X as <-.
  exists (mapped h entity0 "" (map Route.RObject rows)).
  pose proof (mapped_objects h entity0 "" rows) as F2.
  split; [ | split; [symmetry; exact (Forall2_length F2) | exact F2]].
  unfold Route.prepare. rewrite Ff, Fe.
  destruct entity0 as [|c e'].
  { exfalso. cbn in Ve. intuition discriminate. }
  apply mem_In in Ve. rewrite Ve. cbn [negb].
  replace (Route.MAX_FILE_SIZE <? size file) with false
    by (symmetry; apply Z.ltb_ge; exact Sz).
  apply mem_In in Vt. rewrite Vt. cbn [negb]. rewrite Xo.
  destruct (Nat.eqb_spec (List.length (map Route.RObject rows)) 0) as [Z | _].
  { exfalso. apply Ne. apply length_zero_iff_nil, Z. }
  rewrite transform_loop_objects. cbn [app List.length Nat.ltb Nat.leb andb].
  reflexivity.
Qed.

Lemma route_object_rows_never_skipped_witness :
  exists td,
    Route.prepare Sample.utc
      (fun _ => Route.Sheet
                  (map Route.RObject
                     [Sample.invoice "INV-1" "2024-05-15" (VStr "$1,234.50");
                      Sample.invoice "INV-2" "soon" (VStr "n/a")]))
      (Sample.request "USA")
    = inr (Sample.xlsx, "USA", td, []) /\
    List.length td = 2%nat /\
    map Route.invoice_date td = [Some "2024-05-15"; None] /\
    map (fun m => map snd (firstn 1 (Route.numbers m))) td =
      [[Some (Num (Qmake 123450 100))]; [None]].
Proof.
  destruct (route_object_rows_never_skipped Sample.utc
              (fun _ => Route.Sheet
                  (map Route.RObject
                     [Sample.invoice "INV-1" "2024-05-15" (VStr "$1,234.50");
                      Sample.invoice "INV-2" "soon" (VStr "n/a")]))
              (Sample.request "USA") Sample.xlsx "USA"
              [Sample.invoice "INV-1" "2024-05-15" (VStr "$1,234.50");
               Sample.invoice "INV-2" "soon" (VStr "n/a")])
    as (td & P & L & F).
  - unfold validated. cbn.
    split; [reflexivity | ]. split; [reflexivity | ]. split; [tauto | ].
    split; [discriminate | ]. split; [tauto | ].
    eexists. split; [reflexivity | discriminate].
  - reflexivity.
  - exists td. split; [exact P | ]. split; [exact L | ].
    inversion F as [ | r1 m1 l1 l1' T1 F1]; subst.
    inversion F1 as [ | r2 m2 l2 l2' T2 F2]; subst.
    inversion F2; subst.
    vm_compute in T1. injection T1 as <-.
    vm_compute in T2. injection T2 as <-.
    split; vm_compute; reflexivity.
Defined.

(* ================================================================= *)
(** ** part_000: reading a row *)

Section Lookup.

Local Abbreviation folded := (fun kv : string * value => toLowerCase (fst kv)).

Lemma get_In (row : object) (key : string) :
  get row key <> VUndefined -> In (key, get row key) row.
Proof.
  induction row as [|[k v] row IH]; cbn [get]; [congruence | ].
  destruct (String.eqb_spec k key) as [-> | N]; intros U.
  - left. reflexivity.
  - right. exact (IH U).
Qed.

Lemma NoDup_map_eq {A B : Type} (f : A -> B) (l : list A) (x y : A) :
  NoDup (map f l) -> In x l -> In y l -> f x = f y -> x = y.
Proof.
  induction l as [|a l IH]; intros D Ix Iy E; [destruct Ix | ].
  cbn [map] in D. inversion D as [ | ? ? Na D']; subst.
  destruct Ix as [-> | Ix], Iy as [-> | Iy].
  - reflexivity.
  - exfalso. apply Na. rewrite E. apply in_map, Iy.
  - exfalso. apply Na. rewrite <- E. apply in_map, Ix.
  - exact (IH D' Ix Iy E).
Qed.

Lemma get_unique (row : object) (k : string) (v : value) :
  NoDup (map folded row) -> In (k, v) row -> get row k = v.
Proof.
  induction row as [|[k0 v0] row IH]; intros D I; [destruct I | ].
  cbn [get]. destruct (String.eqb_spec k0 k) as [-> | N].
  - assert (E : (k, v0) = (k, v)).
    { apply (NoDup_map_eq folded ((k, v0) :: row));
        [exact D | left; reflexivity | exact I | reflexivity]. }
    congruence.
  - destruct I as [E | I]; [congruence | ].
    inversion D; subst. apply IH; assumption.
Qed.

Lemma find_unique (row : object) (k c : string) (v : value) :
  NoDup (map folded row) -> In (k, v) row ->
  toLowerCase k = toLowerCase c ->
  find (fun kv => (toLowerCase (fst kv) =? toLowerCase c)%string) row = Some (k, v).
Proof.
  induction row as [|[k0 v0] row IH]; intros D I E; [destruct I | ].
  cbn [find fst]. destruct (String.eqb_spec (toLowerCase k0) (toLowerCase c)) as [E0 | N].
  - f_equal. apply (NoDup_map_eq folded ((k0, v0) :: row));
      [exact D | left; reflexivity | exact I | cbn; congruence].
  - destruct I as [I | I]; [congruence | ].
    inversion D; subst. apply IH; assumption.
Qed.

Lemma find_no_header (row : object) (c : string) :
  (forall k v, In (k, v) row -> toLowerCase k <> toLowerCase c) ->
  find (fun kv => (toLowerCase (fst kv) =? toLowerCase c)%string) row = None /\
  get row c = VUndefined.
Proof.
  induction row as [|[k0 v0] row IH]; intros M; [split; reflexivity | ].
  cbn [find get fst].
  assert (N : toLowerCase k0 <> toLowerCase c) by (apply (M k0 v0); left; reflexivity).
  destruct (String.eqb_spec (toLowerCase k0) (toLowerCase c)); [contradiction | ].
  destruct (String.eqb_spec k0 c) as [-> | _]; [contradiction | ].
  apply IH. intros k v I. apply (M k v). right. exact I.
Qed.

End Lookup.

(** X14.  [getValue] of part_000 finds a column whatever the case
    of its header: in a row whose headers differ by more than case, the
    cell under a header equal to the name up to case is returned; when no
    header equals the name up to case the result is null. *)
Theorem part000_getValue_ignores_case (row : object) (columnName : string) :
  (forall k v,
     NoDup (map (fun kv => toLowerCase (fst kv)) row) ->
     In (k, v) row ->
     toLowerCase k = toLowerCase columnName ->
     k <> "" -> v <> VUndefined ->
     Part000.getValue row columnName = v) /\
  ((forall k v, In (k, v) row -> toLowerCase k <> toLowerCase columnName) ->
   Part000.getValue row columnName = VNull).
Proof.
  split.
  - intros k v D I E Nk Nv. unfold Part000.getValue.
    destruct (get row columnName) eqn:G;
      try (rewrite <- G;
           assert (U : get row columnName <> VUndefined) by (rewrite G; discriminate);
           pose proof (get_In row columnName U) as Ic;
           assert (X : (columnName, get row columnName) = (k, v))
             by (apply (NoDup_map_eq (fun kv => toLowerCase (fst kv)) row);
                 [exact D | exact Ic | exact I | cbn; congruence]);
           congruence).
    rewrite (find_unique row k columnName v D I E).
    destruct (String.eqb_spec k ""); [contradiction | ].
    apply get_unique; assumption.
  - intros M. unfold Part000.getValue.
    destruct (find_no_header row columnName M) as (F & G). rewrite G, F. reflexivity.
Qed.

Lemma part000_getValue_ignores_case_witness :
  Part000.getValue [("INVOICE DATE", VStr "2024-05-15"); ("Invoice", VStr "INV-1")]
    "Invoice date" = VStr "2024-05-15" /\
  Part000.getValue [("Invoice", VStr "INV-1")] "Invoice date" = VNull.
Proof.
  split.
  - apply (proj1 (part000_getValue_ignores_case
                    [("INVOICE DATE", VStr "2024-05-15"); ("Invoice", VStr "INV-1")]
                    "Invoice date") "INVOICE DATE" (VStr "2024-05-15")).
    + cbn. constructor; [ | constructor; [ | constructor]]; cbn; intuition discriminate.
    + left. reflexivity.
    + reflexivity.
    + discriminate.
    + discriminate.
  - apply (proj2 (part000_getValue_ignores_case [("Invoice", VStr "INV-1")]
                    "Invoice date")).
    intros k v [E | []]. injection E as <- _. discriminate.
Defined.

(* ================================================================= *)
(** ** part_000: rows that are dropped *)

Section DroppedRows.
Variable h : Host.
Variable row : object.

Lemma columnValue_None (excelCol dbCol : string) :
  Part000.columnValue h row excelCol dbCol = None <->
  Part000.is_date_column dbCol = true /\
  Part000.parseDateValue h (Part000.getValue row excelCol) = Some None.
Proof.
  unfold Part000.columnValue.
  destruct (Part000.is_date_column dbCol).
  - destruct (Part000.parseDateValue h (Part000.getValue row excelCol)) as [[t | ] | ];
      split; try discriminate; try tauto; intros [_ E]; discriminate E.
  - destruct (Part000.is_numeric_column dbCol); split; try discriminate;
      intros [E _]; discriminate E.
Qed.

Lemma fill_None (cols : list (string * string)) :
  forall dbRow,
    Part000.fill h row cols dbRow = None <->
    exists excelCol dbCol,
      In (excelCol, dbCol) cols /\ Part000.columnValue h row excelCol dbCol = None.
Proof.
  induction cols as [|[ec dc] cols IH]; intros dbRow; cbn [Part000.fill].
  - split; [discriminate | intros (? & ? & [] & _)].
  - destruct (Part000.columnValue h row ec dc) as [v | ] eqn:C.
    + rewrite IH. split.
      * intros (ec' & dc' & I & N). exists ec', dc'. split; [right; exact I | exact N].
      * intros (ec' & dc' & [E | I] & N).
        -- injection E as <- <-. congruence.
        -- exists ec', dc'. split; assumption.
    + split; [ | reflexivity]. intros _. exists ec, dc.
      split; [left; reflexivity | exact C].
Qed.

End DroppedRows.

Lemma date_columns :
  filter (fun c => Part000.is_date_column (snd c)) Part000.columnMapping =
  [("Invoice date", "invoice_date"); ("Due date", "due_date");
   ("CREATEDDATE", "created_date")].
Proof. vm_compute. reflexivity. Qed.

(** X15.  part_000 drops a row, without a warning,
    exactly when one of its three date cells makes an Invalid Date: an
    Invalid Date object, or a number other than zero whose date falls
    outside the range of Date.  A text that does not parse makes a null
    date and keeps the row. *)
Theorem part000_row_dropped_for_invalid_date (h : Host)
    (getY : Date -> number) (getQ : Date -> string) (entity0 batchId : string)
    (row : object) :
  (Part000.mapRow h getY getQ entity0 batchId row = None <->
   exists c,
     In c ["Invoice date"; "Due date"; "CREATEDDATE"] /\
     Part000.parseDateValue h (Part000.getValue row c) = Some None) /\
  (forall v,
     Part000.parseDateValue h v = Some None <->
     v = VDate None \/
     exists n,
       v = VNum n /\ truthy v = true /\
       Date_of_number (add_mul (getTime (Date_ymd h 1899 11 30)) n 86400000) = None) /\
  (forall s, Part000.parseDateValue h (VStr s) <> Some None).
Proof.
  split; [ | split].
  - unfold Part000.mapRow.
    destruct (Part000.yearQuarter getY getQ (Part000.invoiceDateOf h row)) as [y q].
    rewrite fill_None. split.
    + intros (ec & dc & I & N). apply columnValue_None in N. destruct N as (D & N).
      assert (F : In (ec, dc)
                    (filter (fun c => Part000.is_date_column (snd c))
                       Part000.columnMapping)).
      { apply filter_In. split; [exact I | exact D]. }
      rewrite date_columns in F. exists ec. split; [ | exact N].
      cbn in F. cbn.
      destruct F as [F | [F | [F | []]]]; injection F as <- _; tauto.
    + intros (c & I & N).
      assert (F : exists dc,
                In (c, dc)
                  (filter (fun c => Part000.is_date_column (snd c))
                     Part000.columnMapping)).
      { rewrite date_columns. cbn in I |- *.
        destruct I as [<- | [<- | [<- | []]]]; eexists; eauto. }
      destruct F as (dc & F). apply filter_In in F. destruct F as (I' & D).
      exists c, dc. split; [exact I' | ]. apply columnValue_None.
      split; [exact D | exact N].
  - intros v. unfold Part000.parseDateValue.
    destruct (truthy v) eqn:T; cbn [negb].
    + destruct v as [ | | b | n | s | [t | ]]; cbn [Date_of_value].
      * discriminate T.
      * discriminate T.
      * split; [ | intros [E | (n & E & _)]; discriminate E].
        destruct b; unfold TimeClip;
          destruct (_ <=? _); discriminate.
      * split.
        -- intros E. right. exists n. split; [reflexivity | ]. split; [reflexivity | ].
           destruct (Date_of_number _); [discriminate E | reflexivity].
        -- intros [E | (n' & E & _ & N)]; [discriminate E | ].
           injection E as <-. rewrite N. reflexivity.
      * split; [ | intros [E | (n & E & _)]; discriminate E].
        destruct (Date_of_string h s); discriminate.
      * split; [discriminate | intros [E | (n & E & _)]; discriminate E].
      * split; [left; reflexivity | reflexivity].
    + split; [discriminate | ].
      intros [-> | (n & -> & T' & _)]; [discriminate T | discriminate T'].
  - intros s. unfold Part000.parseDateValue.
    destruct (truthy (VStr s)); cbn [negb]; [ | discriminate].
    cbn [Date_of_value]. destruct (Date_of_string h s); discriminate.
Qed.

Lemma part000_row_dropped_for_invalid_date_witness :
  Part000.mapRow Sample.utc (Part000.getYearFromDate Sample.utc)
    (Part000.getQuarterFromDate Sample.utc) "USA" "0b7a-batch"
    [("Invoice", VStr "INV-1"); ("Due date", serial 200000000)] = None /\
  (exists dbRow,
     Part000.mapRow Sample.utc (Part000.getYearFromDate Sample.utc)
       (Part000.getQuarterFromDate Sample.utc) "USA" "0b7a-batch"
       [("Invoice", VStr "INV-1"); ("Due date", VStr "soon")] = Some dbRow /\
     get dbRow "due_date" = VNull).
Proof.
  split.
  - apply (proj1 (part000_row_dropped_for_invalid_date Sample.utc
                    (Part000.getYearFromDate Sample.utc)
                    (Part000.getQuarterFromDate Sample.utc) "USA" "0b7a-batch"
                    [("Invoice", VStr "INV-1"); ("Due date", serial 200000000)])).
    exists "Due date". split; [cbn; tauto | vm_compute; reflexivity].
  - eexists. split; vm_compute; reflexivity.
Defined.

(* ================================================================= *)
(** ** part_000: the inserts and the history record *)

Section Part000Persist.
Variable w : world object.

Lemma insert_each_account (rows : list object) :
  forall (i k : nat) (errs : list string) (tr : trace object),
    exists new lines,
      Part000.insert_each w rows i k errs tr =
        ((k + List.length (sales_table new))%nat, errs ++ lines, tr ++ new) /\
      sales_inserts new = map (fun r => [r]) rows /\
      Forall is_sales_insert new /\
      (List.length (sales_table new) + List.length lines = List.length rows)%nat.
Proof.
  induction rows as [|row rows IH]; intros i k errs tr.
  - exists [], []. cbn. rewrite Nat.add_0_r, !app_nil_r. repeat split. constructor.
  - cbn [Part000.insert_each]. unfold call.
    set (q := InsertSales [row] false).
    assert (IQ : is_sales_insert (q, w (List.length tr) q)).
    { exists [row], false. reflexivity. }
    destruct (w (List.length tr) q) as [d [e | ] | msg] eqn:W.
    + destruct (IH (S i) k (errs ++ [Part000.row_error i e])
                  (tr ++ [(q, Resolved d (Some e))])) as (new & lines & E & SI & F & L).
      exists ((q, Resolved d (Some e)) :: new), (Part000.row_error i e :: lines).
      rewrite E, <- !app_assoc. split; [reflexivity | ].
      split; [unfold q; cbn [sales_inserts map]; rewrite SI; reflexivity | ].
      split; [constructor; assumption | ].
      unfold q. cbn [sales_table took_effect List.length]. lia.
    + destruct (IH (S i) (S k) errs (tr ++ [(q, Resolved d None)]))
        as (new & lines & E & SI & F & L).
      exists ((q, Resolved d None) :: new), lines.
      rewrite E, <- !app_assoc. unfold q. cbn [sales_table took_effect app List.length].
      split; [f_equal; f_equal; lia | ].
      split; [cbn [sales_inserts map]; rewrite SI; reflexivity | ].
      split; [constructor; assumption | ]. lia.
    + destruct (IH (S i) k
                  (errs ++ [("Row " ++ string_of_nat (i + 2) ++ ": " ++ msg)%string])
                  (tr ++ [(q, Rejected msg)])) as (new & lines & E & SI & F & L).
      exists ((q, Rejected msg) :: new),
        (("Row " ++ string_of_nat (i + 2) ++ ": " ++ msg)%string :: lines).
      rewrite E, <- !app_assoc. split; [reflexivity | ].
      split; [unfold q; cbn [sales_inserts map]; rewrite SI; reflexivity | ].
      split; [constructor; assumption | ].
      unfold q. cbn [sales_table took_effect List.length]. lia.
Qed.

Variables (entity0 : string) (file : File) (batchId : string).
Variable salesData : list object.

(** The inserts of [insert_all]: none for no rows; otherwise the bulk
    insert, followed by one insert per row when it resolves with an
    error. *)
Lemma insert_all_account (tr : trace object) :
  exists ins k errs,
    Part000.insert_all w salesData tr = (k, errs, tr ++ ins) /\
    Forall is_sales_insert ins /\
    (salesData = [] -> ins = [] /\ k = 0%nat /\ errs = []) /\
    (salesData <> [] ->
     let bulk := InsertSales salesData true in
     exists singles,
       ins = (bulk, w (List.length tr) bulk) :: singles /\
       match w (List.length tr) bulk with
       | Rejected msg =>
           singles = [] /\ k = 0%nat /\
           errs = [("Failed to insert data: " ++ msg)%string]
       | Resolved _ (Some _) =>
           sales_inserts singles = map (fun r => [r]) salesData /\
           k = List.length (sales_table singles) /\
           (k + List.length errs = List.length salesData)%nat
       | Resolved d None =>
           singles = [] /\ errs = [] /\
           k = match d with Some n => n | None => 0%nat end
       end).
Proof.
  unfold Part000.insert_all.
  destruct salesData as [|row rows] eqn:D.
  - exists [], O, []. rewrite app_nil_r. split; [reflexivity | ].
    split; [constructor | ]. split; [auto | congruence].
  - rewrite <- D. unfold call.
    set (bulk := InsertSales salesData true).
    assert (IQ : is_sales_insert (bulk, w (List.length tr) bulk)).
    { exists salesData, true. reflexivity. }
    destruct (w (List.length tr) bulk) as [d [e | ] | msg] eqn:W.
    + destruct (insert_each_account salesData 0 0 [] (tr ++ [(bulk, Resolved d (Some e))]))
        as (new & lines & E & SI & F & L).
      exists ((bulk, Resolved d (Some e)) :: new), (List.length (sales_table new)), lines.
      rewrite E, <- app_assoc. split; [reflexivity | ].
      split; [constructor; assumption | ].
      split; [intros E0; rewrite E0 in D; discriminate D | ].
      intros _. exists new. split; [reflexivity | ].
      split; [exact SI | ]. split; [reflexivity | exact L].
    + eexists [(bulk, Resolved d None)], _, []. split; [reflexivity | ].
      split; [constructor; [exact IQ | constructor] | ].
      split; [intros E0; rewrite E0 in D; discriminate D | ].
      intros _. exists []. repeat split.
    + eexists [(bulk, Rejected msg)], O, _. split; [reflexivity | ].
      split; [constructor; [exact IQ | constructor] | ].
      split; [intros E0; rewrite E0 in D; discriminate D | ].
      intros _. exists []. repeat split.
Qed.

(** [persist] ends with the insert of the history record; it answers 200
    unless that insert rejects. *)
Lemma part000_persist_account (tr : trace object) (ins : trace object) (k : nat)
    (errs : list string) :
  Part000.insert_all w salesData tr = (k, errs, tr ++ ins) ->
  let out := Part000.persist w entity0 file batchId salesData tr in
  let q := InsertHistory (final_record batchId entity0 file k errs) in
  let r := w (List.length (tr ++ ins)) q in
  Part000.queries out = tr ++ ins ++ [(q, r)] /\
  (is_rejected r = false ->
   Part000.reply out =
     {| http_status := 200;
        body := [("success", JBool true); ("batchId", JStr batchId);
                 ("rowsInserted", JNum k);
                 ("totalRows", JNum (List.length salesData))] ++
                (if (0 <? List.length errs)%nat then [("errors", JStrs errs)] else []) |}) /\
  (is_rejected r = true -> http_status (Part000.reply out) = 500%nat).
Proof.
  intros E out q r. subst out. unfold Part000.persist. rewrite E. unfold call.
  fold (final_record batchId entity0 file k errs). fold q. fold r.
  destruct r as [d e | msg]; cbn [Part000.queries Part000.reply Part000.respond
                                  Part000.catch_all http_status is_rejected].
  - rewrite <- app_assoc. split; [reflexivity | ]. split; [reflexivity | discriminate].
  - rewrite <- app_assoc. split; [reflexivity | ]. split; [discriminate | reflexivity].
Qed.

End Part000Persist.

(** X16.  part_000 writes the history record
    once, after every insert into sales_data, with status success when no
    error line was collected and partial otherwise.  It answers 200 with
    [success: true] whenever that last insert does not reject, also when
    it resolves with an error and when no row was stored; with no row to
    insert it sends no insert and records a success of 0 rows. *)
Theorem part000_history_written_last (w : world object) (entity0 : string)
    (file : File) (batchId : string) (salesData : list object) (tr : trace object) :
  let out := Part000.persist w entity0 file batchId salesData tr in
  exists ins k errs r,
    Part000.queries out =
      tr ++ ins ++ [(InsertHistory (final_record batchId entity0 file k errs), r)] /\
    Forall is_sales_insert ins /\
    (status (final_record batchId entity0 file k errs) = "success" <-> errs = []) /\
    (status (final_record batchId entity0 file k errs) = "partial" <-> errs <> []) /\
    (salesData = [] -> ins = [] /\ k = 0%nat /\ errs = []) /\
    (is_rejected r = false ->
     http_status (Part000.reply out) = 200%nat /\
     member "success" (body (Part000.reply out)) = Some (JBool true) /\
     member "rowsInserted" (body (Part000.reply out)) = Some (JNum k) /\
     member "totalRows" (body (Part000.reply out)) =
       Some (JNum (List.length salesData)) /\
     member "errors" (body (Part000.reply out)) =
       if (0 <? List.length errs)%nat then Some (JStrs errs) else None) /\
    (is_rejected r = true -> http_status (Part000.reply out) = 500%nat).
Proof.
  intros out.
  destruct (insert_all_account w salesData tr) as (ins & k & errs & E & F & Z & _).
  destruct (part000_persist_account w entity0 file batchId salesData tr ins k errs E)
    as (Q & R2 & R5).
  exists ins, k, errs, (w (List.length (tr ++ ins))
                          (InsertHistory (final_record batchId entity0 file k errs))).
  split; [exact Q | ]. split; [exact F | ].
  split.
  { unfold final_record. cbn [status]. destruct errs; cbn; split; congruence. }
  split.
  { unfold final_record. cbn [status]. destruct errs; cbn; split; congruence. }
  split; [exact Z | ]. split; [ | exact R5].
  intros J. subst out. rewrite (R2 J). cbn [http_status body].
  split; [reflexivity | ]. split; [reflexivity | ]. split; [reflexivity | ].
  split; [reflexivity | ].
  destruct (0 <? List.length errs)%nat; reflexivity.
Qed.

(** X17.  When the bulk insert
    resolves with an error, part_000 inserts the rows one by one, in order:
    the count it reports is the number of rows stored, and that count and
    the number of error lines add up to the number of rows.  When the bulk
    insert rejects there is no second attempt: nothing is stored and the
    one error line carries the message. *)
Theorem part000_failed_bulk_insert (w : world object) (entity0 : string)
    (file : File) (batchId : string) (salesData : list object) (tr : trace object) :
  salesData <> [] ->
  let bulk := InsertSales salesData true in
  took_effect (w (List.length tr) bulk) = false ->
  let out := Part000.persist w entity0 file batchId salesData tr in
  exists singles k errs r,
    Part000.queries out =
      tr ++ (bulk, w (List.length tr) bulk) :: singles ++
      [(InsertHistory (final_record batchId entity0 file k errs), r)] /\
    k = List.length (sales_table singles) /\
    sales_table (Part000.queries out) = sales_table tr ++ sales_table singles /\
    (forall msg,
       w (List.length tr) bulk = Rejected msg ->
       singles = [] /\ errs = [("Failed to insert data: " ++ msg)%string]) /\
    (is_rejected (w (List.length tr) bulk) = false ->
     sales_inserts singles = map (fun row => [row]) salesData /\
     (k + List.length errs = List.length salesData)%nat).
Proof.
  intros Ne bulk TE out. subst out bulk.
  destruct (insert_all_account w salesData tr) as (ins & k & errs & E & _ & _ & B).
  destruct (B Ne) as (singles & -> & M). cbv zeta in M.
  destruct (part000_persist_account w entity0 file batchId salesData tr _ k errs E)
    as (Q & _).
  set (r0 := w (List.length tr) (InsertSales salesData true)) in *.
  exists singles, k, errs,
    (w (List.length (tr ++ (InsertSales salesData true, r0) :: singles))
       (InsertHistory (final_record batchId entity0 file k errs))).
  split; [exact Q | ].
  assert (K : k = List.length (sales_table singles)).
  { destruct r0 as [d [e | ] | msg].
    - apply M.
    - discriminate TE.
    - destruct M as (-> & -> & _). reflexivity. }
  split; [exact K | ].
  split.
  { rewrite Q, sales_table_app. f_equal.
    cbn [app sales_table]. rewrite TE.
    rewrite sales_table_app. cbn [sales_table]. apply app_nil_r. }
  split.
  - intros msg W. rewrite W in M. destruct M as (-> & _ & ->). split; reflexivity.
  - intros J. destruct r0 as [d [e | ] | msg].
    + destruct M as (SI & _ & L). split; [exact SI | exact L].
    + discriminate TE.
    + discriminate J.
Qed.

Lemma part000_failed_bulk_insert_witness :
  let rows := [Sample.db_row; Sample.db_row] in
  let out :=
    Part000.persist (fun k _ => if (k <? 3)%nat
                                then Resolved None (Some (Sample.db_error "duplicate key"))
                                else Resolved None None)
      "USA" Sample.xlsx "0b7a-batch" rows [(ProbeSales, Resolved None None)] in
  exists singles k errs r,
    Part000.queries out =
      (ProbeSales, Resolved None None)
      :: (InsertSales rows true,
          Resolved None (Some (Sample.db_error "duplicate key")))
      :: singles ++
         [(InsertHistory (final_record "0b7a-batch" "USA" Sample.xlsx k errs), r)] /\
    k = List.length (sales_table singles) /\
    (k + List.length errs = 2)%nat.
Proof.
  intros rows out.
  destruct (part000_failed_bulk_insert
              (fun k _ => if (k <? 3)%nat
                          then Resolved None (Some (Sample.db_error "duplicate key"))
                          else Resolved None None)
              "USA" Sample.xlsx "0b7a-batch" rows [(ProbeSales, Resolved None None)])
    as (singles & k & errs & r & Q & K & _ & _ & L).
  - discriminate.
  - reflexivity.
  - exists singles, k, errs, r. split; [exact Q | ]. split; [exact K | ].
    apply L. reflexivity.
Defined.

(* ================================================================= *)
(** ** The statuses written and the icons of the upload page *)

Section Statuses.
Context {row : Type}.

Lemma history_table_statuses (P : string -> Prop) (tr : trace row) :
  (forall q r,
     In (q, r) tr ->
     match q with
     | InsertHistory rec => P (status rec)
     | UpdateHistory st _ _ => P st
     | _ => True
     end) ->
  forall table,
    Forall (fun rec => P (status rec)) table ->
    Forall (fun rec => P (status rec)) (history_table tr table).
Proof.
  induction tr as [|[q r] tr IH]; intros Hq table Ht; [exact Ht | ].
  cbn [history_table]. apply IH.
  - intros q' r' I. apply (Hq q' r'). right. exact I.
  - destruct (took_effect r); [ | exact Ht].
    pose proof (Hq q r (or_introl eq_refl)) as Pq.
    destruct q as [rec | st e id | rows ret | ]; try exact Ht.
    + apply Forall_app. split; [exact Ht | constructor; [exact Pq | constructor]].
    + apply Forall_forall. intros x Ix. apply in_map_iff in Ix.
      destruct Ix as (y & <- & Iy). rewrite Forall_forall in Ht.
      unfold patch. destruct (batch_id y =? id)%string; [exact Pq | apply Ht, Iy].
Qed.

Lemma sales_inserts_keep_history (ins : trace row) (table : list upload_history) :
  Forall is_sales_insert ins -> history_table ins table = table.
Proof.
  intros F. revert table.
  induction F as [ | [q r] ins (rows & ret & E) _ IH]; intros table; [reflexivity | ].
  cbn [fst] in E. subst q. cbn [history_table]. rewrite IH.
  destruct (took_effect r); reflexivity.
Qed.

End Statuses.

Section Part000Runs.
Variable h : Host.
Variable getY : Date -> number.
Variable getQ : Date -> string.
Variable MAX : Z.
Variable parse : File -> string + list object.
Variable validate : list object -> string -> bool * list string.
Variable uuid : string.
Variable req : Request.
Variable w : world object.

Lemma check_inl (o : Part000.outcome) :
  Part000.check h MAX req = inl o ->
  Part000.queries o = [] /\ http_status (Part000.reply o) = 400%nat.
Proof.
  unfold Part000.check. intros P.
  repeat match type of P with
         | match ?x with _ => _ end = _ => destruct x eqn:?
         | (if ?b then _ else _) = _ => destruct b eqn:?
         | inl _ = inl _ => injection P as <-
         | inr _ = inl _ => discriminate P
         end; split; reflexivity.
Qed.

(** The queries of a run of part_000: none, the probe alone, or the probe,
    inserts into sales_data and the history record. *)
Lemma part000_POST_queries :
  let out := Part000.POST h getY getQ MAX parse validate uuid req w in
  Part000.queries out = [] \/
  (exists r, Part000.queries out = [(ProbeSales, r)]) \/
  exists file entity0 r0 ins k errs r,
    Part000.check h MAX req = inr (file, entity0) /\
    Part000.queries out =
      [(ProbeSales, r0)] ++ ins ++
      [(InsertHistory (final_record uuid entity0 file k errs), r)] /\
    Forall is_sales_insert ins.
Proof.
  unfold Part000.POST.
  destruct (Part000.check h MAX req) as [o | [file entity0]] eqn:C.
  { left. apply (check_inl o C). }
  destruct (parse file) as [msg | excelData]; [left; reflexivity | ].
  destruct (List.length excelData =? 0)%nat; [left; reflexivity | ].
  destruct (validate excelData entity0) as [valid errors].
  destruct valid; cbn [negb]; [ | left; reflexivity].
  unfold call. cbn [List.length app].
  set (data := Part000.mapRows h getY getQ entity0 uuid excelData).
  assert (G : forall r0,
             exists ins k errs r,
               Part000.queries
                 (Part000.persist w entity0 file uuid data [(ProbeSales, r0)]) =
               [(ProbeSales, r0)] ++ ins ++
               [(InsertHistory (final_record uuid entity0 file k errs), r)] /\
               Forall is_sales_insert ins).
  { intros r0.
    destruct (insert_all_account w data [(ProbeSales, r0)])
      as (ins & k & errs & E & F & _).
    destruct (part000_persist_account w entity0 file uuid data _ ins k errs E)
      as (Q & _).
    exists ins, k, errs,
      (w (List.length ([(ProbeSales, r0)] ++ ins))
         (InsertHistory (final_record uuid entity0 file k errs))).
    split; [exact Q | exact F]. }
  destruct (w 0%nat ProbeSales) as [d [e | ] | msg] eqn:W.
  - destruct (code e =? "42P01")%string.
    + right. left. eexists. reflexivity.
    + right. right. destruct (G (Resolved d (Some e))) as (ins & k & errs & r & Q & F).
      exists file, entity0, (Resolved d (Some e)), ins, k, errs, r.
      split; [reflexivity | ]. split; [exact Q | exact F].
  - right. right. destruct (G (Resolved d None)) as (ins & k & errs & r & Q & F).
    exists file, entity0, (Resolved d None), ins, k, errs, r.
    split; [reflexivity | ]. split; [exact Q | exact F].
  - right. left. eexists. reflexivity.
Qed.

End Part000Runs.

(** X18.  The page draws the green check for
    status success and the red cross for status failed only.  A history
    record written by route.ts is never drawn with the green check: a batch
    answered with 200 keeps the clock.  A history record written by
    part_000 is never drawn with the red cross, also when no row was
    stored. *)
Theorem upload_page_icons :
  (forall h XLSX_read uuidv4 req (w : world Route.mappedRow) rec,
     uuidv4 <> "" ->
     let out := Route.POST h XLSX_read uuidv4 req w in
     In rec (history_table (Route.queries out) []) ->
     UploadPage.getStatusIcon (status rec) <> UploadPage.CheckCircle2 /\
     (http_status (Route.reply out) = 200%nat ->
      UploadPage.getStatusIcon (status rec) = UploadPage.Clock)) /\
  (forall h getY getQ max parse validate uuid req (w : world object) rec,
     let out := Part000.POST h getY getQ max parse validate uuid req w in
     In rec (history_table (Part000.queries out) []) ->
     UploadPage.getStatusIcon (status rec) <> UploadPage.XCircle /\
     (status rec = "success" \/ status rec = "partial")).
Proof.
  split.
  - intros h XLSX_read uuidv4 req w rec Hu out I. split.
    + assert (S : status rec = "processing" \/ status rec = "failed" \/
                  status rec = "completed").
      { revert rec I. apply Forall_forall.
        apply (history_table_statuses
                 (fun s => s = "processing" \/ s = "failed" \/ s = "completed"));
          [ | constructor].
        pose proof (POST_shape h XLSX_read uuidv4 Hu req w) as Sh.
        change (Route.POST h XLSX_read uuidv4 req w) with out in Sh.
        assert (C : forall fin, Forall (closing uuidv4) fin ->
                      forall q r, In (q, r) fin ->
                        match q with
                        | InsertHistory rec => status rec = "processing" \/
                            status rec = "failed" \/ status rec = "completed"
                        | UpdateHistory st _ _ => st = "processing" \/
                            st = "failed" \/ st = "completed"
                        | _ => True
                        end).
        { intros fin F q r Iq. rewrite Forall_forall in F.
          destruct (F _ Iq) as (st & e & E & D). cbn [fst] in E. subst q. tauto. }
        assert (N : forall ins, Forall chunk_insert ins ->
                      forall q r, In (q, r) ins ->
                        match q with
                        | InsertHistory rec => status rec = "processing" \/
                            status rec = "failed" \/ status rec = "completed"
                        | UpdateHistory st _ _ => st = "processing" \/
                            st = "failed" \/ st = "completed"
                        | _ => True
                        end).
        { intros ins F q r Iq. rewrite Forall_forall in F.
          destruct (F _ Iq) as (rows & E). cbn [fst] in E. subst q. exact Logic.I. }
        destruct Sh as [(Q & _) | (file & e & td & errs & _ & _ & Sh)].
        { rewrite Q. intros q r []. }
        cbv zeta in Sh.
        destruct Sh as [(_ & Q & _) | [(_ & _ & _ & _ & fin & Q & _ & F) |
                         (_ & ins & fin & new & Q & FI & _ & _ & F & _)]];
          rewrite Q; intros q r Iq.
        - destruct Iq as [E | []]. injection E as <- _. left. reflexivity.
        - apply in_app_or in Iq. destruct Iq as [[E | []] | Iq].
          + injection E as <- _. left. reflexivity.
          + exact (C fin F q r Iq).
        - apply in_app_or in Iq. destruct Iq as [[E | []] | Iq].
          + injection E as <- _. left. reflexivity.
          + apply in_app_or in Iq. destruct Iq as [Iq | Iq].
            * exact (N ins FI q r Iq).
            * exact (C fin F q r Iq). }
      destruct S as [-> | [-> | ->]]; discriminate.
    + intros S2.
      pose proof (POST_account h XLSX_read uuidv4 req w) as A.
      change (Route.POST h XLSX_read uuidv4 req w) with out in A.
      destruct A as [(S4 & _) |
                     (file & e & td & errs & _ & _ & rest & k & Q & _ & _ & _ & _ & _ & C)].
      { rewrite S4 in S2. discriminate S2. }
      destruct C as [(S5 & _) | (_ & _ & TE & ins & r & EN & FI & _)].
      { rewrite S5 in S2. discriminate S2. }
      rewrite Q, EN in I. cbn [history_table] in I. rewrite TE in I.
      rewrite history_table_app, (chunk_inserts_table ins) in I by exact FI.
      cbn [history_table app map] in I.
      destruct (took_effect r).
      * destruct I as [<- | []]. unfold patch, processing_record. cbn [batch_id].
        rewrite String.eqb_refl. reflexivity.
      * destruct I as [<- | []]. reflexivity.
  - intros h getY getQ max parse validate uuid req w rec out I.
    assert (S : status rec = "success" \/ status rec = "partial").
    { pose proof (part000_POST_queries h getY getQ max parse validate uuid req w) as Sh.
      change (Part000.POST h getY getQ max parse validate uuid req w) with out in Sh.
      destruct Sh as [Q | [(r & Q) | (file & e & r0 & ins & k & errs & r & _ & Q & F)]].
      - rewrite Q in I. destruct I.
      - rewrite Q in I. cbn in I. destruct (took_effect r); destruct I.
      - rewrite Q in I. rewrite !history_table_app in I.
        rewrite (sales_inserts_keep_history ins) in I by exact F.
        cbn [history_table app] in I.
        destruct (took_effect r0), (took_effect r); cbn in I;
          try (destruct I as [<- | []]; unfold final_record; cbn [status];
               destruct (0 <? List.length errs)%nat; tauto);
          destruct I. }
    split; [ | exact S]. destruct S as [-> | ->]; discriminate.
Qed.

Lemma upload_page_icons_witness :
  map (fun rec => UploadPage.getStatusIcon (status rec))
    (history_table
       (Route.queries
          (Sample.route (Sample.sheet 3) (Sample.request "USA") Sample.accepting)) [])
  = [UploadPage.Clock] /\
  forall rec,
    In rec (history_table
              (Route.queries
                 (Sample.route (Sample.sheet 3) (Sample.request "USA")
                    Sample.accepting)) []) ->
    UploadPage.getStatusIcon (status rec) <> UploadPage.CheckCircle2.
Proof.
  split; [vm_compute; reflexivity | ].
  intros rec I.
  apply (proj1 upload_page_icons Sample.utc (fun _ => Route.Sheet (Sample.sheet 3))
           "0b7a-batch" (Sample.request "USA") Sample.accepting rec);
    [discriminate | exact I].
Defined.

(* ================================================================= *)
(** ** The checks of the two handlers *)

(** X19.  A request that passes the checks of
    route.ts passes the checks of part_000 whenever the size limit
    configured there is at least 50 MB; part_000 lets through requests
    that route.ts turns down, such as a file with the extension .xlsx
    and no media type for an entity outside the six. *)
Theorem part000_checks_are_weaker (h : Host) (XLSX_read : File -> Route.workbook)
    (max : Z) (req : Request) (file : File) (entity0 : string) :
  Route.MAX_FILE_SIZE <= max ->
  (validated XLSX_read req file entity0 ->
   Part000.check h max req = inr (file, entity0)) /\
  (let other :=
     {| form_file := Some {| name := "Sales.XLSX"; size := 0; type := "" |};
        form_entity := Some "Mars" |} in
   (exists f e, Part000.check h max other = inr (f, e)) /\
   exists o, Route.prepare h XLSX_read other = inl o).
Proof.
  intros Hm. split.
  - intros (Ff & Fe & Ve & Sz & Vt & _).
    unfold Part000.check. rewrite Ff, Fe.
    replace (max <? size file) with false by (symmetry; apply Z.ltb_ge; lia).
    assert (T : existsb (String.eqb (type file)) Part000.validTypes = true).
    { cbn in Vt. destruct Vt as [<- | [<- | []]]; reflexivity. }
    rewrite T, andb_false_r.
    cbn in Ve.
    destruct Ve as [<- | [<- | [<- | [<- | [<- | [<- | []]]]]]]; reflexivity.
  - cbv zeta. split.
    + unfold Part000.check. cbn [form_file form_entity size].
      replace (max <? 0) with false
        by (symmetry; apply Z.ltb_ge; unfold Route.MAX_FILE_SIZE in Hm; lia).
      eexists. eexists. reflexivity.
    + eexists. reflexivity.
Qed.

Lemma part000_checks_are_weaker_witness :
  Part000.check Sample.utc 104857600 (Sample.request "USA") = inr (Sample.xlsx, "USA").
Proof.
  apply (proj1 (part000_checks_are_weaker Sample.utc
                  (fun _ => Route.Sheet (Sample.sheet 3)) 104857600
                  (Sample.request "USA") Sample.xlsx "USA" ltac:(discriminate))).
  unfold validated. cbn.
  split; [reflexivity | ]. split; [reflexivity | ]. split; [tauto | ].
  split; [discriminate | ]. split; [tauto | ].
  eexists. split; [reflexivity | discriminate].
Defined.

(* ================================================================= *)
(** ** part_000: the columns of a row *)

Section RowColumns.
Variable h : Host.
Variable row : object.

Lemma set_keys (o : object) (k : string) (v : value) :
  ~ In k (map fst o) -> map fst (Part000.set o k v) = map fst o ++ [k].
Proof.
  induction o as [|[k0 v0] o IH]; cbn [Part000.set map fst app]; [reflexivity | ].
  intros N. destruct (String.eqb_spec k0 k) as [E | _].
  - exfalso. apply N. left. exact E.
  - cbn [map fst]. rewrite IH; [reflexivity | ]. intros I. apply N. right. exact I.
Qed.

Lemma fill_keys (cols : list (string * string)) :
  forall dbRow dbRow',
    Part000.fill h row cols dbRow = Some dbRow' ->
    NoDup (map fst dbRow ++ map snd cols) ->
    map fst dbRow' = map fst dbRow ++ map snd cols.
Proof.
  induction cols as [|[ec dc] cols IH]; intros dbRow dbRow' F D.
  - injection F as <-. cbn. rewrite app_nil_r. reflexivity.
  - cbn [Part000.fill] in F.
    destruct (Part000.columnValue h row ec dc) as [v | ]; [ | discriminate F].
    cbn [map snd] in D |- *.
    assert (N : ~ In dc (map fst dbRow)).
    { intros I. apply NoDup_remove_2 in D. apply D, in_or_app. left. exact I. }
    rewrite (IH _ _ F).
    + rewrite set_keys by exact N. rewrite <- app_assoc. reflexivity.
    + rewrite set_keys by exact N. rewrite <- app_assoc. exact D.
Qed.

End RowColumns.

Lemma sales_columns_distinct : NoDup sales_columns.
Proof.
  assert (E : nodup string_dec sales_columns = sales_columns)
    by (vm_compute; reflexivity).
  rewrite <- E. apply NoDup_nodup.
Qed.

(** X20.  Every row that part_000 builds has
    the same ninety columns, in the same order, whatever headers the sheet
    has: the entity of the form, the year, the quarter and the batch
    identifier, then the columns of the table; a header that is absent
    leaves its column null or, for a numeric column, zero. *)
Theorem part000_row_columns (h : Host) (getY : Date -> number)
    (getQ : Date -> string) (entity0 batchId : string) (row dbRow : object) :
  Part000.mapRow h getY getQ entity0 batchId row = Some dbRow ->
  map fst dbRow = sales_columns /\
  List.length dbRow = 90%nat /\
  get dbRow "entity" = VStr entity0 /\
  get dbRow "upload_batch_id" = VStr batchId /\
  (forall excelCol dbCol,
     In (excelCol, dbCol) Part000.columnMapping ->
     (forall k v, In (k, v) row -> toLowerCase k <> toLowerCase excelCol) ->
     get dbRow dbCol =
       if Part000.is_date_column dbCol then VNull
       else if Part000.is_numeric_column dbCol then VNum (Num 0)
       else VNull).
Proof.
  intros M. unfold Part000.mapRow in M.
  destruct (Part000.yearQuarter getY getQ (Part000.invoiceDateOf h row)) as [y q].
  assert (K : map fst dbRow = sales_columns).
  { rewrite (fill_keys h row _ _ _ M); [reflexivity | apply sales_columns_distinct]. }
  split; [exact K | ].
  split.
  { rewrite <- (length_map fst), K. vm_compute. reflexivity. }
  split.
  { rewrite (fill_get_other h row "entity" _ _ _ M); [reflexivity | ].
    apply not_In_existsb. vm_compute. reflexivity. }
  split.
  { rewrite (fill_get_other h row "upload_batch_id" _ _ _ M); [reflexivity | ].
    apply not_In_existsb. vm_compute. reflexivity. }
  intros ec dc I Miss.
  apply in_split in I. destruct I as (pre & post & E).
  assert (N : ~ In dc (map snd post)).
  { pose proof sales_columns_distinct as D. unfold sales_columns in D.
    rewrite E, map_app in D. cbn [map snd] in D.
    rewrite app_assoc in D. apply NoDup_remove_2 in D.
    intros I. apply D, in_or_app. right. exact I. }
  rewrite E in M.
  pose proof (fill_get_column h row dc ec pre post _ _ M N) as C.
  assert (G : Part000.getValue row ec = VNull).
  { unfold Part000.getValue.
    destruct (find_no_header row ec Miss) as (F & U). rewrite U, F. reflexivity. }
  unfold Part000.columnValue in C. rewrite G in C.
  destruct (Part000.is_date_column dc).
  - cbn in C. injection C as <-. reflexivity.
  - destruct (Part000.is_numeric_column dc).
    + assert (P0 : Part000.parseNumber h VNull = Num 0).
      { unfold Part000.parseNumber. cbn [toString]. reflexivity. }
      rewrite P0 in C. cbn in C. injection C as <-. reflexivity.
    + injection C as <-. reflexivity.
Qed.

Lemma part000_row_columns_witness :
  exists dbRow,
    Part000.mapRow Sample.utc (Part000.getYearFromDate Sample.utc)
      (Part000.getQuarterFromDate Sample.utc) "USA" "0b7a-batch"
      [("invoice", VStr "INV-1")] = Some dbRow /\
    List.length dbRow = 90%nat /\
    get dbRow "entity" = VStr "USA" /\
    get dbRow "upload_batch_id" = VStr "0b7a-batch" /\
    get dbRow "invoice" = VStr "INV-1" /\
    get dbRow "quantity" = VNum (Num 0) /\
    get dbRow "due_date" = VNull.
Proof.
  destruct (Part000.mapRow Sample.utc (Part000.getYearFromDate Sample.utc)
              (Part000.getQuarterFromDate Sample.utc) "USA" "0b7a-batch"
              [("invoice", VStr "INV-1")]) as [dbRow | ] eqn:M;
    [ | vm_compute in M; discriminate M].
  exists dbRow. split; [reflexivity | ].
  destruct (part000_row_columns Sample.utc (Part000.getYearFromDate Sample.utc)
              (Part000.getQuarterFromDate Sample.utc) "USA" "0b7a-batch"
              [("invoice", VStr "INV-1")] dbRow M) as (_ & L & E & B & C).
  split; [exact L | ]. split; [exact E | ]. split; [exact B | ].
  split; [vm_compute in M; injection M as <-; reflexivity | ].
  split.
  - apply (C "Quantity" "quantity").
    + vm_compute. tauto.
    + intros k v [X | []]. injection X as <- _. discriminate.
  - apply (C "Due date" "due_date").
    + vm_compute. tauto.
    + intros k v [X | []]. injection X as <- _. discriminate.
Defined.

(* ================================================================= *)
(** ** The dashboard page: the entities of a request *)

(** X21.  For a selection without repetition among the six
    entities, the dashboard asks for All exactly when nothing or every
    entity is selected: the test on the number of entities selected stands
    for the test that all are. *)
Theorem dashboard_entityParam_all (entities : list string) :
  NoDup entities ->
  incl entities Route.validEntities ->
  (Dashboard.entityParam entities = "All" <->
   entities = [] \/ incl Route.validEntities entities).
Proof.
  intros D Inc. unfold Dashboard.entityParam.
  assert (D6 : NoDup Route.validEntities).
  { repeat constructor; cbn; intuition discriminate. }
  pose proof (NoDup_incl_length D Inc) as L. cbn [Route.validEntities List.length] in L.
  split.
  - destruct (Nat.eqb_spec (List.length entities) 0) as [Z | NZ];
      [intros _; left; apply length_zero_iff_nil, Z | ].
    destruct (Nat.eqb_spec (List.length entities) 6) as [S6 | NS].
    + intros _. right. apply (NoDup_length_incl D); [ | exact Inc].
      rewrite S6. apply Nat.le_refl.
    + cbn [orb]. intros C. exfalso.
      destruct entities as [|x rest]; [apply NZ; reflexivity | ].
      assert (Ix : In x Route.validEntities) by (apply Inc; left; reflexivity).
      cbn in Ix.
      destruct rest as [|y rest];
        destruct Ix as [<- | [<- | [<- | [<- | [<- | [<- | []]]]]]];
        cbn in C; discriminate C.
  - intros [-> | All]; [reflexivity | ].
    pose proof (NoDup_incl_length D6 All) as L'.
    cbn [Route.validEntities List.length] in L'.
    assert (E : List.length entities = 6%nat) by lia.
    rewrite E. reflexivity.
Qed.

Lemma dashboard_entityParam_all_witness :
  Dashboard.entityParam ["USA"; "HQ"] <> "All" /\
  Dashboard.entityParam ["Korot"; "Healthcare"; "Vietnam"; "BWA"; "USA"; "HQ"] = "All".
Proof.
  split.
  - intros E.
    apply (dashboard_entityParam_all ["USA"; "HQ"]) in E.
    + destruct E as [E | E]; [discriminate E | ].
      specialize (E "BWA"). cbn in E. intuition discriminate.
    + repeat constructor; cbn; intuition discriminate.
    + intros x I. cbn in I |- *. intuition.
  - apply (dashboard_entityParam_all
             ["Korot"; "Healthcare"; "Vietnam"; "BWA"; "USA"; "HQ"]).
    + repeat constructor; cbn; intuition discriminate.
    + intros x I. cbn in I |- *. intuition.
    + right. intros x I. cbn in I |- *. intuition.
Defined.

(* ================================================================= *)
(** ** part_000: a sheet with the header Date *)

(** X22.  In part_000 the year and the quarter are taken from the cell
    under Invoice date or, when that is absent or falsy, from the cell under
    Date, while the column invoice_date is filled from Invoice date alone:
    a row dated under the header Date is stored with a year and a quarter
    and a null invoice_date. *)
Theorem part000_date_header_fallback (h : Host) (getY : Date -> number)
    (getQ : Date -> string) (entity0 batchId : string) (row dbRow : object)
    (d : Date) :
  Part000.mapRow h getY getQ entity0 batchId row = Some dbRow ->
  truthy (Part000.getValue row "Invoice date") = false ->
  Part000.parseDateValue h (Part000.getValue row "Date") = Some d ->
  get dbRow "invoice_date" = VNull /\
  get dbRow "year" = VNum (getY d) /\
  get dbRow "quarter" = VStr (getQ d).
Proof.
  intros M F D.
  destruct (part000_row_dates h getY getQ entity0 batchId row dbRow M) as (YQ & C).
  assert (I : Part000.invoiceDateOf h row = Some d).
  { unfold Part000.invoiceDateOf, or_else. rewrite F. exact D. }
  rewrite I in YQ. cbn [Part000.yearQuarter] in YQ. injection YQ as -> ->.
  split; [ | split; reflexivity].
  unfold Part000.columnValue in C.
  change (Part000.is_date_column "invoice_date") with true in C. cbv iota in C.
  unfold Part000.parseDateValue in C. rewrite F in C. cbn [negb] in C.
  injection C as <-. reflexivity.
Qed.

Lemma part000_date_header_fallback_witness :
  exists dbRow,
    Part000.mapRow Sample.utc (Part000.getYearFromDate Sample.utc)
      (Part000.getQuarterFromDate Sample.utc) "USA" "0b7a-batch"
      [("Invoice", VStr "INV-1"); ("Date", VStr "2024-05-15")] = Some dbRow /\
    get dbRow "invoice_date" = VNull /\
    get dbRow "year" = VNum (Num (inject_Z 2024)) /\
    get dbRow "quarter" = VStr "Q2".
Proof.
  destruct (Part000.mapRow Sample.utc (Part000.getYearFromDate Sample.utc)
              (Part000.getQuarterFromDate Sample.utc) "USA" "0b7a-batch"
              [("Invoice", VStr "INV-1"); ("Date", VStr "2024-05-15")])
    as [dbRow | ] eqn:M; [ | vm_compute in M; discriminate M].
  exists dbRow. split; [reflexivity | ].
  apply (part000_date_header_fallback Sample.utc (Part000.getYearFromDate Sample.utc)
           (Part000.getQuarterFromDate Sample.utc) "USA" "0b7a-batch"
           [("Invoice", VStr "INV-1"); ("Date", VStr "2024-05-15")] dbRow
           (Some 1715731200000) M); vm_compute; reflexivity.
Defined.

(* ================================================================= *)
(** ** The history record comes first *)

Lemma nth_error_middle {A : Type} (a : A) (mid : list A) (z : A) (i : nat) (x : A) :
  nth_error ([a] ++ mid ++ [z]) i = Some x ->
  i = 0%nat /\ x = a \/
  (1 <= i <= List.length mid)%nat /\ In x mid \/
  i = S (List.length mid) /\ x = z.
Proof.
  destruct i as [ | i]; cbn [app nth_error].
  - intros E. injection E as <-. left. auto.
  - intros E. right. destruct (Nat.lt_ge_cases i (List.length mid)) as [L | G].
    + left. rewrite nth_error_app1 in E by exact L.
      split; [lia | exact (nth_error_In _ _ E)].
    + right. rewrite nth_error_app2 in E by exact G.
      destruct (i - List.length mid)%nat as [ | m] eqn:D.
      * injection E as <-. split; [lia | reflexivity].
      * destruct m; discriminate E.
Qed.

(** C3, as amended.  In every run of the handler of route.ts that reaches
    the persisting phase, on a request that has passed every check, the
    first query is the insert of the history record of the batch in state
    processing; no other history record is written, and an insert into
    sales_data is issued only after that insert took effect.  A request
    that the checks turn down issues no query, so that a history record is
    written only after validation has passed.  part_000 writes its one
    history record as its last query, after its inserts into sales_data,
    with status success or partial. *)
Theorem processing_record_precedes_inserts (h : Host)
    (XLSX_read : File -> Route.workbook) (uuidv4 : string) (req : Request)
    (w : world Route.mappedRow) :
  uuidv4 <> "" ->
  let out := Route.POST h XLSX_read uuidv4 req w in
  (forall file entity0 td errs,
     Route.prepare h XLSX_read req = inr (file, entity0, td, errs) ->
     let q0 := InsertHistory (processing_record uuidv4 entity0 file (List.length td)) in
     validated XLSX_read req file entity0 /\
     exists rest,
       Route.queries out = (q0, w 0%nat q0) :: rest /\
       (forall rec r, ~ In (InsertHistory rec, r) rest) /\
       (sales_inserts rest <> [] -> took_effect (w 0%nat q0) = true)) /\
  (forall o, Route.prepare h XLSX_read req = inl o -> Route.queries out = []) /\
  processing_before_inserts (Route.queries out) /\
  (forall i rec r,
     nth_error (Route.queries out) i = Some (InsertHistory rec, r) ->
     i = 0%nat /\
     exists file entity0 td errs,
       Route.prepare h XLSX_read req = inr (file, entity0, td, errs) /\
       validated XLSX_read req file entity0 /\
       rec = processing_record uuidv4 entity0 file (List.length td)) /\
  (forall getY getQ max parse validate uuid w',
     let out' := Part000.POST h getY getQ max parse validate uuid req w' in
     forall i rec r,
       nth_error (Part000.queries out') i = Some (InsertHistory rec, r) ->
       S i = List.length (Part000.queries out') /\
       (status rec = "success" \/ status rec = "partial") /\
       forall j rows returning r',
         nth_error (Part000.queries out') j = Some (InsertSales rows returning, r') ->
         (j < i)%nat).
Proof.
  intros Hu out.
  assert (Route_part :
    (forall file entity0 td errs,
       Route.prepare h XLSX_read req = inr (file, entity0, td, errs) ->
       let q0 := InsertHistory (processing_record uuidv4 entity0 file (List.length td)) in
       validated XLSX_read req file entity0 /\
       exists rest,
         Route.queries out = (q0, w 0%nat q0) :: rest /\
         Forall (fun qr => chunk_insert qr \/ closing uuidv4 qr) rest /\
         (sales_inserts rest <> [] -> took_effect (w 0%nat q0) = true)) /\
    (forall o, Route.prepare h XLSX_read req = inl o -> Route.queries out = [])).
  { pose proof (POST_shape h XLSX_read uuidv4 Hu req w) as Sh. fold out in Sh. split.
    - intros file entity0 td errs P q0.
      split; [exact (proj1 (prepare_inr h XLSX_read req file entity0 td errs P)) | ].
      destruct Sh as [(Q & B & _) | (file' & entity' & td' & errs' & P' & _ & Sh)].
      + exfalso. subst out. unfold Route.POST in B. rewrite P in B.
        pose proof (persist_shape w entity0 file uuidv4
                      (map (Route.stamp uuidv4) td) errs Hu) as Sp.
        cbv zeta in Sp. destruct Sp as [Bp _]. rewrite Bp in B. contradiction.
      + rewrite P in P'. injection P' as <- <- <- <-. cbv zeta in Sh. fold q0 in Sh.
        destruct Sh as [(_ & Q & _) | [(_ & _ & _ & _ & fin & Q & _ & F) |
                         (T & ins & fin & new & Q & FI & _ & _ & FC & _)]].
        * exists []. split; [exact Q | ]. split; [constructor | ].
          intros N. exfalso. apply N. reflexivity.
        * exists fin. split; [exact Q | ]. split.
          -- eapply Forall_impl; [ | exact F]. intros a C. right. exact C.
          -- intros N. exfalso. apply N.
             exact (proj1 (proj2 (closing_no_sales uuidv4 fin F))).
        * exists (ins ++ fin). split; [exact Q | ]. split; [ | intros _; exact T].
          apply Forall_app. split.
          -- eapply Forall_impl; [ | exact FI]. intros a C. left. exact C.
          -- eapply Forall_impl; [ | exact FC]. intros a C. right. exact C.
    - intros o P. subst out. unfold Route.POST. rewrite P.
      exact (proj1 (proj2 (prepare_inl h XLSX_read req o P))). }
  destruct Route_part as [Started Turned].
  assert (No_history : forall rest : trace Route.mappedRow,
            Forall (fun qr => chunk_insert qr \/ closing uuidv4 qr) rest ->
            forall rec r, ~ In (InsertHistory rec, r) rest).
  { intros rest F rec r I. rewrite Forall_forall in F.
    destruct (F _ I) as [[rows X] | (st & e & X & _)]; discriminate X. }
  split; [ | split; [exact Turned | split; [ | split]]].
  - intros file entity0 td errs P q0.
    destruct (Started file entity0 td errs P) as (V & rest & Q & F & T).
    split; [exact V | ]. exists rest. split; [exact Q | ].
    split; [exact (No_history rest F) | exact T].
  - destruct (Route.prepare h XLSX_read req) as [o | [[[file entity0] td] errs]] eqn:P.
    + rewrite (Turned o eq_refl). intros i rows b r E. destruct i; discriminate E.
    + destruct (Started file entity0 td errs eq_refl) as (_ & rest & Q & F & T).
      intros i rows b r E. rewrite Q in E.
      destruct i as [ | i]; [discriminate E | ].
      exists 0%nat, (processing_record uuidv4 entity0 file (List.length td)),
             (w 0%nat (InsertHistory
                         (processing_record uuidv4 entity0 file (List.length td)))).
      split; [lia | ]. split; [rewrite Q; reflexivity | ].
      split; [reflexivity | ]. apply T. cbn [nth_error] in E.
      clear - E. revert i E. induction rest as [ | [q r0] rest IH]; intros i E.
      * destruct i; discriminate E.
      * destruct i as [ | i].
        -- injection E as -> _. discriminate.
        -- cbn [nth_error] in E. specialize (IH i E).
           destruct q; cbn [sales_inserts]; try exact IH. discriminate.
  - intros i rec r E.
    destruct (Route.prepare h XLSX_read req) as [o | [[[file entity0] td] errs]] eqn:P.
    + rewrite (Turned o eq_refl) in E. destruct i; discriminate E.
    + destruct (Started file entity0 td errs eq_refl) as (V & rest & Q & F & _).
      rewrite Q in E. destruct i as [ | i].
      * injection E as <- _. split; [reflexivity | ].
        exists file, entity0, td, errs. auto.
      * exfalso. cbn [nth_error] in E.
        exact (No_history rest F rec r (nth_error_In _ _ E)).
  - intros getY getQ max parse validate uuid w' out' i rec r E.
    pose proof (part000_POST_queries h getY getQ max parse validate uuid req w') as Sh.
    cbv zeta in Sh. fold out' in Sh.
    destruct Sh as [Q | [(r0 & Q) | (file & entity0 & r0 & ins & k & errs & r1 & _ & Q & F)]].
    + rewrite Q in E. destruct i; discriminate E.
    + rewrite Q in E. destruct i as [ | [ | i]]; discriminate E.
    + rewrite Q in E |- *.
      assert (Not_history : forall rec0 r2, ~ In (InsertHistory rec0, r2) ins).
      { intros rec0 r2 I. rewrite Forall_forall in F.
        destruct (F _ I) as (rows & b & X). discriminate X. }
      destruct (nth_error_middle _ _ _ _ _ E) as [[_ X] | [[_ I] | [-> X]]].
      * discriminate X.
      * exfalso. exact (Not_history rec r I).
      * injection X as -> _.
        split; [rewrite !length_app; cbn [List.length]; lia | ].
        split.
        -- unfold final_record. cbn [status].
           destruct (0 <? List.length errs)%nat; [right | left]; reflexivity.
        -- intros j rows b r' Ej.
           destruct (nth_error_middle _ _ _ _ _ Ej) as [[_ X] | [[B _] | [_ X]]].
           ++ discriminate X.
           ++ lia.
           ++ discriminate X.
Qed.

(** The theorem on a sheet of three rows and a database that accepts every
    query. *)
Lemma processing_record_precedes_inserts_witness :
  let out := Sample.route (Sample.sheet 3) (Sample.request "USA") Sample.accepting in
  (exists rest,
     Route.queries out =
       (InsertHistory (processing_record "0b7a-batch" "USA" Sample.xlsx 3),
        Resolved None None) :: rest /\
     forall rec r, ~ In (InsertHistory rec, r) rest) /\
  processing_before_inserts (Route.queries out).
Proof.
  pose proof (processing_record_precedes_inserts Sample.utc
                (fun _ => Route.Sheet (Sample.sheet 3)) "0b7a-batch"
                (Sample.request "USA") Sample.accepting ltac:(discriminate))
    as (Started & _ & B & _).
  split; [ | exact B].
  destruct (Started Sample.xlsx "USA" (Sample.mapped_sheet 3) [] eq_refl)
    as (_ & rest & Q & N & _).
  exists rest. split; [exact Q | exact N].
Defined.

(** C3, as stated, fails on part_000: its persisting phase inserts the rows
    first and writes the one history record afterwards, in its final state. *)
Lemma history_after_inserts_counterexample :
  let out :=
    Part000.persist Sample.storing "USA" Sample.xlsx "0b7a-batch"
      [Sample.db_row] [(ProbeSales, Resolved None None)] in
  map fst (Part000.queries out) =
    [ProbeSales;
     InsertSales [Sample.db_row] true;
     InsertHistory {| batch_id := "0b7a-batch";
                      history_entity := "USA";
                      file_name := "sales.xlsx";
                      rows_uploaded := 1;
                      status := "success";
                      error_message := None |}] /\
  ~ processing_before_inserts (Part000.queries out).
Proof.
  split; [reflexivity | ].
  intros H.
  destruct (H 1%nat [Sample.db_row] true (Resolved (Some 1%nat) None) eq_refl)
    as (j & rec & r0 & L & E & _).
  destruct j as [ | j]; [discriminate E | lia].
Qed.
